(** * langchain_weaviate.vectorstores: a shallow embedding

    The module [src/langchain_weaviate/vectorstores.py] is an adapter between
    an application and a remote Weaviate collection.  Python values are
    embedded as the inductive [pyval], dictionaries (keyword arguments,
    object properties, document metadata) as [gmap string pyval], exceptions
    as [pyexn], and a method as a function in the monad [M] that threads the
    observable world (the calls sent to the engine, the logger, the UUIDs
    drawn) and may raise.  The engine and the embedding provider are
    collaborators outside the repository: they appear as records of reply
    functions, so every theorem holds for all their behaviours.

    Layout: values, exceptions and the monad; the engine, the store and its
    methods, in the order of the source; the vocabulary of the statements and
    sample collaborators; the proofs, with one theorem per claim; the
    theorems at the sample inputs.

    Two idealisations.  The score normalizer is stated over the real numbers
    ([np.clip] as a minimum of a maximum, [np.exp] as [exp]); floats that are
    only passed along are primitive floats.  [Document] is a plain record:
    the validation langchain_core applies to its fields is not modelled, and
    the statements about successful searches ask for well-formed objects. *)

From Stdlib Require Import Reals Lra.
From Stdlib Require Import Floats.PrimFloat.
From Stdlib Require Import Ascii.
From stdpp Require Import gmap strings list fin_maps.

Local Close Scope R_scope.
Local Open Scope string_scope.
Local Open Scope list_scope.

(** ** Python values and exceptions *)

#[warnings="-register-all"]
Inductive pyval : Type :=
| PNone
| PBool (b : bool)
| PInt (z : Z)
| PFloat (f : float)
| PStr (s : string)
| PDatetime (iso : string)   (* a [datetime.datetime], held by its ISO-8601 form *)
| PList (l : list pyval).

Inductive pyexn : Type :=
| ValueError (msg : string)
| TypeError (msg : string)
| KeyError (key : string)
| IndexError (msg : string)
| AttributeError (msg : string)
| AssertionError (msg : string)
| WeaviateQueryException (msg : string)
| OtherError (cls msg : string).

(** [v is None] *)
Definition is_none (v : pyval) : bool :=
  match v with PNone => true | _ => false end.

(** [v == "literal"] *)
Definition py_eq_str (v : pyval) (s : string) : bool :=
  match v with PStr s' => String.eqb s' s | _ => false end.

(** truth value of [v], as [if v:] tests it *)
Definition py_truthy (v : pyval) : bool :=
  match v with
  | PNone => false
  | PBool b => b
  | PInt z => negb (Z.eqb z 0)
  | PFloat f => negb (PrimFloat.eqb f 0%float)
  | PStr s => negb (String.eqb s "")
  | PDatetime _ => true
  | PList l => match l with [] => false | _ => true end
  end.

(** ** Results, the world and the monad *)

Inductive Res (A : Type) : Type :=
| Ok (a : A)
| Raise (e : pyexn).
Arguments Ok {A} a.
Arguments Raise {A} e.

Record BatchObject := {
  bo_collection : string;
  bo_properties : gmap string pyval;
  bo_uuid : pyval;
  bo_vector : pyval;
  bo_tenant : pyval }.

(** What the adapter sends to the engine, in the order it sends it. *)
Inductive EngineCall : Type :=
| QueryHybrid (tenant : pyval) (args : gmap string pyval)
| QueryNearVector (tenant : pyval) (args : gmap string pyval)
| QueryNearText (tenant : pyval) (args : gmap string pyval)
| DataDeleteMany (tenant : pyval) (ids : pyval)
| TenantsGet
| TenantsCreate (name : pyval)
| BatchAddObject (o : BatchObject).

Record World := {
  engine_calls : list EngineCall;
  error_log : list string;
  info_log : list string;
  uuids_drawn : nat }.

Definition M (A : Type) : Type := World -> Res A * World.

Definition ret {A} (a : A) : M A := fun w => (Ok a, w).
Definition raise {A} (e : pyexn) : M A := fun w => (Raise e, w).
Definition lift {A} (r : Res A) : M A := fun w => (r, w).

Definition bind {A B} (m : M A) (k : A -> M B) : M B :=
  fun w => match m w with
           | (Ok a, w') => k a w'
           | (Raise e, w') => (Raise e, w')
           end.

Notation "'let*' x ':=' m 'in' k" := (bind m (fun x => k))
  (at level 10, x pattern, m at level 100, k at level 200).

(** [try: m  except ...: h e] *)
Definition try_except {A} (m : M A) (h : pyexn -> M A) : M A :=
  fun w => match m w with
           | (Ok a, w') => (Ok a, w')
           | (Raise e, w') => h e w'
           end.

(** [try: m  finally: f] *)
Definition try_finally {A} (m : M A) (f : M unit) : M A :=
  fun w => match m w with
           | (r, w') => match f w' with
                        | (Ok _, w'') => (r, w'')
                        | (Raise e, w'') => (Raise e, w'')
                        end
           end.

Definition record_call (c : EngineCall) (w : World) : World :=
  {| engine_calls := engine_calls w ++ [c];
     error_log := error_log w;
     info_log := info_log w;
     uuids_drawn := uuids_drawn w |}.

Definition send (c : EngineCall) : M unit :=
  fun w => (Ok tt, record_call c w).

Definition logger_error (msg : string) : M unit :=
  fun w => (Ok tt, {| engine_calls := engine_calls w;
                      error_log := error_log w ++ [msg];
                      info_log := info_log w;
                      uuids_drawn := uuids_drawn w |}).

Definition logger_info (msg : string) : M unit :=
  fun w => (Ok tt, {| engine_calls := engine_calls w;
                      error_log := error_log w;
                      info_log := info_log w ++ [msg];
                      uuids_drawn := uuids_drawn w |}).

(** ** Calls with keyword arguments *)

(** [f(n1=v1, ..., **star)]: a keyword passed twice is a [TypeError]. *)
Definition keywords (explicit : list (string * pyval)) (star : gmap string pyval)
  : Res (gmap string pyval) :=
  if existsb (fun nv => bool_decide (is_Some (star !! nv.1))) explicit
  then Raise (TypeError "got multiple values for keyword argument")
  else Ok (list_to_map explicit ∪ star).

(** A signature [def f(self, p1, p2=d2, ..., **kwargs)]: names with defaults. *)
Definition Signature := list (string * option pyval).

Fixpoint bind_values (sig : Signature) (pos : list pyval) (kw : gmap string pyval)
  : Res (list pyval) :=
  match sig with
  | [] => match pos with
          | [] => Ok []
          | _ :: _ => Raise (TypeError "too many positional arguments")
          end
  | (name, dflt) :: sig' =>
      match pos with
      | v :: pos' =>
          if bool_decide (is_Some (kw !! name))
          then Raise (TypeError "got multiple values for argument")
          else match bind_values sig' pos' kw with
               | Ok vs => Ok (v :: vs)
               | Raise e => Raise e
               end
      | [] =>
          match (match kw !! name with Some v => Some v | None => dflt end) with
          | Some v => match bind_values sig' [] kw with
                      | Ok vs => Ok (v :: vs)
                      | Raise e => Raise e
                      end
          | None => Raise (TypeError "missing a required argument")
          end
      end
  end.

(** the keywords no parameter took: they land in [**kwargs] *)
Definition unbound_keywords (sig : Signature) (kw : gmap string pyval)
  : gmap string pyval :=
  foldr (fun p m => delete p.1 m) kw sig.

(** [seq[i]] *)
Definition py_getitem (v : pyval) (i : nat) : Res pyval :=
  match v with
  | PList l => match l !! i with
               | Some x => Ok x
               | None => Raise (IndexError "list index out of range")
               end
  | PStr s => match String.get i s with
              | Some c => Ok (PStr (String c EmptyString))
              | None => Raise (IndexError "string index out of range")
              end
  | _ => Raise (TypeError "object is not subscriptable")
  end.

(** ** The engine, the embedding provider and the store *)

(** An object of a query reply.  [metadata_dict] is [obj.metadata.__dict__]. *)
Record Object := {
  properties : gmap string pyval;
  metadata_dict : gmap string pyval;
  vector : gmap string pyval;
  uuid : string }.

Record QueryReturn := { objects : list Object }.

Record ErrorObject := { original_uuid : string; message : string }.

(** The replies of the engine.  A query may raise.  [batch_add_object] is
    the client queueing an object, which may raise when it rejects its
    argument; a write that fails on the engine does not raise, it shows up in
    [failed_objects], which the client keeps for what was sent so far. *)
Record WeaviateClient := {
  query_hybrid : pyval -> gmap string pyval -> Res QueryReturn;
  query_near_vector : pyval -> gmap string pyval -> Res QueryReturn;
  query_near_text : pyval -> gmap string pyval -> Res QueryReturn;
  data_delete_many : pyval -> pyval -> Res unit;
  tenants_get : Res (list string);
  tenants_create : pyval -> Res unit;
  batch_add_object : BatchObject -> Res unit;
  failed_objects : list EngineCall -> list ErrorObject }.

Record Embeddings := {
  embed_documents : list string -> Res (list pyval);
  embed_query : pyval -> Res pyval }.

Record WeaviateVectorStore := {
  _client : WeaviateClient;
  _index_name : string;
  _embedding : option Embeddings;
  _text_key : string;
  _query_attrs : list string;
  relevance_score_fn : option (R -> R);
  _multi_tenancy_enabled : bool }.

(** [self._collection.with_tenant(tenant)]: the handle a query goes through *)
Record Collection := {
  coll_client : WeaviateClient;
  coll_tenant : pyval }.

Definition with_tenant (self : WeaviateVectorStore) (tenant : pyval) : Collection :=
  {| coll_client := _client self; coll_tenant := tenant |}.

Definition collection_query_hybrid (c : Collection) (args : gmap string pyval)
  : M QueryReturn :=
  let* _ := send (QueryHybrid (coll_tenant c) args) in
  lift (query_hybrid (coll_client c) (coll_tenant c) args).

Definition collection_query_near_vector (c : Collection) (args : gmap string pyval)
  : M QueryReturn :=
  let* _ := send (QueryNearVector (coll_tenant c) args) in
  lift (query_near_vector (coll_client c) (coll_tenant c) args).

Definition collection_query_near_text (c : Collection) (args : gmap string pyval)
  : M QueryReturn :=
  let* _ := send (QueryNearText (coll_tenant c) args) in
  lift (query_near_text (coll_client c) (coll_tenant c) args).

Definition collection_data_delete_many (c : Collection) (ids : pyval) : M unit :=
  let* _ := send (DataDeleteMany (coll_tenant c) ids) in
  lift (data_delete_many (coll_client c) (coll_tenant c) ids).

(** ** Documents *)

(** [langchain_core.documents.Document] *)
Record Document := {
  page_content : pyval;
  metadata : gmap string pyval }.

(** An element of what [_perform_search] returns: a document, or the tuple
    [(doc, score)] when scores were asked for. *)
Inductive SearchHit : Type :=
| Plain (doc : Document)
| Scored (doc : Document) (score : pyval).

(** ** The score normalizer (over the reals) *)

(** [np.clip(val, lo, hi)] is [minimum(maximum(val, lo), hi)]. *)
Definition np_clip (val lo hi : R) : R := Rmin (Rmax val lo) hi.

Definition _default_score_normalizer (val : R) : R :=
  let val := np_clip val (-709) 709 in
  (1 - 1 / (1 + exp val))%R.

Definition _select_relevance_score_fn (self : WeaviateVectorStore) : R -> R :=
  match relevance_score_fn self with
  | Some f => f
  | None => _default_score_normalizer
  end.

Definition _json_serializable (value : pyval) : pyval :=
  match value with
  | PDatetime iso => PStr iso
  | _ => value
  end.

(** ** The methods of [WeaviateVectorStore] *)

Section Store.

(** Three things the module uses and does not define: Python's [str()] on a
    value that is not a string, the random source behind [uuid4()], and
    [maximal_marginal_relevance] of [langchain_weaviate.utils]
    (query vector, candidate vectors, [k], [lambda_mult]). *)
Variable str_nonstring : pyval -> string.
Variable uuid4 : nat -> string.
Variable maximal_marginal_relevance :
  pyval -> list pyval -> pyval -> pyval -> Res (list nat).

(** [str(v)] *)
Definition py_str (v : pyval) : string :=
  match v with
  | PStr s => s
  | _ => str_nonstring v
  end.

(** [get_valid_uuid(uuid4())] *)
Definition draw_uuid : M pyval :=
  fun w => (Ok (PStr (uuid4 (uuids_drawn w))),
            {| engine_calls := engine_calls w;
               error_log := error_log w;
               info_log := info_log w;
               uuids_drawn := S (uuids_drawn w) |}).

(** The context manager [_tenant_context], applied to the body of its
    [with] block. *)
Definition _tenant_context {A} (self : WeaviateVectorStore) (tenant : pyval)
    (body : Collection -> M A) : M A :=
  if negb (is_none tenant) && negb (_multi_tenancy_enabled self)
  then raise (ValueError "Cannot use tenant context when multi-tenancy is not enabled")
  else if is_none tenant && _multi_tenancy_enabled self
  then raise (ValueError "Must use tenant context when multi-tenancy is enabled")
  else try_finally (body (with_tenant self tenant)) (ret tt).

Definition _does_tenant_exist (self : WeaviateVectorStore) (tenant : pyval)
    : M bool :=
  if negb (_multi_tenancy_enabled self)
  then raise (AssertionError
         "Cannot check for tenant existence when multi-tenancy is not enabled")
  else
    let* _ := send TenantsGet in
    let* tenants := lift (tenants_get (_client self)) in
    match tenant with
    | PStr name => ret (bool_decide (name ∈ tenants))
    | PList _ => raise (TypeError "unhashable type: 'list'")
    | _ => ret false
    end.

(** *** add_texts *)

(** [{self._text_key: text}] updated with the serializable metadata *)
Definition data_properties_of (text_key text : string)
    (metadata_i : option (gmap string pyval)) : gmap string pyval :=
  match metadata_i with
  | Some md => (_json_serializable <$> md) ∪ {[ text_key := PStr text ]}
  | None => {[ text_key := PStr text ]}
  end.

(** the body of [for i, text in enumerate(texts)], from index [i] on *)
Fixpoint add_texts_loop (self : WeaviateVectorStore)
    (metadatas : option (list (gmap string pyval))) (tenant : pyval)
    (kwargs : gmap string pyval) (embeddings : option (list pyval))
    (i : nat) (texts : list string) (ids : list pyval) : M (list pyval) :=
  match texts with
  | [] => ret ids
  | text :: texts' =>
      let* data_properties :=
        match metadatas with
        | None => ret (data_properties_of (_text_key self) text None)
        | Some ms =>
            match ms !! i with
            | Some md => ret (data_properties_of (_text_key self) text (Some md))
            | None => raise (IndexError "list index out of range")
            end
        end in
      let* fresh := draw_uuid in
      let* _id :=
        match kwargs !! "uuids" with
        | Some us => lift (py_getitem us i)
        | None =>
            match kwargs !! "ids" with
            | Some us => lift (py_getitem us i)
            | None => ret fresh
            end
        end in
      let* vec :=
        match embeddings with
        | Some (e :: es) =>
            match (e :: es) !! i with
            | Some v => ret v
            | None => raise (IndexError "list index out of range")
            end
        | _ => ret PNone
        end in
      let obj := {| bo_collection := _index_name self;
                    bo_properties := data_properties;
                    bo_uuid := _id;
                    bo_vector := vec;
                    bo_tenant := tenant |} in
      let* _ := send (BatchAddObject obj) in
      let* _ := lift (batch_add_object (_client self) obj) in
      add_texts_loop self metadatas tenant kwargs embeddings (S i) texts'
                     (ids ++ [_id])
  end.

Definition failure_message (obj : ErrorObject) : string :=
  "Failed to add object: " +:+ original_uuid obj +:+
  String (Ascii.ascii_of_nat 10) "Reason: " +:+ message obj.

Fixpoint log_failures (failed_objs : list ErrorObject) : M unit :=
  match failed_objs with
  | [] => ret tt
  | obj :: rest =>
      let* _ := logger_error (failure_message obj) in
      log_failures rest
  end.

(** [if tenant and not self._does_tenant_exist(tenant)]: create it *)
Definition create_tenant_if_absent (self : WeaviateVectorStore) (tenant : pyval)
    : M unit :=
  if py_truthy tenant then
    let* exists_ := _does_tenant_exist self tenant in
    if negb exists_ then
      let* _ := logger_info ("Tenant " +:+ py_str tenant +:+
                  " does not exist in index " +:+ _index_name self +:+
                  ". Creating tenant.") in
      let* _ := send (TenantsCreate tenant) in
      lift (tenants_create (_client self) tenant)
    else ret tt
  else ret tt.

Definition add_texts (self : WeaviateVectorStore) (texts : list string)
    (metadatas : option (list (gmap string pyval))) (tenant : pyval)
    (kwargs : gmap string pyval) : M (list pyval) :=
  let* _ := create_tenant_if_absent self tenant in
  let* embeddings :=
    match _embedding self with
    | Some emb =>
        let* es := lift (embed_documents emb texts) in ret (Some es)
    | None => ret None
    end in
  let* ids := add_texts_loop self metadatas tenant kwargs embeddings 0 texts [] in
  let* failed_objs :=
    (fun w => (Ok (failed_objects (_client self) (engine_calls w)), w)) in
  let* _ := log_failures failed_objs in
  ret ids.

(** *** _perform_search *)

(** [needle in hay] on two strings *)
Definition str_contains (needle hay : string) : bool :=
  match String.index 0 needle hay with Some _ => true | None => false end.

(** The [return_properties] step: when the caller restricts the returned
    properties, the text key is appended unless it is already there. *)
Definition add_text_key_to_return_properties (text_key : string)
    (kwargs : gmap string pyval) : Res (gmap string pyval) :=
  match kwargs !! "return_properties" with
  | None => Ok kwargs
  | Some (PList l) =>
      if existsb (fun v => py_eq_str v text_key) l then Ok kwargs
      else Ok (<["return_properties" := PList (l ++ [PStr text_key])]> kwargs)
  | Some (PStr s) =>
      if str_contains text_key s then Ok kwargs
      else Raise (AttributeError "'str' object has no attribute 'append'")
  | Some _ => Raise (TypeError "argument is not iterable")
  end.

(** the [try] block: the dispatch on [search_method] *)
Definition dispatch_query (self : WeaviateVectorStore) (collection : Collection)
    (query k keyword_query search_method : pyval) (kwargs : gmap string pyval)
    : M QueryReturn :=
  if py_eq_str search_method "hybrid" then
    match _embedding self with
    | Some emb =>
        let* embedding := lift (embed_query emb query) in
        let query := if negb (is_none keyword_query) then keyword_query else query in
        let* args := lift (keywords [("query", query); ("vector", embedding);
                                     ("limit", k)] kwargs) in
        collection_query_hybrid collection args
    | None =>
        let* args := lift (keywords [("query", query); ("limit", k)] kwargs) in
        collection_query_hybrid collection args
    end
  else if py_eq_str search_method "near_vector" then
    let* args := lift (keywords [("limit", k)] kwargs) in
    collection_query_near_vector collection args
  else if py_eq_str search_method "near_text" then
    let* args := lift (keywords [("query", query); ("limit", k)] kwargs) in
    collection_query_near_text collection args
  else raise (ValueError ("Invalid search method: " +:+ py_str search_method)).

(** [except weaviate.exceptions.WeaviateQueryException as e] *)
Definition rewrap_query_error {A} (e : pyexn) : M A :=
  match e with
  | WeaviateQueryException msg => raise (ValueError ("Error during query: " +:+ msg))
  | _ => raise e
  end.

(** one turn of [for obj in result.objects] *)
Definition document_of_object (text_key : string) (return_uuids return_score : pyval)
    (obj : Object) : Res SearchHit :=
  match properties obj !! text_key with
  | None => Raise (KeyError text_key)
  | Some text =>
      let props := delete text_key (properties obj) in
      let filtered_metadata :=
        filter (fun kv => is_none kv.2 = false) (metadata_dict obj) in
      match (if bool_decide (dom (vector obj) = ∅) then Some ∅
             else (fun v => {[ "vector" := v ]}) <$> vector obj !! "default") with
      | None => Raise (KeyError "default")
      | Some vector_part =>
          let uuid_part : gmap string pyval :=
            if py_truthy return_uuids then {[ "uuid" := PStr (uuid obj) ]} else ∅ in
          (* later entries of the dict display win: they stand leftmost here *)
          let merged_props := uuid_part ∪ (vector_part ∪ (filtered_metadata ∪ props)) in
          let doc := {| page_content := text; metadata := merged_props |} in
          if negb (py_truthy return_score) then Ok (Plain doc)
          else
            match metadata_dict obj !! "score", metadata_dict obj !! "explain_score" with
            | Some s, Some e => Ok (Scored doc (PStr (py_str s +:+ ": " +:+ py_str e)))
            | _, _ => Raise (AttributeError "metadata has no such attribute")
            end
      end
  end.

Fixpoint documents_of_objects (text_key : string) (return_uuids return_score : pyval)
    (objs : list Object) : Res (list SearchHit) :=
  match objs with
  | [] => Ok []
  | obj :: rest =>
      match document_of_object text_key return_uuids return_score obj with
      | Raise e => Raise e
      | Ok hit =>
          match documents_of_objects text_key return_uuids return_score rest with
          | Raise e => Raise e
          | Ok hits => Ok (hit :: hits)
          end
      end
  end.

Definition embedding_required_message : string :=
  "_embedding cannot be None for similarity_search if search_method is not near_text".

Definition _perform_search (self : WeaviateVectorStore)
    (query k keyword_query return_score search_method tenant : pyval)
    (kwargs : gmap string pyval) : M (list SearchHit) :=
  if negb (py_eq_str search_method "near_text")
     && match _embedding self with None => true | Some _ => false end
  then raise (ValueError embedding_required_message)
  else
    let* kwargs := lift (add_text_key_to_return_properties (_text_key self) kwargs) in
    let return_uuids := default (PBool false) (kwargs !! "return_uuids") in
    let kwargs := delete "return_uuids" kwargs in
    let* result :=
      _tenant_context self tenant (fun collection =>
        try_except
          (dispatch_query self collection query k keyword_query search_method kwargs)
          rewrap_query_error) in
    lift (documents_of_objects (_text_key self) return_uuids return_score
            (objects result)).

(** [def _perform_search(self, query, k, keyword_query=None,
    return_score=False, search_method="hybrid", tenant=None, **kwargs)] *)
Definition _perform_search_signature : Signature :=
  [("query", None); ("k", None); ("keyword_query", Some PNone);
   ("return_score", Some (PBool false)); ("search_method", Some (PStr "hybrid"));
   ("tenant", Some PNone)].

(** a call of [_perform_search] with positional arguments [pos] and keywords [kw] *)
Definition call_perform_search (self : WeaviateVectorStore) (pos : list pyval)
    (kw : gmap string pyval) : M (list SearchHit) :=
  match bind_values _perform_search_signature pos kw with
  | Raise e => raise e
  | Ok [query; k; keyword_query; return_score; search_method; tenant] =>
      _perform_search self query k keyword_query return_score search_method tenant
        (unbound_keywords _perform_search_signature kw)
  | Ok _ => raise (TypeError "wrong number of arguments")
  end.

Definition similarity_search (self : WeaviateVectorStore)
    (query k keyword_query : pyval) (kwargs : gmap string pyval)
    : M (list SearchHit) :=
  let search_method := default (PStr "hybrid") (kwargs !! "search_method") in
  let kwargs := delete "search_method" kwargs in
  let* kw := lift (keywords [("search_method", search_method)] kwargs) in
  call_perform_search self [query; k; keyword_query] kw.

Definition similarity_search_by_vector (self : WeaviateVectorStore)
    (embedding k : pyval) (kwargs : gmap string pyval) : M (list SearchHit) :=
  let* kw := lift (keywords [("query", PNone); ("k", k); ("near_vector", embedding);
                             ("search_method", PStr "near_vector")] kwargs) in
  call_perform_search self [] kw.

Definition similarity_search_with_score (self : WeaviateVectorStore)
    (query k : pyval) (kwargs : gmap string pyval) : M (list SearchHit) :=
  let* kw := lift (keywords [("return_score", PBool true)] kwargs) in
  call_perform_search self [query; k] kw.

(** *** Maximal marginal relevance search *)

(** [result.metadata["vector"]] *)
Definition vector_of_hit (hit : SearchHit) : Res pyval :=
  match hit with
  | Plain doc =>
      match metadata doc !! "vector" with
      | Some v => Ok v
      | None => Raise (KeyError "vector")
      end
  | Scored _ _ => Raise (AttributeError "'tuple' object has no attribute 'metadata'")
  end.

Fixpoint vectors_of_hits (results : list SearchHit) : Res (list pyval) :=
  match results with
  | [] => Ok []
  | hit :: rest =>
      match vector_of_hit hit with
      | Raise e => Raise e
      | Ok v =>
          match vectors_of_hits rest with
          | Raise e => Raise e
          | Ok vs => Ok (v :: vs)
          end
      end
  end.

(** [for idx in mmr_selected]: [results] is the list whose documents the
    loop mutates, [docs] the list it builds. *)
Fixpoint mmr_collect (results : list SearchHit) (mmr_selected : list nat)
    (docs : list Document) : Res (list Document) :=
  match mmr_selected with
  | [] => Ok docs
  | idx :: rest =>
      match results !! idx with
      | None => Raise (IndexError "list index out of range")
      | Some (Scored _ _) =>
          Raise (AttributeError "'tuple' object has no attribute 'page_content'")
      | Some (Plain doc) =>
          let text := page_content doc in
          match metadata doc !! "vector" with
          | None => Raise (KeyError "vector")
          | Some _ =>
              let popped := {| page_content := page_content doc;
                               metadata := delete "vector" (metadata doc) |} in
              mmr_collect (<[idx := Plain popped]> results) rest
                (docs ++ [{| page_content := text; metadata := metadata popped |}])
          end
      end
  end.

Definition max_marginal_relevance_search_by_vector (self : WeaviateVectorStore)
    (embedding k fetch_k lambda_mult : pyval) (kwargs : gmap string pyval)
    : M (list Document) :=
  let* kw := lift (keywords [("query", PNone); ("k", fetch_k);
                             ("include_vector", PBool true);
                             ("near_vector", embedding);
                             ("search_method", PStr "near_vector")] kwargs) in
  let* results := call_perform_search self [] kw in
  let* embeddings := lift (vectors_of_hits results) in
  let* mmr_selected :=
    lift (maximal_marginal_relevance embedding embeddings k lambda_mult) in
  lift (mmr_collect results mmr_selected []).

Definition mmr_by_vector_signature : Signature :=
  [("embedding", None); ("k", Some (PInt 4)); ("fetch_k", Some (PInt 20));
   ("lambda_mult", Some (PFloat 0.5%float))].

Definition max_marginal_relevance_search (self : WeaviateVectorStore)
    (query k fetch_k lambda_mult : pyval) (kwargs : gmap string pyval)
    : M (list Document) :=
  match _embedding self with
  | Some emb =>
      let* embedding := lift (embed_query emb query) in
      let* kw := lift (keywords [("k", k); ("fetch_k", fetch_k);
                                 ("lambda_mult", lambda_mult)] kwargs) in
      match bind_values mmr_by_vector_signature [embedding] kw with
      | Raise e => raise e
      | Ok [embedding; k; fetch_k; lambda_mult] =>
          max_marginal_relevance_search_by_vector self embedding k fetch_k
            lambda_mult (unbound_keywords mmr_by_vector_signature kw)
      | Ok _ => raise (TypeError "wrong number of arguments")
      end
  | None =>
      raise (ValueError
        "max_marginal_relevance_search requires a suitable Embeddings object")
  end.

(** *** delete *)

Definition delete_ (self : WeaviateVectorStore) (ids tenant : pyval)
    (kwargs : gmap string pyval) : M unit :=
  if is_none ids then raise (ValueError "No ids provided to delete.")
  else
    _tenant_context self tenant (fun collection =>
      collection_data_delete_many collection ids).

(** ** What Python's [float()] accepts

    The strings [float(s)] parses, for ASCII input: optional blanks, an
    optional sign, then a decimal number with optional underscores between
    digits and an optional exponent, or [inf], [infinity] or [nan] in any
    case, then optional blanks.  A deterministic automaton reads the string
    once. *)

Inductive FloatState : Type :=
| FStart | FSign
| FInt | FIntUnderscore | FDot | FIntDot | FFrac | FFracUnderscore
| FExpMark | FExpSign | FExp | FExpUnderscore
| FI | FIn | FInf | FInfi | FInfin | FInfini | FInfinit | FInfinity
| FN | FNa | FNan
| FTrail | FDead.

Definition is_blank (c : ascii) : bool :=
  let n := nat_of_ascii c in
  (Nat.leb 9 n && Nat.leb n 13) || (Nat.leb 28 n && Nat.leb n 32).

Definition is_digit (c : ascii) : bool :=
  let n := nat_of_ascii c in Nat.leb 48 n && Nat.leb n 57.

Definition is_sign (c : ascii) : bool :=
  Ascii.eqb c "+"%char || Ascii.eqb c "-"%char.

(** [c] is the letter [l] (given in lower case), in either case *)
Definition is_letter (l c : ascii) : bool :=
  Ascii.eqb c l || (nat_of_ascii c + 32 =? nat_of_ascii l)%nat.

Definition float_step (st : FloatState) (c : ascii) : FloatState :=
  match st with
  | FStart =>
      if is_blank c then FStart else if is_sign c then FSign
      else if is_digit c then FInt else if Ascii.eqb c "."%char then FDot
      else if is_letter "i"%char c then FI else if is_letter "n"%char c then FN
      else FDead
  | FSign =>
      if is_digit c then FInt else if Ascii.eqb c "."%char then FDot
      else if is_letter "i"%char c then FI else if is_letter "n"%char c then FN
      else FDead
  | FInt =>
      if is_digit c then FInt else if Ascii.eqb c "_"%char then FIntUnderscore
      else if Ascii.eqb c "."%char then FIntDot
      else if is_letter "e"%char c then FExpMark
      else if is_blank c then FTrail else FDead
  | FIntUnderscore => if is_digit c then FInt else FDead
  | FDot => if is_digit c then FFrac else FDead
  | FIntDot =>
      if is_digit c then FFrac else if is_letter "e"%char c then FExpMark
      else if is_blank c then FTrail else FDead
  | FFrac =>
      if is_digit c then FFrac else if Ascii.eqb c "_"%char then FFracUnderscore
      else if is_letter "e"%char c then FExpMark
      else if is_blank c then FTrail else FDead
  | FFracUnderscore => if is_digit c then FFrac else FDead
  | FExpMark => if is_sign c then FExpSign else if is_digit c then FExp else FDead
  | FExpSign => if is_digit c then FExp else FDead
  | FExp =>
      if is_digit c then FExp else if Ascii.eqb c "_"%char then FExpUnderscore
      else if is_blank c then FTrail else FDead
  | FExpUnderscore => if is_digit c then FExp else FDead
  | FI => if is_letter "n"%char c then FIn else FDead
  | FIn => if is_letter "f"%char c then FInf else FDead
  | FInf =>
      if is_letter "i"%char c then FInfi else if is_blank c then FTrail else FDead
  | FInfi => if is_letter "n"%char c then FInfin else FDead
  | FInfin => if is_letter "i"%char c then FInfini else FDead
  | FInfini => if is_letter "t"%char c then FInfinit else FDead
  | FInfinit => if is_letter "y"%char c then FInfinity else FDead
  | FInfinity => if is_blank c then FTrail else FDead
  | FN => if is_letter "a"%char c then FNa else FDead
  | FNa => if is_letter "n"%char c then FNan else FDead
  | FNan => if is_blank c then FTrail else FDead
  | FTrail => if is_blank c then FTrail else FDead
  | FDead => FDead
  end.

Definition float_accepting (st : FloatState) : bool :=
  match st with
  | FInt | FIntDot | FFrac | FExp | FInf | FInfinity | FNan | FTrail => true
  | _ => false
  end.

Fixpoint float_run (st : FloatState) (s : string) : FloatState :=
  match s with
  | EmptyString => st
  | String c s' => float_run (float_step st c) s'
  end.

(** [float(s)] returns a number rather than raising [ValueError] *)
Definition parses_as_float (s : string) : bool :=
  float_accepting (float_run FStart s).

(** a score, as [similarity_search_with_score] returns it, is purely
    numeric when it is a number or a string that reads as one *)
Definition purely_numeric (v : pyval) : bool :=
  match v with
  | PInt _ | PFloat _ => true
  | PStr s => parses_as_float s
  | _ => false
  end.

(** ** Vocabulary of the statements *)

(** the tenant argument disagrees with the cached multi-tenancy flag *)
Definition tenant_mismatch (self : WeaviateVectorStore) (tenant : pyval) : bool :=
  (negb (is_none tenant) && negb (_multi_tenancy_enabled self))
  || (is_none tenant && _multi_tenancy_enabled self).

(** the engine's reply to a query it was sent *)
Definition query_reply (client : WeaviateClient) (c : EngineCall)
    : option (Res QueryReturn) :=
  match c with
  | QueryHybrid t a => Some (query_hybrid client t a)
  | QueryNearVector t a => Some (query_near_vector client t a)
  | QueryNearText t a => Some (query_near_text client t a)
  | _ => None
  end.

(** [return_properties], when given, is a list *)
Definition return_properties_is_list (kwargs : gmap string pyval) : bool :=
  match kwargs !! "return_properties" with
  | None | Some (PList _) => true
  | Some _ => false
  end.

Definition hit_document (hit : SearchHit) : Document :=
  match hit with
  | Plain doc => doc
  | Scored doc _ => doc
  end.

(** [obj] with another value for its text-key property *)
Definition with_text (obj : Object) (text_key : string) (text : pyval) : Object :=
  {| properties := <[text_key := text]> (properties obj);
     metadata_dict := metadata_dict obj;
     vector := vector obj;
     uuid := uuid obj |}.

(** the reserved key [key] is attached to the document made from [obj] *)
Definition reserved_attached (return_uuids : pyval) (obj : Object) (key : string)
    : bool :=
  (String.eqb key "vector" && negb (bool_decide (dom (vector obj) = ∅)))
  || (String.eqb key "uuid" && py_truthy return_uuids).

(** [key] names a field of the engine metadata that is not [None] *)
Definition engine_field (obj : Object) (key : string) : bool :=
  match metadata_dict obj !! key with
  | Some v => negb (is_none v)
  | None => false
  end.

(** an object the normalization accepts: it has the text key, a
    ["default"] vector when it has vectors, and the two score attributes *)
Definition object_well_formed (text_key : string) (obj : Object) : Prop :=
  is_Some (properties obj !! text_key)
  /\ (dom (vector obj) = ∅ \/ is_Some (vector obj !! "default"))
  /\ is_Some (metadata_dict obj !! "score")
  /\ is_Some (metadata_dict obj !! "explain_score").

(** the tenant step of [add_texts] goes through *)
Definition tenant_ready (self : WeaviateVectorStore) (tenant : pyval) : Prop :=
  py_truthy tenant = false
  \/ (_multi_tenancy_enabled self = true
      /\ exists name names,
           tenant = PStr name
           /\ tenants_get (_client self) = Ok names
           /\ (name ∈ names \/ tenants_create (_client self) tenant = Ok tt)).

(** the client queues every object it is given *)
Definition batch_accepts (self : WeaviateVectorStore) : Prop :=
  forall obj, batch_add_object (_client self) obj = Ok tt.

(** the embedding provider, when there is one, returns a vector per text *)
Definition embedding_ready (self : WeaviateVectorStore) (texts : list string)
    : Prop :=
  match _embedding self with
  | None => True
  | Some emb =>
      exists es, embed_documents emb texts = Ok es /\ length es = length texts
  end.

(** the ids the caller passes, under [uuids] or else [ids] *)
Definition given_ids (kwargs : gmap string pyval) : option pyval :=
  match kwargs !! "uuids" with
  | Some us => Some us
  | None => kwargs !! "ids"
  end.

(** ids are generated, or [n] of them are given in a list *)
Definition ids_aligned (kwargs : gmap string pyval) (n : nat) : Prop :=
  match given_ids kwargs with
  | None => True
  | Some (PList l) => length l = n
  | Some _ => False
  end.

(** the id [add_texts] uses for the text at index [i], when [drawn] UUIDs
    were drawn before the call *)
Definition id_for (kwargs : gmap string pyval) (drawn i : nat) (_id : pyval)
    : Prop :=
  match given_ids kwargs with
  | Some us => py_getitem us i = Ok _id
  | None => _id = PStr (uuid4 (drawn + i))
  end.

(** [metadatas[i]], when metadata is given *)
Definition metadata_at (metadatas : option (list (gmap string pyval))) (i : nat)
    : option (gmap string pyval) :=
  match metadatas with
  | Some ms => ms !! i
  | None => None
  end.


(** the batch writes among the calls *)
Definition batch_writes (calls : list EngineCall) : list BatchObject :=
  omap (fun c => match c with BatchAddObject o => Some o | _ => None end) calls.

(** ** Sample collaborators and inputs

    Stand-ins for the engine, the embedding provider and the three
    parameters above, for the examples that close the file. *)

(** [str()] on the values the examples use *)
Definition sample_str_nonstring (v : pyval) : string :=
  match v with
  | PNone => "None"
  | PBool true => "True"
  | PBool false => "False"
  | PFloat f => if PrimFloat.eqb f 0.5%float then "0.5" else "1.0"
  | _ => "?"
  end.

Definition sample_uuid4 (n : nat) : string :=
  match n with
  | 0 => "11111111-1111-4111-8111-111111111111"
  | 1 => "22222222-2222-4222-8222-222222222222"
  | _ => "33333333-3333-4333-8333-333333333333"
  end.

(** a re-ranker that picks the third candidate, then the first *)
Definition sample_mmr (query : pyval) (candidates : list pyval) (k lambda_mult : pyval)
    : Res (list nat) :=
  Ok [2; 0].

(** the fields of the engine's metadata object, none of them set *)
Definition no_metadata : gmap string pyval :=
  list_to_map
    [("creation_time", PNone); ("last_update_time", PNone); ("distance", PNone);
     ("certainty", PNone); ("score", PNone); ("explain_score", PNone);
     ("is_consistent", PNone); ("rerank_score", PNone)].

Definition sample_vector (x y : float) : pyval := PList [PFloat x; PFloat y].

(** the object [add_texts] stores for "hello" with metadata [{"source": "x"}] *)
Definition hello_object : Object :=
  {| properties := {[ "source" := PStr "x" ]} ∪ {[ "text" := PStr "hello" ]};
     metadata_dict := no_metadata;
     vector := ∅;
     uuid := "11111111-1111-4111-8111-111111111111" |}.

(** the same object as a scored query returns it *)
Definition scored_object : Object :=
  {| properties := properties hello_object;
     metadata_dict := <["score" := PFloat 0.5%float]>
                        (<["explain_score" := PStr "hybrid"]> no_metadata);
     vector := ∅;
     uuid := uuid hello_object |}.


(** an object of a collection whose text key is "score" *)
Definition score_keyed_object : Object :=
  {| properties := {[ "source" := PStr "x" ]} ∪ {[ "score" := PStr "hello" ]};
     metadata_dict := <["score" := PFloat 0.5%float]> no_metadata;
     vector := ∅;
     uuid := "11111111-1111-4111-8111-111111111111" |}.

(** an engine that answers every query with [reply] and reports [failed]
    as the failed objects of a batch *)
Definition sample_client (reply : Res QueryReturn) (failed : list ErrorObject)
    : WeaviateClient :=
  {| query_hybrid := fun _ _ => reply;
     query_near_vector := fun _ _ => reply;
     query_near_text := fun _ _ => reply;
     data_delete_many := fun _ _ => Ok tt;
     tenants_get := Ok ["tenant-a"];
     tenants_create := fun _ => Ok tt;
   batch_add_object := fun _ => Ok tt;
     failed_objects := fun _ => failed |}.

Definition sample_embeddings : Embeddings :=
  {| embed_documents := fun texts => Ok (map (fun _ => sample_vector 1 0) texts);
     embed_query := fun _ => Ok (sample_vector 1 0) |}.

Definition sample_store (client : WeaviateClient) (embedding : option Embeddings)
    (text_key : string) (use_multi_tenancy : bool) : WeaviateVectorStore :=
  {| _client := client;
     _index_name := "Docs";
     _embedding := embedding;
     _text_key := text_key;
     _query_attrs := [text_key];
     relevance_score_fn := Some _default_score_normalizer;
     _multi_tenancy_enabled := use_multi_tenancy |}.

Definition empty_world : World :=
  {| engine_calls := []; error_log := []; info_log := []; uuids_drawn := 0 |}.

(** a store over an engine that answers, with no embedding provider *)
Definition store_without_embedding : WeaviateVectorStore :=
  sample_store (sample_client (Ok {| objects := [hello_object] |}) []) None "text" false.

(** a store over an engine whose queries fail *)
Definition store_on_failing_engine : WeaviateVectorStore :=
  sample_store (sample_client (Raise (WeaviateQueryException "boom")) []) None
    "text" false.

Definition store_with_scores : WeaviateVectorStore :=
  sample_store (sample_client (Ok {| objects := [scored_object] |}) [])
    (Some sample_embeddings) "text" false.


(** a store over an engine that rejects the second object of a batch *)
Definition store_with_failing_writes : WeaviateVectorStore :=
  sample_store
    (sample_client (Ok {| objects := [] |})
       [{| original_uuid := "22222222-2222-4222-8222-222222222222";
           message := "write failed" |}])
    (Some sample_embeddings) "text" false.

(** ** The constructor and [from_texts] *)

(** [{"name": ..., "dataType": [...]}] *)
Record SchemaProperty := {
  name : string;
  dataType : list string }.

(** The schema dictionary: its ["class"], its ["properties"] and, once
    assigned, the [enabled] flag of its ["MultiTenancyConfig"]. *)
Record Schema := {
  class_name : string;
  schema_properties : list SchemaProperty;
  MultiTenancyConfig : option bool }.

Definition _default_schema (index_name : string) : Schema :=
  {| class_name := index_name;
     schema_properties := [{| name := "text"; dataType := ["text"] |}];
     MultiTenancyConfig := None |}.

(** [schema["MultiTenancyConfig"] = {"enabled": enabled}] *)
Definition set_multi_tenancy (schema : Schema) (enabled : bool) : Schema :=
  {| class_name := class_name schema;
     schema_properties := schema_properties schema;
     MultiTenancyConfig := Some enabled |}.

(** The requests of the constructor.  [client.collections.get] sends none. *)
Inductive SchemaCall : Type :=
| CollectionsExists (index_name : string)
| CollectionsCreateFromDict (schema : Schema)
| CollectionConfigGet (index_name : string).

(** The engine's replies to them; [collection_multi_tenancy] is
    [config.get(simple=False).multi_tenancy_config.enabled]. *)
Record WeaviateCollections := {
  collections_exists : string -> Res bool;
  collections_create_from_dict : Schema -> Res unit;
  collection_multi_tenancy : string -> Res bool }.

(** The [client] argument: a [weaviate.WeaviateClient], or anything else
    (the default [None] of [from_texts] included), of which the constructor
    prints the type. *)
Inductive ClientArgument : Type :=
| NotAClient (type_repr : string)
| AClient (client : WeaviateClient) (collections : WeaviateCollections).

(** [uuid4().hex]: the UUID without its dashes *)
Fixpoint uuid_hex (s : string) : string :=
  match s with
  | EmptyString => EmptyString
  | String c s' => if Ascii.eqb c "-"%char then uuid_hex s' else String c (uuid_hex s')
  end.

(** [WeaviateVectorStore.__init__]: the store it builds, or the exception,
    with the requests it sent, in order. *)
Definition __init__ (client : ClientArgument) (index_name : option string)
    (text_key : string) (embedding : option Embeddings)
    (attributes : option (list string)) (relevance_score_fn : option (R -> R))
    (use_multi_tenancy : bool)
    : World -> (Res WeaviateVectorStore * list SchemaCall) * World :=
  fun w =>
    match client with
    | NotAClient type_repr =>
        (Raise (ValueError ("client should be an instance of weaviate.WeaviateClient, got "
                            +:+ type_repr)),
         [], w)
    | AClient the_client collections =>
        (* [index_name or f"LangChain_{uuid4().hex}"] *)
        let '(_index_name, w1) :=
          match index_name with
          | Some (String c s) => (String c s, w)
          | _ => ("LangChain_" +:+ uuid_hex (uuid4 (uuids_drawn w)),
                  {| engine_calls := engine_calls w;
                     error_log := error_log w;
                     info_log := info_log w;
                     uuids_drawn := S (uuids_drawn w) |})
          end in
        let _query_attrs :=
          match attributes with
          | Some attrs => [text_key] ++ attrs
          | None => [text_key]
          end in
        let schema := set_multi_tenancy (_default_schema _index_name) use_multi_tenancy in
        match collections_exists collections _index_name with
        | Raise e => (Raise e, [CollectionsExists _index_name], w1)
        | Ok found =>
            let created :=
              if negb found
              then (collections_create_from_dict collections schema,
                    [CollectionsExists _index_name; CollectionsCreateFromDict schema])
              else (Ok tt, [CollectionsExists _index_name]) in
            match created with
            | (Raise e, calls) => (Raise e, calls, w1)
            | (Ok _, calls) =>
                match collection_multi_tenancy collections _index_name with
                | Raise e => (Raise e, calls ++ [CollectionConfigGet _index_name], w1)
                | Ok enabled =>
                    (Ok {| _client := the_client;
                           _index_name := _index_name;
                           _embedding := embedding;
                           _text_key := text_key;
                           _query_attrs := _query_attrs;
                           relevance_score_fn := relevance_score_fn;
                           _multi_tenancy_enabled := enabled |},
                     calls ++ [CollectionConfigGet _index_name], w1)
                end
            end
        end
    end.

(** a call [store.add_texts(texts, metadatas, tenant=tenant, **kwargs)]:
    [kwargs] may not repeat the keyword [tenant], nor name a parameter
    passed by position *)
Definition call_add_texts (self : WeaviateVectorStore) (texts : list string)
    (metadatas : option (list (gmap string pyval))) (tenant : pyval)
    (kwargs : gmap string pyval) : M (list pyval) :=
  if bool_decide (is_Some (kwargs !! "tenant"))
  then raise (TypeError "got multiple values for keyword argument")
  else if bool_decide (is_Some (kwargs !! "self"))
          || bool_decide (is_Some (kwargs !! "texts"))
          || bool_decide (is_Some (kwargs !! "metadatas"))
  then raise (TypeError "got multiple values for argument")
  else add_texts self texts metadatas tenant kwargs.

(** [WeaviateVectorStore.from_texts].  The attributes are the keys of the
    first metadata dictionary, here in the order the map lists them. *)
Definition from_texts (texts : list string) (embedding : option Embeddings)
    (client : ClientArgument) (metadatas : option (list (gmap string pyval)))
    (tenant : pyval) (index_name : option string) (text_key : string)
    (relevance_score_fn : option (R -> R)) (kwargs : gmap string pyval)
    : World -> (Res WeaviateVectorStore * list SchemaCall) * World :=
  fun w =>
    let attributes :=
      match metadatas with
      | Some (md :: _) => Some (map_to_list md).*1
      | _ => None
      end in
    match __init__ client index_name text_key embedding attributes relevance_score_fn
            (negb (is_none tenant)) w with
    | (Raise e, calls, w1) => (Raise e, calls, w1)
    | (Ok weaviate_vector_store, calls, w1) =>
        match call_add_texts weaviate_vector_store texts metadatas tenant kwargs w1 with
        | (Raise e, w2) => (Raise e, calls, w2)
        | (Ok _, w2) => (Ok weaviate_vector_store, calls, w2)
        end
    end.

(** ** More vocabulary *)

(** the keyword arguments of a query *)
Definition call_args (c : EngineCall) : gmap string pyval :=
  match c with
  | QueryHybrid _ args | QueryNearVector _ args | QueryNearText _ args => args
  | _ => ∅
  end.

(** the search mode a query belongs to *)
Definition call_method (c : EngineCall) : string :=
  match c with
  | QueryHybrid _ _ => "hybrid"
  | QueryNearVector _ _ => "near_vector"
  | QueryNearText _ _ => "near_text"
  | _ => ""
  end.

(** the tenant a call is scoped to *)
Definition call_tenant (c : EngineCall) : pyval :=
  match c with
  | QueryHybrid t _ | QueryNearVector t _ | QueryNearText t _ => t
  | DataDeleteMany t _ => t
  | BatchAddObject o => bo_tenant o
  | TenantsCreate t => t
  | TenantsGet => PNone
  end.

(** [embeddings[i] if embeddings else None] *)
Definition vector_at (embeddings : option (list pyval)) (i : nat) : option pyval :=
  match embeddings with
  | Some (e :: es) => (e :: es) !! i
  | _ => Some PNone
  end.

(** a value that is not a [datetime] *)
Definition not_datetime (v : pyval) : bool :=
  match v with PDatetime _ => false | _ => true end.

(** the index name passed to the constructor, when it is not empty *)
Definition index_name_passed (index_name : option string) : option string :=
  match index_name with
  | Some (String c s) => Some (String c s)
  | _ => None
  end.

(** the name the constructor gives the collection when [drawn] UUIDs were
    drawn before *)
Definition index_name_chosen (index_name : option string) (drawn : nat) : string :=
  default ("LangChain_" +:+ uuid_hex (uuid4 drawn)) (index_name_passed index_name).

(** the keyword arguments of [from_texts] do not name a parameter of
    [add_texts] *)
Definition add_texts_keywords_fit (kwargs : gmap string pyval) : bool :=
  bool_decide (kwargs !! "tenant" = None)
  && bool_decide (kwargs !! "self" = None)
  && bool_decide (kwargs !! "texts" = None)
  && bool_decide (kwargs !! "metadatas" = None).

(** the call sent last; the tenant look-up stands for none *)
Definition last_call (w : World) : EngineCall :=
  default TenantsGet (last (engine_calls w)).

(** ** More sample collaborators *)

(** the collections of an engine: whether the collection asked for exists,
    and whether it has multi-tenancy on *)
Definition sample_collections (found enabled : bool) : WeaviateCollections :=
  {| collections_exists := fun _ => Ok found;
     collections_create_from_dict := fun _ => Ok tt;
     collection_multi_tenancy := fun _ => Ok enabled |}.

(** a multi-tenant store over an engine that has the tenant "tenant-a" *)
Definition store_with_tenants : WeaviateVectorStore :=
  sample_store (sample_client (Ok {| objects := [] |}) []) (Some sample_embeddings)
    "text" true.

(** ** Proofs *)

Ltac unfold_monad :=
  unfold bind, lift, ret, raise, try_except, try_finally, send in *.

Lemma try_finally_pass {A} (m : M A) w : try_finally m (ret tt) w = m w.
Proof. unfold try_finally, ret. by destruct (m w). Qed.

Lemma app_singleton_neq {A} (l : list A) (x : A) : l <> l ++ [x].
Proof.
  intros H. apply (f_equal length) in H. rewrite length_app in H. simpl in H. lia.
Qed.

(** *** The tenant scope *)

Lemma tenant_context_mismatch {A} self tenant (body : Collection -> M A) w :
  tenant_mismatch self tenant = true ->
  exists msg, _tenant_context self tenant body w = (Raise (ValueError msg), w).
Proof.
  unfold tenant_mismatch, _tenant_context. intros H.
  destruct (negb (is_none tenant) && negb (_multi_tenancy_enabled self)); [by eexists|].
  destruct (is_none tenant && _multi_tenancy_enabled self); [by eexists|discriminate].
Qed.

Lemma tenant_context_match {A} self tenant (body : Collection -> M A) w :
  tenant_mismatch self tenant = false ->
  _tenant_context self tenant body w = body (with_tenant self tenant) w.
Proof.
  unfold tenant_mismatch, _tenant_context. intros H.
  apply orb_false_elim in H as [-> ->]. apply try_finally_pass.
Qed.

(** *** The stages of a search *)

Lemma documents_of_objects_not_query_exception tk ru rs objs msg :
  documents_of_objects tk ru rs objs <> Raise (WeaviateQueryException msg).
Proof.
  induction objs as [|obj objs IH]; [discriminate|].
  cbn [documents_of_objects].
  destruct (document_of_object tk ru rs obj) as [hit|e] eqn:E.
  - destruct (documents_of_objects tk ru rs objs); [discriminate|].
    intros [= ->]. by apply IH.
  - intros [= ->]. unfold document_of_object in E.
    repeat case_match; simplify_eq.
Qed.

Lemma add_text_key_not_query_exception tk kwargs msg :
  add_text_key_to_return_properties tk kwargs <> Raise (WeaviateQueryException msg).
Proof. unfold add_text_key_to_return_properties. repeat case_match; discriminate. Qed.

Lemma add_text_key_well_typed tk kwargs :
  return_properties_is_list kwargs = true ->
  exists kwargs1, add_text_key_to_return_properties tk kwargs = Ok kwargs1.
Proof.
  unfold return_properties_is_list, add_text_key_to_return_properties.
  intros H. repeat case_match; simplify_eq; by eexists.
Qed.

(** a dispatch either stops before the engine, or sends one query and
    returns the engine's reply to it *)
Lemma dispatch_query_cases self coll query k kq sm kwargs w r w' :
  dispatch_query self coll query k kq sm kwargs w = (r, w') ->
  (w' = w /\ exists e, r = Raise e) \/
  exists c, w' = record_call c w /\ query_reply (coll_client coll) c = Some r.
Proof.
  unfold dispatch_query, collection_query_hybrid, collection_query_near_vector,
    collection_query_near_text.
  unfold_monad. intros H.
  repeat case_match; simplify_eq; eauto; right; eexists; split; eauto; done.
Qed.

(** past the three checks, a search is its dispatch followed by the
    normalization of the reply *)
Lemma perform_search_run self query k kq rs sm tenant kwargs kwargs1 w :
  negb (py_eq_str sm "near_text")
    && match _embedding self with None => true | Some _ => false end = false ->
  add_text_key_to_return_properties (_text_key self) kwargs = Ok kwargs1 ->
  tenant_mismatch self tenant = false ->
  _perform_search self query k kq rs sm tenant kwargs w =
  match dispatch_query self (with_tenant self tenant) query k kq sm
          (delete "return_uuids" kwargs1) w with
  | (Ok result, w') =>
      (documents_of_objects (_text_key self)
         (default (PBool false) (kwargs1 !! "return_uuids")) rs (objects result), w')
  | (Raise e, w') =>
      (Raise match e with
             | WeaviateQueryException msg => ValueError ("Error during query: " +:+ msg)
             | _ => e
             end, w')
  end.
Proof.
  intros Hg Ha Ht. unfold _perform_search. rewrite Hg.
  unfold bind at 1. unfold lift at 1. rewrite Ha.
  unfold bind at 1. rewrite tenant_context_match by done.
  unfold try_except, lift.
  destruct (dispatch_query _ _ _ _ _ _ _ w) as [[result|e] w']; [done|].
  unfold rewrap_query_error, raise. by destruct e.
Qed.

(** a failed check ends the search where it started *)
Lemma perform_search_stops_early self query k kq rs sm tenant kwargs w :
  negb (py_eq_str sm "near_text")
    && match _embedding self with None => true | Some _ => false end = true
  \/ (exists e, add_text_key_to_return_properties (_text_key self) kwargs = Raise e)
  \/ tenant_mismatch self tenant = true ->
  exists e, _perform_search self query k kq rs sm tenant kwargs w = (Raise e, w)
    /\ (forall msg, e <> WeaviateQueryException msg)
    /\ (return_properties_is_list kwargs = true -> exists msg, e = ValueError msg).
Proof.
  intros H. unfold _perform_search.
  destruct (negb (py_eq_str sm "near_text") && _) eqn:Hg.
  { eexists. split; [reflexivity|]. split; [discriminate|by eexists]. }
  unfold bind at 1. unfold lift at 1.
  destruct (add_text_key_to_return_properties _ kwargs) as [kwargs1|e] eqn:Ha.
  2:{ eexists. split; [reflexivity|]. split.
      - intros msg ->. by apply add_text_key_not_query_exception in Ha.
      - intros Hwt. apply (add_text_key_well_typed (_text_key self)) in Hwt as [? Hwt].
        congruence. }
  destruct H as [H|[[e H]|H]]; [discriminate..|].
  unfold bind at 1.
  destruct (tenant_context_mismatch self tenant
    (fun collection => try_except
       (dispatch_query self collection query k kq sm (delete "return_uuids" kwargs1))
       rewrap_query_error) w H) as [msg ->].
  eexists. split; [reflexivity|]. split; [discriminate|by eexists].
Qed.

(** the three checks, as one case distinction *)
Lemma perform_search_checks self sm tenant kwargs :
  (negb (py_eq_str sm "near_text")
     && match _embedding self with None => true | Some _ => false end = true
   \/ (exists e, add_text_key_to_return_properties (_text_key self) kwargs = Raise e)
   \/ tenant_mismatch self tenant = true)
  \/ (negb (py_eq_str sm "near_text")
        && match _embedding self with None => true | Some _ => false end = false
      /\ (exists kwargs1,
            add_text_key_to_return_properties (_text_key self) kwargs = Ok kwargs1)
      /\ tenant_mismatch self tenant = false).
Proof.
  destruct (negb (py_eq_str sm "near_text") && _); [auto|].
  destruct (add_text_key_to_return_properties _ kwargs); [|eauto].
  destruct (tenant_mismatch self tenant); eauto 6.
Qed.

Lemma perform_search_needs_embedding self query k kq rs sm tenant kwargs w :
  _embedding self = None -> py_eq_str sm "near_text" = false ->
  _perform_search self query k kq rs sm tenant kwargs w
    = (Raise (ValueError embedding_required_message), w).
Proof.
  intros He Hsm. unfold _perform_search. rewrite He, Hsm. reflexivity.
Qed.

Lemma keywords_Ok explicit star kw :
  keywords explicit star = Ok kw -> kw = list_to_map explicit ∪ star.
Proof.
  unfold keywords. destruct (existsb _ _); [discriminate|]. congruence.
Qed.

Lemma call_perform_search_keywords self kw query k :
  kw !! "query" = Some query -> kw !! "k" = Some k ->
  call_perform_search self [] kw
  = _perform_search self query k
      (default PNone (kw !! "keyword_query"))
      (default (PBool false) (kw !! "return_score"))
      (default (PStr "hybrid") (kw !! "search_method"))
      (default PNone (kw !! "tenant"))
      (unbound_keywords _perform_search_signature kw).
Proof.
  intros Hq Hk. unfold call_perform_search, _perform_search_signature.
  cbn [bind_values]. rewrite Hq, Hk.
  destruct (kw !! "keyword_query"), (kw !! "return_score"),
    (kw !! "search_method"), (kw !! "tenant"); reflexivity.
Qed.

(** *** add_texts *)

Lemma log_failures_run failed_objs w :
  log_failures failed_objs w
  = (Ok tt, {| engine_calls := engine_calls w;
               error_log := error_log w ++ map failure_message failed_objs;
               info_log := info_log w;
               uuids_drawn := uuids_drawn w |}).
Proof.
  revert w. induction failed_objs as [|obj rest IH]; intros w.
  - cbn. unfold ret. rewrite app_nil_r. by destruct w.
  - cbn [log_failures]. unfold bind, logger_error. rewrite IH. cbn.
    by rewrite <- app_assoc.
Qed.

Lemma batch_writes_app l1 l2 :
  batch_writes (l1 ++ l2) = batch_writes l1 ++ batch_writes l2.
Proof. unfold batch_writes. apply omap_app. Qed.

Lemma batch_writes_objects objs : batch_writes (map BatchAddObject objs) = objs.
Proof.
  unfold batch_writes. induction objs as [|o objs IH]; [done|]. cbn. by f_equal.
Qed.

Lemma create_tenant_if_absent_ok self tenant w :
  tenant_ready self tenant ->
  exists pre w1,
    create_tenant_if_absent self tenant w = (Ok tt, w1)
    /\ engine_calls w1 = engine_calls w ++ pre
    /\ batch_writes pre = []
    /\ error_log w1 = error_log w
    /\ uuids_drawn w1 = uuids_drawn w.
Proof.
  unfold tenant_ready, create_tenant_if_absent.
  intros [Hf|(Hmt & name & names & -> & Hget & Hcreate)].
  - rewrite Hf. exists [], w. unfold ret. by rewrite app_nil_r.
  - destruct (py_truthy (PStr name)).
    2:{ exists [], w. unfold ret. by rewrite app_nil_r. }
    unfold _does_tenant_exist. rewrite Hmt. unfold_monad. cbn. rewrite Hget.
    destruct (bool_decide (name ∈ names)) eqn:Hin; cbn.
    + by exists [TenantsGet], (record_call TenantsGet w).
    + apply bool_decide_eq_false in Hin.
      destruct Hcreate as [?|Hc]; [done|]. rewrite Hc.
      eexists [TenantsGet; TenantsCreate (PStr name)], _.
      split; [reflexivity|]. cbn. by rewrite <- app_assoc.
Qed.

Lemma add_texts_loop_ok self metadatas tenant kwargs embeddings texts :
  batch_accepts self ->
  forall i ids w,
  (forall ms, metadatas = Some ms -> i + length texts <= length ms) ->
  match given_ids kwargs with
  | None => True
  | Some (PList l) => i + length texts <= length l
  | Some _ => False
  end ->
  (forall es, embeddings = Some es -> es = [] \/ i + length texts <= length es) ->
  exists objs,
    add_texts_loop self metadatas tenant kwargs embeddings i texts ids w
    = (Ok (ids ++ map bo_uuid objs),
       {| engine_calls := engine_calls w ++ map BatchAddObject objs;
          error_log := error_log w;
          info_log := info_log w;
          uuids_drawn := uuids_drawn w + length texts |})
    /\ length objs = length texts
    /\ forall j text, texts !! j = Some text ->
         exists o, objs !! j = Some o
           /\ bo_properties o
              = data_properties_of (_text_key self) text (metadata_at metadatas (i + j))
           /\ match given_ids kwargs with
              | Some us => py_getitem us (i + j) = Ok (bo_uuid o)
              | None => bo_uuid o = PStr (uuid4 (uuids_drawn w + j))
              end.
Proof.
  intros Hacc. induction texts as [|text texts IH]; intros i ids w Hms Hids Hes.
  - exists []. cbn. unfold ret. rewrite !app_nil_r, Nat.add_0_r.
    split; [by destruct w|]. split; [done|]. intros j t Hj. by rewrite lookup_nil in Hj.
  - cbn [add_texts_loop length] in *.
    (* the properties *)
    assert (exists props,
      (match metadatas with
       | None => ret (data_properties_of (_text_key self) text None)
       | Some ms => match ms !! i with
                    | Some md => ret (data_properties_of (_text_key self) text (Some md))
                    | None => raise (IndexError "list index out of range")
                    end
       end : M _) = ret props
      /\ props = data_properties_of (_text_key self) text (metadata_at metadatas i))
      as (props & -> & Hprops).
    { destruct metadatas as [ms|]; [|by eexists].
      destruct (lookup_lt_is_Some_2 ms i) as [md Hmd]; [specialize (Hms ms eq_refl); lia|].
      cbn. rewrite Hmd. by eexists. }
    (* the id *)
    assert (exists _id,
      (forall fresh, (match kwargs !! "uuids" with
       | Some us => lift (py_getitem us i)
       | None => match kwargs !! "ids" with
                 | Some us => lift (py_getitem us i)
                 | None => ret fresh
                 end
       end : M _) = ret (match given_ids kwargs with Some _ => _id | None => fresh end))
      /\ match given_ids kwargs with
         | Some us => py_getitem us i = Ok _id
         | None => True
         end) as (_id & Hid & Hidspec).
    { unfold given_ids in *.
      destruct (kwargs !! "uuids") as [us|].
      - destruct us; try done.
        destruct (lookup_lt_is_Some_2 l i) as [x Hx]; [lia|].
        exists x. cbn. rewrite Hx. done.
      - destruct (kwargs !! "ids") as [us|]; [|by exists PNone].
        destruct us; try done.
        destruct (lookup_lt_is_Some_2 l i) as [x Hx]; [lia|].
        exists x. cbn. rewrite Hx. done. }
    (* the vector *)
    assert (exists vec,
      (match embeddings with
       | Some (e :: es) => match (e :: es) !! i with
                           | Some v => ret v
                           | None => raise (IndexError "list index out of range")
                           end
       | _ => ret PNone
       end : M _) = ret vec) as (vec & ->).
    { destruct embeddings as [[|e es]|]; [by eexists| |by eexists].
      destruct (Hes _ eq_refl) as [?|Hlen]; [done|].
      destruct (lookup_lt_is_Some_2 (e :: es) i) as [v Hv]; [lia|].
      rewrite Hv. by eexists. }
    unfold bind at 1. unfold ret at 1.
    unfold bind at 1. unfold draw_uuid at 1.
    unfold bind at 1. rewrite Hid. unfold ret at 1.
    unfold bind at 1. unfold ret at 1.
    unfold bind at 1. unfold send at 1.
    unfold bind at 1. unfold lift at 1. rewrite Hacc.
    set (_id' := match given_ids kwargs with Some _ => _id | None => PStr (uuid4 (uuids_drawn w)) end).
    set (o := {| bo_collection := _index_name self; bo_properties := props;
                 bo_uuid := _id'; bo_vector := vec; bo_tenant := tenant |}).
    edestruct (IH (S i) (ids ++ [_id']) (record_call (BatchAddObject o)
       {| engine_calls := engine_calls w; error_log := error_log w;
          info_log := info_log w; uuids_drawn := S (uuids_drawn w) |}))
      as (objs & Hrun & Hlen & Hobjs).
    { intros ms ->. specialize (Hms ms eq_refl). lia. }
    { destruct (given_ids kwargs) as [[]|]; try done. lia. }
    { intros es ->. destruct (Hes es eq_refl); [by left|right; lia]. }
    exists (o :: objs). rewrite Hrun. cbn. split; [|split; [by rewrite Hlen|]].
    + rewrite <- !app_assoc. cbn. do 2 f_equal. f_equal. lia.
    + intros [|j] t Hj; cbn in Hj.
      * simplify_eq. exists o. split; [done|]. rewrite !Nat.add_0_r. split; [done|].
        subst o _id'. cbn. by destruct (given_ids kwargs).
      * destruct (Hobjs j t Hj) as (o' & Ho' & Hp' & Hi').
        exists o'. split; [done|]. replace (i + S j) with (S i + j) by lia.
        split; [done|]. destruct (given_ids kwargs); [done|].
        rewrite Hi'. cbn. do 2 f_equal. lia.
Qed.

(** C2.  A call of [add_texts] with N texts whose metadata, if given, has
    length N (and whose ids, if given, are a list of length N), on a store
    whose tenant step, embedding provider and batch queue do not raise,
    returns: it returns N ids; the i-th id is the uuid under which the i-th
    text was written, with the properties built from that text and its
    metadata, and is the i-th id given or else the i-th UUID drawn; and it
    logs one error for each object the client reports as failed, whatever
    the client reports.  The ids do not depend on that report: those of
    failed objects are in the list. *)
Theorem add_texts_returns_every_id self texts metadatas tenant kwargs w :
  (forall ms, metadatas = Some ms -> length ms = length texts) ->
  ids_aligned kwargs (length texts) ->
  tenant_ready self tenant ->
  embedding_ready self texts ->
  batch_accepts self ->
  exists ids w',
    add_texts self texts metadatas tenant kwargs w = (Ok ids, w')
    /\ length ids = length texts
    /\ (forall i text, texts !! i = Some text ->
          exists o,
            batch_writes (drop (length (engine_calls w)) (engine_calls w')) !! i = Some o
            /\ ids !! i = Some (bo_uuid o)
            /\ bo_properties o
               = data_properties_of (_text_key self) text (metadata_at metadatas i)
            /\ id_for kwargs (uuids_drawn w) i (bo_uuid o))
    /\ error_log w'
       = error_log w
         ++ map failure_message (failed_objects (_client self) (engine_calls w')).
Proof.
  intros Hms Hids Hten Hemb Hacc.
  destruct (create_tenant_if_absent_ok self tenant w Hten)
    as (pre & w1 & Hrun1 & Hcalls1 & Hpre & Herr1 & Hdrawn1).
  assert (exists embeddings,
    (match _embedding self with
     | Some emb => let* es := lift (embed_documents emb texts) in ret (Some es)
     | None => ret None
     end : M _) = ret embeddings
    /\ forall es, embeddings = Some es -> es = [] \/ 0 + length texts <= length es)
    as (embeddings & Hrun2 & Hes).
  { unfold embedding_ready in Hemb. destruct (_embedding self) as [emb|].
    - destruct Hemb as (es & He & Hlen). exists (Some es). unfold bind, lift, ret.
      rewrite He. split; [done|]. intros ? [= <-]. right. lia.
    - by exists None. }
  destruct (add_texts_loop_ok self metadatas tenant kwargs embeddings texts Hacc
              0 [] w1)
    as (objs & Hrun3 & Hlen & Hobjs).
  { intros ms ->. rewrite (Hms ms eq_refl). lia. }
  { unfold ids_aligned in Hids. destruct (given_ids kwargs) as [[]|]; try done. lia. }
  { done. }
  unfold add_texts. unfold bind at 1. rewrite Hrun1.
  unfold bind at 1. rewrite Hrun2. unfold ret at 1.
  unfold bind at 1. rewrite Hrun3.
  unfold bind at 1. unfold bind at 1. rewrite log_failures_run. unfold ret.
  cbn [engine_calls error_log info_log uuids_drawn app].
  eexists _, _. split; [reflexivity|].
  cbn [engine_calls error_log info_log uuids_drawn].
  split; [by rewrite length_map|]. split.
  - intros i text Hi. destruct (Hobjs i text Hi) as (o & Ho & Hp & Hid).
    exists o. rewrite Hcalls1, <- app_assoc, drop_app_length.
    rewrite batch_writes_app, Hpre, batch_writes_objects. cbn [app].
    split; [done|]. split; [by rewrite list_lookup_fmap, Ho|]. split; [done|].
    unfold id_for. rewrite <- Hdrawn1. done.
  - by rewrite Herr1.
Qed.

(** *** Keyword arguments *)

Lemma keywords_no_clash explicit star :
  Forall (fun nv => star !! nv.1 = None) explicit ->
  keywords explicit star = Ok (list_to_map explicit ∪ star).
Proof.
  intros H. unfold keywords.
  replace (existsb _ explicit) with false; [done|].
  symmetry. induction H as [|nv l Hnv _ IH]; [done|].
  cbn. rewrite IH, Hnv. by rewrite bool_decide_eq_false_2 by (by intros [? ?]).
Qed.

Lemma add_text_key_lookup tk kwargs kwargs1 key :
  add_text_key_to_return_properties tk kwargs = Ok kwargs1 ->
  key <> "return_properties" ->
  kwargs1 !! key = kwargs !! key.
Proof.
  unfold add_text_key_to_return_properties. intros H Hne.
  repeat case_match; simplify_eq; try done. by rewrite lookup_insert_ne.
Qed.

(** *** Normalization of well-formed objects *)

Lemma document_of_object_ok tk ru rs obj :
  object_well_formed tk obj ->
  exists hit, document_of_object tk ru rs obj = Ok hit.
Proof.
  intros ([text Ht] & Hv & [s Hs] & [e He]). unfold document_of_object.
  rewrite Ht, Hs, He.
  destruct Hv as [Hv|[v Hv]].
  - rewrite bool_decide_eq_true_2 by done. destruct (negb (py_truthy rs)); by eexists.
  - rewrite Hv. destruct (bool_decide _); cbn; destruct (negb (py_truthy rs)); by eexists.
Qed.

Lemma documents_of_objects_ok tk ru rs objs :
  Forall (object_well_formed tk) objs ->
  exists hits, documents_of_objects tk ru rs objs = Ok hits
    /\ length hits = length objs.
Proof.
  induction 1 as [|obj objs Hobj _ (hits & IH & Hlen)]; [by exists []|].
  destruct (document_of_object_ok tk ru rs obj Hobj) as [hit Hhit].
  exists (hit :: hits). cbn. rewrite Hhit, IH. by rewrite Hlen.
Qed.

(** *** The claims about search errors *)

(** a call of [_perform_search] with three positional arguments *)
Lemma call_perform_search_three self query k kq kw w :
  (exists msg, call_perform_search self [query; k; kq] kw w = (Raise (TypeError msg), w))
  \/ call_perform_search self [query; k; kq] kw w
     = _perform_search self query k kq
         (default (PBool false) (kw !! "return_score"))
         (default (PStr "hybrid") (kw !! "search_method"))
         (default PNone (kw !! "tenant"))
         (unbound_keywords _perform_search_signature kw) w.
Proof.
  unfold call_perform_search, _perform_search_signature. cbn [bind_values].
  destruct (bool_decide (is_Some (kw !! "query"))); [by left; eexists|].
  destruct (bool_decide (is_Some (kw !! "k"))); [by left; eexists|].
  destruct (bool_decide (is_Some (kw !! "keyword_query"))); [by left; eexists|].
  right. by destruct (kw !! "return_score"), (kw !! "search_method"), (kw !! "tenant").
Qed.

Lemma call_perform_search_three_no_clash self query k kq kw w :
  kw !! "query" = None -> kw !! "k" = None -> kw !! "keyword_query" = None ->
  call_perform_search self [query; k; kq] kw w
  = _perform_search self query k kq
      (default (PBool false) (kw !! "return_score"))
      (default (PStr "hybrid") (kw !! "search_method"))
      (default PNone (kw !! "tenant"))
      (unbound_keywords _perform_search_signature kw) w.
Proof.
  intros Hq Hk Hkq. unfold call_perform_search, _perform_search_signature.
  cbn [bind_values]. rewrite Hq, Hk, Hkq.
  rewrite !bool_decide_eq_false_2 by (by intros [? ?]).
  by destruct (kw !! "return_score"), (kw !! "search_method"), (kw !! "tenant").
Qed.

(** C1 (as amended).  A search dispatched in hybrid mode while no embedding
    provider is configured does not reach the engine: it raises the
    [ValueError] of the embedding check, whatever the other arguments are,
    and leaves the world as it found it.  The text-only hybrid branch of
    the dispatch is never entered.  So does [similarity_search] in its
    default mode or with the mode set to hybrid (its error is that
    [ValueError] unless a keyword argument repeats a positional one). *)
Theorem hybrid_without_embedding_raises self :
  _embedding self = None ->
  (forall query k kq rs tenant kwargs w,
     _perform_search self query k kq rs (PStr "hybrid") tenant kwargs w
       = (Raise (ValueError embedding_required_message), w))
  /\ (forall query k keyword_query kwargs w,
        default (PStr "hybrid") (kwargs !! "search_method") = PStr "hybrid" ->
        exists e,
          similarity_search self query k keyword_query kwargs w = (Raise e, w)
          /\ (kwargs !! "query" = None -> kwargs !! "k" = None ->
              kwargs !! "keyword_query" = None ->
              e = ValueError embedding_required_message)).
Proof.
  intros He. split; [intros; by apply perform_search_needs_embedding|].
  intros query k kq kwargs w Hsm. unfold similarity_search. rewrite Hsm.
  rewrite keywords_no_clash
    by (repeat constructor; cbn; apply lookup_delete_eq).
  unfold bind, lift.
  set (kw := list_to_map _ ∪ delete "search_method" kwargs).
  assert (kw !! "search_method" = Some (PStr "hybrid")) as Hkw
    by (by apply lookup_union_Some_l).
  assert (forall key, key <> "search_method" -> kw !! key = kwargs !! key) as Hother.
  { intros key Hne. unfold kw.
    rewrite lookup_union_r by (cbn; by rewrite lookup_insert_ne).
    by apply lookup_delete_ne. }
  assert (_perform_search self query k kq
            (default (PBool false) (kw !! "return_score"))
            (default (PStr "hybrid") (kw !! "search_method"))
            (default PNone (kw !! "tenant"))
            (unbound_keywords _perform_search_signature kw) w
          = (Raise (ValueError embedding_required_message), w)) as Hsearch.
  { rewrite Hkw. by apply perform_search_needs_embedding. }
  destruct (call_perform_search_three self query k kq kw w) as [[msg Hcall]|Hcall].
  - eexists. split; [exact Hcall|]. intros Hq Hk Hkq.
    rewrite call_perform_search_three_no_clash in Hcall
      by (by rewrite Hother).
    rewrite Hsearch in Hcall. discriminate.
  - rewrite Hcall, Hsearch. by eexists.
Qed.

(** C3.  With no embedding provider configured, a search in [near_text]
    mode goes through: when the tenant argument fits the store, the keyword
    arguments are well typed and do not repeat [query] or [limit], and the
    engine answers with well-formed objects, it sends one near-text query
    carrying the query string and the limit, and returns one hit per object.
    A search in [near_vector] mode raises the [ValueError] of the embedding
    check (the spec's ConfigurationError) before anything is sent. *)
Theorem text_mode_needs_no_embedding self query k kq rs tenant kwargs w :
  _embedding self = None ->
  (tenant_mismatch self tenant = false ->
   return_properties_is_list kwargs = true ->
   kwargs !! "query" = None -> kwargs !! "limit" = None ->
   forall reply,
     (forall args, query_near_text (_client self) tenant args = Ok reply) ->
     Forall (object_well_formed (_text_key self)) (objects reply) ->
     exists hits args,
       _perform_search self query k kq rs (PStr "near_text") tenant kwargs w
         = (Ok hits, record_call (QueryNearText tenant args) w)
       /\ length hits = length (objects reply)
       /\ args !! "query" = Some query /\ args !! "limit" = Some k)
  /\ _perform_search self query k kq rs (PStr "near_vector") tenant kwargs w
     = (Raise (ValueError embedding_required_message), w).
Proof.
  intros He. split; [|by apply perform_search_needs_embedding].
  intros Ht Hrp Hq Hl reply Hreply Hobjs.
  destruct (add_text_key_well_typed (_text_key self) kwargs Hrp) as [kwargs1 Ha].
  rewrite (perform_search_run _ _ _ _ _ _ _ _ kwargs1) by done.
  unfold dispatch_query. cbn [py_eq_str String.eqb Ascii.eqb Bool.eqb].
  rewrite keywords_no_clash.
  2:{ repeat constructor; cbn; rewrite lookup_delete_ne by done;
      by rewrite (add_text_key_lookup _ _ _ _ Ha) by done. }
  unfold collection_query_near_text. unfold_monad. cbn. rewrite Hreply.
  destruct (documents_of_objects_ok (_text_key self)
              (default (PBool false) (kwargs1 !! "return_uuids")) rs _ Hobjs)
    as (hits & -> & Hlen).
  eexists hits, _. split; [reflexivity|]. split; [done|].
  split; by apply lookup_union_Some_l.
Qed.

(** C4.  When the tenant argument disagrees with the multi-tenancy flag (a
    tenant given while multi-tenancy is disabled, or none given while it is
    enabled), acquiring the tenant scope raises [ValueError] (the spec's
    ConfigurationError) and runs nothing of the block it guards; a search
    and a delete therefore fail and leave the world, hence the calls sent
    to the engine, unchanged.  The search's error is a [ValueError] whenever
    [return_properties], if passed, is a list. *)
Theorem tenant_scope_mismatch_is_rejected self tenant :
  tenant_mismatch self tenant = true ->
  (forall (A : Type) (body : Collection -> M A) w,
     exists msg, _tenant_context self tenant body w = (Raise (ValueError msg), w))
  /\ (forall query k kq rs sm kwargs w,
        exists e, _perform_search self query k kq rs sm tenant kwargs w = (Raise e, w)
          /\ (return_properties_is_list kwargs = true -> exists msg, e = ValueError msg))
  /\ (forall ids kwargs w,
        exists msg, delete_ self ids tenant kwargs w = (Raise (ValueError msg), w)).
Proof.
  intros Hm. split; [|split].
  - intros A body w. by apply tenant_context_mismatch.
  - intros query k kq rs sm kwargs w.
    destruct (perform_search_stops_early self query k kq rs sm tenant kwargs w)
      as (e & He & _ & Hv); [auto|]. by exists e.
  - intros ids kwargs w. unfold delete_.
    destruct (is_none ids); [by eexists|]. by apply tenant_context_mismatch.
Qed.

(** C5.  A search never ends in the engine's [WeaviateQueryException]; and
    when the query it sent is one the engine answers by raising
    [WeaviateQueryException] with message [msg], the search raises
    [ValueError] with the text "Error during query: " followed by [msg]
    (the spec's QueryError). *)
Theorem query_errors_are_rewrapped self query k kq rs sm tenant kwargs w :
  (forall msg w',
     _perform_search self query k kq rs sm tenant kwargs w
       <> (Raise (WeaviateQueryException msg), w'))
  /\ (forall r w' c msg,
        _perform_search self query k kq rs sm tenant kwargs w = (r, w') ->
        engine_calls w' = engine_calls w ++ [c] ->
        query_reply (_client self) c = Some (Raise (WeaviateQueryException msg)) ->
        r = Raise (ValueError ("Error during query: " +:+ msg))).
Proof.
  destruct (perform_search_checks self sm tenant kwargs)
    as [Hstop|(Hg & [kwargs1 Ha] & Ht)].
  - destruct (perform_search_stops_early self query k kq rs sm tenant kwargs w Hstop)
      as (e & He & Hne & _).
    rewrite He. split.
    + intros msg w' [= -> _]. by eapply Hne.
    + intros r w' c msg [= <- <-] Hcalls _. by apply app_singleton_neq in Hcalls.
  - rewrite (perform_search_run _ _ _ _ _ _ _ _ kwargs1) by done.
    destruct (dispatch_query _ _ _ _ _ _ _ w) as [r1 w1] eqn:Hd. split.
    + intros msg w'. destruct r1 as [result|e].
      * intros [= Hdocs _]. by apply documents_of_objects_not_query_exception in Hdocs.
      * by destruct e.
    + intros r w' c msg Hrun Hcalls Hreply.
      apply dispatch_query_cases in Hd as [[-> _]|(c1 & -> & Hc1)].
      * destruct r1; simplify_eq; by apply app_singleton_neq in Hcalls.
      * assert (w' = record_call c1 w) as -> by (destruct r1; congruence).
        cbn in Hcalls. apply app_inj_tail in Hcalls as [_ ->].
        cbn in Hc1. rewrite Hreply in Hc1. by simplify_eq.
Qed.

(** C10.  [similarity_search_by_vector] on a store with no embedding
    provider raises before anything is sent to the engine, although the
    caller supplies the query vector: the world is unchanged, and the error
    is the [ValueError] of the embedding check unless the extra keyword
    arguments repeat one the method passes itself. *)
Theorem search_by_vector_requires_embedding self embedding k kwargs w :
  _embedding self = None ->
  exists e,
    similarity_search_by_vector self embedding k kwargs w = (Raise e, w)
    /\ (kwargs !! "query" = None -> kwargs !! "k" = None ->
        kwargs !! "near_vector" = None -> kwargs !! "search_method" = None ->
        e = ValueError embedding_required_message).
Proof.
  intros He. unfold similarity_search_by_vector. unfold bind, lift.
  destruct (keywords _ kwargs) as [kw|e] eqn:Hkw.
  - apply keywords_Ok in Hkw as ->.
    rewrite (call_perform_search_keywords _ _ PNone k)
      by (by apply lookup_union_Some_l).
    rewrite perform_search_needs_embedding; [by eexists|done|].
    by rewrite (lookup_union_Some_l _ _ _ (PStr "near_vector")).
  - exists e. split; [done|]. intros Hq Hk Hv Hs.
    rewrite keywords_no_clash in Hkw; [done|]. by repeat constructor.
Qed.

(** *** Result normalization *)

Lemma documents_of_objects_each tk ru rs objs hits :
  documents_of_objects tk ru rs objs = Ok hits ->
  Forall2 (fun obj hit => document_of_object tk ru rs obj = Ok hit) objs hits.
Proof.
  revert hits. induction objs as [|obj objs IH]; intros hits; cbn.
  - intros [= <-]. constructor.
  - destruct (document_of_object tk ru rs obj) as [hit|] eqn:E; [|done].
    destruct (documents_of_objects tk ru rs objs) as [hits'|]; [|done].
    intros [= <-]. constructor; [done|]. by apply IH.
Qed.

(** a search that returns has sent one query, got a reply, and returns the
    normalization of its objects *)
Lemma perform_search_Ok self query k kq rs sm tenant kwargs w hits w' :
  _perform_search self query k kq rs sm tenant kwargs w = (Ok hits, w') ->
  exists kwargs1 c reply,
    add_text_key_to_return_properties (_text_key self) kwargs = Ok kwargs1
    /\ dispatch_query self (with_tenant self tenant) query k kq sm
         (delete "return_uuids" kwargs1) w = (Ok reply, w')
    /\ w' = record_call c w
    /\ query_reply (_client self) c = Some (Ok reply)
    /\ documents_of_objects (_text_key self)
         (default (PBool false) (kwargs1 !! "return_uuids")) rs (objects reply)
       = Ok hits.
Proof.
  intros Hrun.
  destruct (perform_search_checks self sm tenant kwargs)
    as [Hstop|(Hg & [kwargs1 Ha] & Ht)].
  { destruct (perform_search_stops_early self query k kq rs sm tenant kwargs w Hstop)
      as (e & He & _). congruence. }
  rewrite (perform_search_run _ _ _ _ _ _ _ _ kwargs1) in Hrun by done.
  destruct (dispatch_query _ _ _ _ _ _ _ w) as [[reply|e] w1] eqn:Hd; [|done].
  injection Hrun as Hdocs ->.
  destruct (dispatch_query_cases _ _ _ _ _ _ _ _ _ _ Hd)
    as [[_ [e He]]|(c & -> & Hc)]; [done|].
  by exists kwargs1, c, reply.
Qed.

(** what the keys of a document made from [obj] hold *)
Lemma document_of_object_metadata tk ru rs obj hit :
  document_of_object tk ru rs obj = Ok hit ->
  properties obj !! tk = Some (page_content (hit_document hit))
  /\ forall key,
       metadata (hit_document hit) !! key
       = if String.eqb key "uuid" && py_truthy ru then Some (PStr (uuid obj))
         else if String.eqb key "vector" && negb (bool_decide (dom (vector obj) = ∅))
         then vector obj !! "default"
         else match metadata_dict obj !! key with
              | Some v => if is_none v then delete tk (properties obj) !! key
                          else Some v
              | None => delete tk (properties obj) !! key
              end.
Proof.
  unfold document_of_object. intros H.
  destruct (properties obj !! tk) as [text|] eqn:Ht; [|done].
  set (filtered := filter (fun kv => is_none kv.2 = false) (metadata_dict obj)) in *.
  assert (forall key, (filtered ∪ delete tk (properties obj)) !! key
           = match metadata_dict obj !! key with
             | Some v => if is_none v then delete tk (properties obj) !! key
                         else Some v
             | None => delete tk (properties obj) !! key
             end) as Hfil.
  { intros key. rewrite lookup_union. subst filtered.
    destruct (metadata_dict obj !! key) as [v|] eqn:Hk.
    - destruct (is_none v) eqn:Hv.
      + rewrite map_lookup_filter_None_2; [by rewrite (left_id None _)|].
        right. intros v' Hv'. cbn. congruence.
      + rewrite (map_lookup_filter_Some_2 _ _ key v) by done.
        by destruct (delete tk (properties obj) !! key).
    - rewrite map_lookup_filter_None_2 by auto. by rewrite (left_id None _). }
  set (merged vp := (if py_truthy ru then {[ "uuid" := PStr (uuid obj) ]} else ∅)
                      ∪ (vp ∪ (filtered ∪ delete tk (properties obj)))) in *.
  assert (exists vp,
    (if bool_decide (dom (vector obj) = ∅) then Some ∅
     else (fun v => {[ "vector" := v ]}) <$> vector obj !! "default") = Some vp
    /\ hit_document hit = {| page_content := text; metadata := merged vp |})
    as (vp & Hvp & Hdoc).
  { destruct (if bool_decide _ then _ else _) as [vp|]; [|done].
    exists vp. split; [done|].
    destruct (negb (py_truthy rs)); [by simplify_eq|].
    repeat case_match; by simplify_eq. }
  rewrite Hdoc. cbn. split; [done|]. intros key. subst merged. cbn.
  rewrite lookup_union.
  destruct (String.eqb_spec key "uuid") as [->|Hu]; cbn.
  - destruct (py_truthy ru) eqn:Hru.
    + by rewrite lookup_singleton_eq, union_Some_l.
    + rewrite lookup_empty, (left_id None _), lookup_union.
      assert (vp !! "uuid" = None) as ->.
      { destruct (bool_decide _); simplify_eq; [done|].
        destruct (vector obj !! "default"); cbn in Hvp; simplify_eq.
        by rewrite lookup_singleton_ne. }
      by rewrite (left_id None _), Hfil.
  - assert ((if py_truthy ru then ({[ "uuid" := PStr (uuid obj) ]} : gmap string pyval)
             else ∅) !! key = None) as ->.
    { destruct (py_truthy ru); [by rewrite lookup_singleton_ne|done]. }
    rewrite (left_id None _), lookup_union.
    destruct (String.eqb_spec key "vector") as [->|Hv]; cbn.
    + destruct (bool_decide _); cbn; simplify_eq.
      * by rewrite lookup_empty, (left_id None _), Hfil.
      * destruct (vector obj !! "default") as [v|]; cbn in Hvp; simplify_eq.
        by rewrite lookup_singleton_eq, union_Some_l.
    + assert (vp !! key = None) as ->.
      { destruct (bool_decide _); simplify_eq; [done|].
        destruct (vector obj !! "default"); cbn in Hvp; simplify_eq.
        by rewrite lookup_singleton_ne. }
      by rewrite (left_id None _), Hfil.
Qed.

Lemma not_reserved_attached ru obj key :
  reserved_attached ru obj key = false ->
  String.eqb key "uuid" && py_truthy ru = false
  /\ String.eqb key "vector" && negb (bool_decide (dom (vector obj) = ∅)) = false.
Proof. unfold reserved_attached. intros H. by apply orb_false_elim in H as [-> ->]. Qed.

Lemma stored_properties_text tk text md :
  md !! tk = None ->
  data_properties_of tk text (Some md) !! tk = Some (PStr text)
  /\ delete tk (data_properties_of tk text (Some md)) = _json_serializable <$> md.
Proof.
  intros Hmd. unfold data_properties_of. split.
  - rewrite lookup_union_r by (by rewrite lookup_fmap, Hmd).
    apply lookup_singleton_eq.
  - apply map_eq. intros key. destruct (decide (key = tk)) as [->|Hne].
    + by rewrite lookup_delete_eq, lookup_fmap, Hmd.
    + rewrite lookup_delete_ne by done. rewrite lookup_union.
      rewrite lookup_singleton_ne by done. apply (right_id None _).
Qed.

(** the text of an object reaches the content of its document and nothing
    else of it *)
Lemma document_of_object_with_text tk ru rs obj hit text :
  document_of_object tk ru rs obj = Ok hit ->
  exists hit',
    document_of_object tk ru rs (with_text obj tk text) = Ok hit'
    /\ page_content (hit_document hit') = text
    /\ metadata (hit_document hit') = metadata (hit_document hit).
Proof.
  unfold document_of_object, with_text. cbn [properties metadata_dict vector uuid].
  rewrite lookup_insert_eq, delete_insert_eq.
  destruct (properties obj !! tk) as [text0|]; [|done].
  destruct (if bool_decide _ then _ else _) as [vp|]; [|done].
  destruct (negb (py_truthy rs)).
  - intros [= <-]. by eexists.
  - destruct (metadata_dict obj !! "score") as [s|]; [|done].
    destruct (metadata_dict obj !! "explain_score") as [e|]; [|done].
    intros [= <-]. by eexists.
Qed.

(** C6.  For every object the normalization accepts, the document's content
    is the object's text-key property, and that property is moved, not
    copied: the metadata is the same whatever the text is.  Every engine
    metadata field that is not [None] is in the metadata, and every other
    property but the text key is too, a non-null engine field standing in
    for a property of the same name and an attached reserved key ("vector"
    for an object with vectors, "uuid" when identifiers were asked for) for
    either.  The metadata has no entry under the text key, unless the text
    key is also the name of a non-null engine field or of an attached
    reserved key, whose value the entry then is.  In particular an object
    stored by [add_texts] for a text and a metadata dictionary without the
    text key, returned by the engine with no metadata field set and no
    vector, yields the text as content and the (serialized) dictionary as
    metadata. *)
Theorem normalization_moves_text_into_content tk ru rs obj :
  (forall hit, document_of_object tk ru rs obj = Ok hit ->
     properties obj !! tk = Some (page_content (hit_document hit))
     /\ (forall text, exists hit',
           document_of_object tk ru rs (with_text obj tk text) = Ok hit'
           /\ page_content (hit_document hit') = text
           /\ metadata (hit_document hit') = metadata (hit_document hit))
     /\ (forall key v, metadata_dict obj !! key = Some v -> is_none v = false ->
           reserved_attached ru obj key = false ->
           metadata (hit_document hit) !! key = Some v)
     /\ (forall key, key <> tk -> engine_field obj key = false ->
           reserved_attached ru obj key = false ->
           metadata (hit_document hit) !! key = properties obj !! key)
     /\ (engine_field obj tk = false -> reserved_attached ru obj tk = false ->
           metadata (hit_document hit) !! tk = None))
  /\ (forall text md,
        md !! tk = None ->
        properties obj = data_properties_of tk text (Some md) ->
        map_Forall (fun _ v => is_none v = true) (metadata_dict obj) ->
        dom (vector obj) = ∅ ->
        py_truthy ru = false -> py_truthy rs = false ->
        document_of_object tk ru rs obj
        = Ok (Plain {| page_content := PStr text;
                       metadata := _json_serializable <$> md |})).
Proof.
  split.
  - intros hit Hhit.
    destruct (document_of_object_metadata tk ru rs obj hit Hhit) as [Hc Hm].
    split; [done|]. split; [|split; [|split]].
    + intros text. by apply document_of_object_with_text.
    + intros key v Hv Hnn Hres. rewrite Hm.
      apply not_reserved_attached in Hres as [-> ->]. by rewrite Hv, Hnn.
    + intros key Hne Hef Hres. rewrite Hm.
      apply not_reserved_attached in Hres as [-> ->].
      unfold engine_field in Hef. rewrite lookup_delete_ne by done.
      destruct (metadata_dict obj !! key) as [v|]; [|done].
      apply negb_false_iff in Hef. by rewrite Hef.
    + intros Hef Hres. rewrite Hm.
      apply not_reserved_attached in Hres as [-> ->].
      unfold engine_field in Hef. rewrite lookup_delete_eq.
      destruct (metadata_dict obj !! tk) as [v|]; [|done].
      apply negb_false_iff in Hef. by rewrite Hef.
  - intros text md Hmd Hprops Hef Hvec Hru Hrs.
    destruct (stored_properties_text tk text md Hmd) as [Htext Hrest].
    unfold document_of_object. rewrite Hprops, Htext, Hrest.
    rewrite bool_decide_eq_true_2 by done. rewrite Hru, Hrs. cbn.
    do 3 f_equal. rewrite !(left_id ∅ _).
    replace (filter _ (metadata_dict obj)) with (∅ : gmap string pyval);
      [by rewrite (left_id ∅ _)|].
    symmetry. apply map_eq. intros key. rewrite lookup_empty.
    apply map_lookup_filter_None_2.
    destruct (metadata_dict obj !! key) as [v|] eqn:Hk; [|by left].
    right. intros v' [= <-]. cbn. rewrite (Hef key v Hk). done.
Qed.

(** *** Scores *)

Lemma float_run_app st a b :
  float_run st (a +:+ b) = float_run (float_run st a) b.
Proof.
  revert st. induction a as [|c a IH]; intros st; [done|].
  change (String c a +:+ b) with (String c (a +:+ b)). cbn [float_run]. apply IH.
Qed.

Lemma float_run_dead s : float_run FDead s = FDead.
Proof. induction s as [|c s IH]; [done|]. cbn. apply IH. Qed.

Lemma float_step_colon st : float_step st ":"%char = FDead.
Proof. by destruct st. Qed.

Example parses_as_float_examples :
  map parses_as_float ["0.5"; " -1_0.e+3 "; "Infinity"; "nAn"; ".5"; "1e5"]
    = [true; true; true; true; true; true]
  /\ map parses_as_float [""; "."; "1__0"; "e5"; "0.5: x"; "in"; "1 2"; "None"]
    = [false; false; false; false; false; false; false; false].
Proof. split; reflexivity. Qed.

(** no string with a colon in it reads as a float *)
Lemma colon_does_not_parse a b : parses_as_float (a +:+ ": " +:+ b) = false.
Proof.
  unfold parses_as_float. rewrite float_run_app.
  change (": " +:+ b) with (String ":"%char (String " "%char b)).
  cbn [float_run]. by rewrite float_step_colon, float_run_dead.
Qed.

Lemma document_of_object_scored tk ru rs obj hit :
  py_truthy rs = true ->
  document_of_object tk ru rs obj = Ok hit ->
  exists doc relevance explanation,
    metadata_dict obj !! "score" = Some relevance
    /\ metadata_dict obj !! "explain_score" = Some explanation
    /\ hit = Scored doc (PStr (py_str relevance +:+ ": " +:+ py_str explanation)).
Proof.
  intros Hrs. unfold document_of_object. rewrite Hrs. cbn [negb].
  intros H. repeat case_match; simplify_eq; eauto 10.
Qed.

Lemma call_perform_search_positional self query k kw w hits w' :
  call_perform_search self [query; k] kw w = (Ok hits, w') ->
  _perform_search self query k
    (default PNone (kw !! "keyword_query"))
    (default (PBool false) (kw !! "return_score"))
    (default (PStr "hybrid") (kw !! "search_method"))
    (default PNone (kw !! "tenant"))
    (unbound_keywords _perform_search_signature kw) w = (Ok hits, w').
Proof.
  unfold call_perform_search, _perform_search_signature. cbn [bind_values].
  destruct (bool_decide (is_Some (kw !! "query"))); [done|].
  destruct (bool_decide (is_Some (kw !! "k"))); [done|].
  destruct (kw !! "keyword_query"), (kw !! "return_score"),
    (kw !! "search_method"), (kw !! "tenant"); done.
Qed.

(** C7.  When [similarity_search_with_score] returns, it has sent one
    query, and each hit pairs the document of an object of the reply with
    one score: the string made of [str] of the object's relevance score,
    a colon and a blank, and [str] of its explanation.  That value is a
    string, not a number, and [float()] rejects it. *)
Theorem score_concatenates_relevance_and_explanation self query k kwargs w hits w' :
  similarity_search_with_score self query k kwargs w = (Ok hits, w') ->
  exists c reply,
    w' = record_call c w
    /\ query_reply (_client self) c = Some (Ok reply)
    /\ Forall2
         (fun obj hit =>
            exists doc relevance explanation,
              metadata_dict obj !! "score" = Some relevance
              /\ metadata_dict obj !! "explain_score" = Some explanation
              /\ hit = Scored doc
                         (PStr (py_str relevance +:+ ": " +:+ py_str explanation))
              /\ purely_numeric
                   (PStr (py_str relevance +:+ ": " +:+ py_str explanation)) = false)
         (objects reply) hits.
Proof.
  unfold similarity_search_with_score. unfold bind, lift.
  destruct (keywords _ kwargs) as [kw|e] eqn:Hkw; [|done].
  apply keywords_Ok in Hkw as ->. intros Hrun.
  apply call_perform_search_positional in Hrun.
  rewrite (lookup_union_Some_l _ _ "return_score" (PBool true)) in Hrun by done.
  apply perform_search_Ok in Hrun as (kwargs1 & c & reply & _ & _ & -> & Hc & Hdocs).
  exists c, reply. split; [done|]. split; [done|].
  apply documents_of_objects_each in Hdocs.
  eapply Forall2_impl; [exact Hdocs|]. intros obj hit Hhit. cbn beta in Hhit.
  apply document_of_object_scored in Hhit as (doc & s & e & Hs & He & ->); [|done].
  exists doc, s, e. repeat split; try done. cbn. apply colon_does_not_parse.
Qed.

(** *** Maximal marginal relevance search *)


Lemma unbound_keywords_lookup kw key :
  key ∉ _perform_search_signature.*1 ->
  unbound_keywords _perform_search_signature kw !! key = kw !! key.
Proof.
  intros Hkey. unfold unbound_keywords, _perform_search_signature in *. cbn in *.
  rewrite !lookup_delete_ne; [done|..]; intros <-; apply Hkey;
    repeat first [apply list_elem_of_here | apply list_elem_of_further].
Qed.




(** *** The score normalizer *)

Section ScoreNormalizer.
Local Open Scope R_scope.

Lemma np_clip_bounds x lo hi : lo <= hi -> lo <= np_clip x lo hi <= hi.
Proof.
  intros H. unfold np_clip, Rmin, Rmax.
  destruct (Rle_dec x lo); destruct (Rle_dec _ hi); lra.
Qed.

Lemma np_clip_monotone a b lo hi : a <= b -> np_clip a lo hi <= np_clip b lo hi.
Proof.
  intros H. unfold np_clip. apply Rle_min_compat_r. by apply Rle_max_compat_r.
Qed.

Lemma exp_monotone a b : a <= b -> exp a <= exp b.
Proof.
  intros [Hlt| ->]; [|apply Rle_refl]. left. by apply exp_increasing.
Qed.

(** the logistic curve, before clipping *)
Lemma logistic_monotone a b :
  a <= b -> 1 - 1 / (1 + exp a) <= 1 - 1 / (1 + exp b).
Proof.
  intros H. apply exp_monotone in H.
  pose proof (exp_pos a) as Ha. pose proof (exp_pos b) as Hb.
  assert (/ (1 + exp b) <= / (1 + exp a)) by (apply Rinv_le_contravar; lra).
  lra.
Qed.

Lemma logistic_bounds x : 0 <= 1 - 1 / (1 + exp x) <= 1.
Proof.
  pose proof (exp_pos x) as Hx.
  assert (0 < / (1 + exp x)) by (apply Rinv_0_lt_compat; lra).
  assert (/ (1 + exp x) <= / 1) by (apply Rinv_le_contravar; lra).
  rewrite Rinv_1 in *. lra.
Qed.

(** C8.  Over the real numbers, which stand for the floating-point
    values of the code: the default normalizer is the logistic transform
    [1 - 1/(1+e^x)] of its argument clamped to [-709, 709]; it is
    monotonically non-decreasing; its values lie in [0, 1]; and it maps 0
    to one half. *)
Theorem default_score_normalizer_logistic :
  (forall x, _default_score_normalizer x
             = 1 - 1 / (1 + exp (Rmin (Rmax x (-709)) 709)))
  /\ (forall x, -709 <= np_clip x (-709) 709 <= 709)
  /\ (forall a b, a <= b ->
        _default_score_normalizer a <= _default_score_normalizer b)
  /\ (forall x, 0 <= _default_score_normalizer x <= 1)
  /\ _default_score_normalizer 0 = 1 / 2.
Proof.
  split; [reflexivity|]. split; [intros x; apply np_clip_bounds; lra|].
  split; [|split].
  - intros a b H. unfold _default_score_normalizer.
    apply logistic_monotone. by apply np_clip_monotone.
  - intros x. apply logistic_bounds.
  - unfold _default_score_normalizer, np_clip, Rmin, Rmax.
    destruct (Rle_dec 0 (-709)); [lra|]. destruct (Rle_dec 0 709); [|lra].
    rewrite exp_0. lra.
Qed.

End ScoreNormalizer.

(** ** Further properties *)

(** *** What a search sends *)

(** the query a dispatch sends, in each mode *)
Lemma dispatch_query_sent self coll query k kq sm kwargs w r w' :
  dispatch_query self coll query k kq sm kwargs w = (r, w') ->
  (w' = w /\ exists e, r = Raise e)
  \/ (exists emb v,
        py_eq_str sm "hybrid" = true /\ _embedding self = Some emb
        /\ embed_query emb query = Ok v
        /\ w' = record_call
                  (QueryHybrid (coll_tenant coll)
                     (list_to_map [("query", if negb (is_none kq) then kq else query);
                                   ("vector", v); ("limit", k)] ∪ kwargs)) w)
  \/ (py_eq_str sm "hybrid" = true /\ _embedding self = None
      /\ w' = record_call
                (QueryHybrid (coll_tenant coll)
                   (list_to_map [("query", query); ("limit", k)] ∪ kwargs)) w)
  \/ (py_eq_str sm "near_vector" = true
      /\ w' = record_call
                (QueryNearVector (coll_tenant coll)
                   (list_to_map [("limit", k)] ∪ kwargs)) w)
  \/ (py_eq_str sm "near_text" = true
      /\ w' = record_call
                (QueryNearText (coll_tenant coll)
                   (list_to_map [("query", query); ("limit", k)] ∪ kwargs)) w).
Proof.
  unfold dispatch_query, collection_query_hybrid, collection_query_near_vector,
    collection_query_near_text.
  unfold_monad. intros H.
  destruct (py_eq_str sm "hybrid") eqn:Hh.
  - destruct (_embedding self) as [emb|] eqn:He.
    + destruct (embed_query emb query) as [v|e] eqn:Hv; [|simplify_eq; eauto].
      destruct (keywords _ kwargs) as [args|e] eqn:Hk; [|simplify_eq; eauto].
      apply keywords_Ok in Hk as ->.
      right; left. exists emb, v. repeat (split; [done|]).
      by destruct (query_hybrid _ _ _); simplify_eq.
    + destruct (keywords _ kwargs) as [args|e] eqn:Hk; [|simplify_eq; eauto].
      apply keywords_Ok in Hk as ->.
      right; right; left. repeat (split; [done|]).
      by destruct (query_hybrid _ _ _); simplify_eq.
  - destruct (py_eq_str sm "near_vector") eqn:Hv.
    + destruct (keywords _ kwargs) as [args|e] eqn:Hk; [|simplify_eq; eauto].
      apply keywords_Ok in Hk as ->.
      do 3 right; left. split; [done|].
      by destruct (query_near_vector _ _ _); simplify_eq.
    + destruct (py_eq_str sm "near_text") eqn:Ht; [|simplify_eq; eauto].
      destruct (keywords _ kwargs) as [args|e] eqn:Hk; [|simplify_eq; eauto].
      apply keywords_Ok in Hk as ->.
      do 4 right. split; [done|].
      by destruct (query_near_text _ _ _); simplify_eq.
Qed.

(** a search either ends where it started, or its world is that of its
    dispatch, run on the keyword arguments without [return_uuids] *)
Lemma perform_search_world self query k kq rs sm tenant kwargs w r w' :
  _perform_search self query k kq rs sm tenant kwargs w = (r, w') ->
  (w' = w /\ exists e, r = Raise e)
  \/ exists kwargs1 r1,
       negb (py_eq_str sm "near_text")
         && match _embedding self with None => true | Some _ => false end = false
       /\ add_text_key_to_return_properties (_text_key self) kwargs = Ok kwargs1
       /\ tenant_mismatch self tenant = false
       /\ dispatch_query self (with_tenant self tenant) query k kq sm
            (delete "return_uuids" kwargs1) w = (r1, w').
Proof.
  intros Hrun.
  destruct (perform_search_checks self sm tenant kwargs)
    as [Hstop|(Hg & [kwargs1 Ha] & Ht)].
  - destruct (perform_search_stops_early self query k kq rs sm tenant kwargs w Hstop)
      as (e & He & _). rewrite He in Hrun. simplify_eq. left. eauto.
  - rewrite (perform_search_run _ _ _ _ _ _ _ _ kwargs1) in Hrun by done.
    destruct (dispatch_query _ _ _ _ _ _ _ w) as [r1 w1] eqn:Hd.
    right. exists kwargs1, r1. repeat (split; [done|]).
    destruct r1; by simplify_eq.
Qed.

(** X1.  With no embedding provider configured, a search sends nothing to
    the engine but a near-text query: in every other mode, and after any
    failed check, the calls sent are those sent before. *)
Theorem without_embedding_only_near_text_is_sent self query k kq rs sm tenant kwargs
    w r w' :
  _embedding self = None ->
  _perform_search self query k kq rs sm tenant kwargs w = (r, w') ->
  w' = w
  \/ (py_eq_str sm "near_text" = true
      /\ exists args, w' = record_call (QueryNearText tenant args) w).
Proof.
  intros He Hrun.
  apply perform_search_world in Hrun as [[-> _]|(kwargs1 & r1 & Hg & _ & _ & Hd)];
    [by left|].
  rewrite He in Hg. rewrite andb_true_r in Hg. apply negb_false_iff in Hg.
  apply dispatch_query_sent in Hd
    as [[-> _]|[(emb & v & _ & He' & _)|[(Hh & _)|[(Hv & _)|(_ & ->)]]]].
  - by left.
  - congruence.
  - destruct sm; try done. cbn in *.
    apply String.eqb_eq in Hh, Hg. congruence.
  - destruct sm; try done. cbn in *.
    apply String.eqb_eq in Hv, Hg. congruence.
  - right. split; [done|]. by eexists.
Qed.

(** the shape of the query a dispatch sends *)
Lemma dispatch_query_call self coll query k kq sm kwargs w r w' :
  dispatch_query self coll query k kq sm kwargs w = (r, w') ->
  (w' = w /\ exists e, r = Raise e)
  \/ exists c explicit,
       w' = record_call c w
       /\ call_tenant c = coll_tenant coll
       /\ call_args c = list_to_map explicit ∪ kwargs
       /\ (forall key, key <> "query" -> key <> "vector" -> key <> "limit" ->
             (list_to_map explicit : gmap string pyval) !! key = None)
       /\ (list_to_map explicit : gmap string pyval) !! "limit" = Some k.
Proof.
  intros Hd. apply dispatch_query_sent in Hd
    as [?|[(emb & v & _ & _ & _ & ->)|[(_ & _ & ->)|[(_ & ->)|(_ & ->)]]]];
    [by left|right..]; eexists _, _; (split; [reflexivity|]);
    (split; [reflexivity|]); (split; [reflexivity|]); (split; [|reflexivity]);
    intros key Hq Hv Hl; cbn; by rewrite ?lookup_insert_ne, lookup_empty by done.
Qed.

(** X2.  Whatever query a search sends goes to the tenant it was given and
    carries the limit [k]; [return_uuids] is never forwarded; a list of
    [return_properties] is forwarded with the text key in it, appended if it
    was missing; every other keyword argument is forwarded as it came. *)
Theorem search_forwards_keyword_arguments self query k kq rs sm tenant kwargs
    w r w' c :
  _perform_search self query k kq rs sm tenant kwargs w = (r, w') ->
  engine_calls w' = engine_calls w ++ [c] ->
  call_tenant c = tenant
  /\ call_args c !! "limit" = Some k
  /\ call_args c !! "return_uuids" = None
  /\ (forall l, kwargs !! "return_properties" = Some (PList l) ->
        exists l', call_args c !! "return_properties" = Some (PList l')
          /\ PStr (_text_key self) ∈ l'
          /\ (l' = l \/ l' = l ++ [PStr (_text_key self)]))
  /\ (forall key, key <> "query" -> key <> "vector" -> key <> "limit" ->
        key <> "return_uuids" -> key <> "return_properties" ->
        call_args c !! key = kwargs !! key).
Proof.
  intros Hrun Hcalls.
  apply perform_search_world in Hrun
    as [[-> _]|(kwargs1 & r1 & _ & Ha & _ & Hd)];
    [by apply app_singleton_neq in Hcalls|].
  apply dispatch_query_call in Hd
    as [[-> _]|(c1 & explicit & -> & Ht & Hargs & Hother & Hlimit)];
    [by apply app_singleton_neq in Hcalls|].
  cbn in Hcalls. apply app_inj_tail in Hcalls as [_ ->].
  split; [done|]. rewrite Hargs. split; [by apply lookup_union_Some_l|].
  split. { rewrite lookup_union_r by (by apply Hother). apply lookup_delete_eq. }
  split.
  - intros l Hl. rewrite lookup_union_r by (by apply Hother).
    rewrite lookup_delete_ne by done.
    unfold add_text_key_to_return_properties in Ha. rewrite Hl in Ha.
    destruct (existsb _ l) eqn:Hex; simplify_eq.
    + exists l. split; [done|]. split; [|by left].
      apply existsb_exists in Hex as (v & Hin & Hv).
      destruct v; try done. cbn in Hv. apply String.eqb_eq in Hv as ->.
      by apply list_elem_of_In.
    + eexists. rewrite lookup_insert_eq. split; [done|]. split; [|by right].
      apply elem_of_app. right. apply list_elem_of_here.
  - intros key Hq Hv Hl Hu Hp. rewrite lookup_union_r by (by apply Hother).
    rewrite lookup_delete_ne by done. by apply (add_text_key_lookup _ _ _ _ Ha).
Qed.

(** X3.  The query a hybrid search sends carries, as its vector, the
    embedding of the query string, and as its text the keyword query when
    one is given, else the query string. *)
Theorem hybrid_sends_keyword_query_and_embedding self query k kq rs tenant kwargs
    w r w' c :
  _perform_search self query k kq rs (PStr "hybrid") tenant kwargs w = (r, w') ->
  engine_calls w' = engine_calls w ++ [c] ->
  exists emb v args,
    _embedding self = Some emb
    /\ embed_query emb query = Ok v
    /\ c = QueryHybrid tenant args
    /\ args !! "vector" = Some v
    /\ args !! "query" = Some (if is_none kq then query else kq).
Proof.
  intros Hrun Hcalls.
  apply perform_search_world in Hrun
    as [[-> _]|(kwargs1 & r1 & Hg & _ & _ & Hd)];
    [by apply app_singleton_neq in Hcalls|].
  apply dispatch_query_sent in Hd
    as [[-> _]|[(emb & v & _ & He & Hv & ->)|[(_ & He & _)|[(Hm & _)|(Hm & _)]]]];
    [by apply app_singleton_neq in Hcalls| |by rewrite He in Hg|done..].
  cbn in Hcalls. apply app_inj_tail in Hcalls as [_ <-].
  exists emb, v. eexists. repeat (split; [done|]).
  split; apply lookup_union_Some_l; [done|]. by destruct (is_none kq).
Qed.

(** X4.  A search in a mode that is none of hybrid, near_vector and
    near_text sends nothing and raises; with an embedding provider, a
    fitting tenant and well-typed [return_properties] the error is the
    [ValueError] that names the mode. *)
Theorem unknown_search_method_is_rejected self query k kq rs sm tenant kwargs w :
  py_eq_str sm "hybrid" = false ->
  py_eq_str sm "near_vector" = false ->
  py_eq_str sm "near_text" = false ->
  exists e,
    _perform_search self query k kq rs sm tenant kwargs w = (Raise e, w)
    /\ (_embedding self <> None -> tenant_mismatch self tenant = false ->
        return_properties_is_list kwargs = true ->
        e = ValueError ("Invalid search method: " +:+ py_str sm)).
Proof.
  intros Hh Hv Ht.
  destruct (perform_search_checks self sm tenant kwargs)
    as [Hstop|(Hg & [kwargs1 Ha] & Hm)].
  - destruct (perform_search_stops_early self query k kq rs sm tenant kwargs w Hstop)
      as (e & He & _). exists e. split; [done|]. intros Hemb Hten Hrp.
    destruct Hstop as [Hg|[[e' Ha]|Hmm]].
    + rewrite Ht in Hg. by destruct (_embedding self).
    + apply (add_text_key_well_typed (_text_key self)) in Hrp as [? Hrp]. congruence.
    + congruence.
  - rewrite (perform_search_run _ _ _ _ _ _ _ _ kwargs1) by done.
    unfold dispatch_query. rewrite Hh, Hv, Ht. unfold raise. by eexists.
Qed.

(** X5.  A search that returns gives one hit per object of the engine's
    reply, in the order of the reply; the content of each document is the
    text-key property of its object; and the hits are plain documents
    unless scores were asked for, pairs if they were. *)
Theorem search_returns_one_hit_per_object self query k kq rs sm tenant kwargs
    w hits w' :
  _perform_search self query k kq rs sm tenant kwargs w = (Ok hits, w') ->
  exists c reply,
    w' = record_call c w
    /\ query_reply (_client self) c = Some (Ok reply)
    /\ length hits = length (objects reply)
    /\ Forall2 (fun obj hit =>
                  properties obj !! _text_key self
                  = Some (page_content (hit_document hit))
                  /\ (if py_truthy rs
                      then exists score, hit = Scored (hit_document hit) score
                      else hit = Plain (hit_document hit)))
               (objects reply) hits.
Proof.
  intros Hrun.
  apply perform_search_Ok in Hrun as (kwargs1 & c & reply & _ & _ & -> & Hc & Hdocs).
  exists c, reply. repeat (split; [done|]).
  apply documents_of_objects_each in Hdocs.
  split; [symmetry; by eapply Forall2_length|].
  eapply Forall2_impl; [exact Hdocs|]. cbn beta. intros obj hit Hhit.
  split; [by apply (document_of_object_metadata _ _ _ _ _ Hhit)|].
  unfold document_of_object in Hhit.
  destruct (py_truthy rs); cbn in Hhit; repeat case_match; simplify_eq; eauto.
Qed.

(** X6.  The reserved metadata keys of a returned document: when
    [return_uuids] is passed and true, "uuid" holds the object's identifier
    as a string; when the engine returns vectors for the object, "vector"
    holds its default vector; when neither holds and the object has no
    property or engine field of that name, the key is absent. *)
Theorem reserved_keys_of_returned_documents self query k kq rs sm tenant kwargs
    w hits w' :
  _perform_search self query k kq rs sm tenant kwargs w = (Ok hits, w') ->
  exists c reply,
    query_reply (_client self) c = Some (Ok reply)
    /\ Forall2 (fun obj hit =>
                  let return_uuids := default (PBool false) (kwargs !! "return_uuids") in
                  let md := metadata (hit_document hit) in
                  (py_truthy return_uuids = true -> md !! "uuid" = Some (PStr (uuid obj)))
                  /\ (dom (vector obj) <> ∅ ->
                      is_Some (vector obj !! "default")
                      /\ md !! "vector" = vector obj !! "default")
                  /\ (forall key, reserved_attached return_uuids obj key = false ->
                        engine_field obj key = false ->
                        properties obj !! key = None ->
                        md !! key = None))
               (objects reply) hits.
Proof.
  intros Hrun.
  apply perform_search_Ok in Hrun as (kwargs1 & c & reply & Ha & _ & -> & Hc & Hdocs).
  exists c, reply. split; [done|].
  rewrite (add_text_key_lookup _ _ _ "return_uuids" Ha) in Hdocs by done.
  apply documents_of_objects_each in Hdocs.
  eapply Forall2_impl; [exact Hdocs|]. cbn beta zeta. intros obj hit Hhit.
  destruct (document_of_object_metadata _ _ _ _ _ Hhit) as [_ Hm].
  split; [|split].
  - intros Hru. rewrite Hm. cbn. by rewrite Hru.
  - intros Hvec. rewrite Hm.
    assert (is_Some (vector obj !! "default")) as Hdef.
    { unfold document_of_object in Hhit.
      rewrite bool_decide_eq_false_2 in Hhit by done.
      destruct (properties obj !! _text_key self); [|done].
      by destruct (vector obj !! "default"). }
    split; [done|]. cbn. by rewrite bool_decide_eq_false_2.
  - intros key Hres Hef Hprop. rewrite Hm.
    apply not_reserved_attached in Hres as [-> ->].
    unfold engine_field in Hef.
    assert (delete (_text_key self) (properties obj) !! key = None) as ->.
    { destruct (decide (key = _text_key self)) as [->|?];
        [apply lookup_delete_eq|by rewrite lookup_delete_ne]. }
    destruct (metadata_dict obj !! key) as [v|]; [|done].
    apply negb_false_iff in Hef. by rewrite Hef.
Qed.

(** *** What add_texts writes *)

(** one turn of the loop that goes through *)
Lemma add_texts_loop_step self metadatas tenant kwargs embeddings i text texts'
    ids w _id vec :
  (forall ms, metadatas = Some ms -> is_Some (ms !! i)) ->
  match given_ids kwargs with
  | Some us => py_getitem us i = Ok _id
  | None => _id = PStr (uuid4 (uuids_drawn w))
  end ->
  vector_at embeddings i = Some vec ->
  batch_accepts self ->
  add_texts_loop self metadatas tenant kwargs embeddings i (text :: texts') ids w
  = add_texts_loop self metadatas tenant kwargs embeddings (S i) texts' (ids ++ [_id])
      (record_call
         (BatchAddObject
            {| bo_collection := _index_name self;
               bo_properties :=
                 data_properties_of (_text_key self) text (metadata_at metadatas i);
               bo_uuid := _id;
               bo_vector := vec;
               bo_tenant := tenant |})
         {| engine_calls := engine_calls w;
            error_log := error_log w;
            info_log := info_log w;
            uuids_drawn := S (uuids_drawn w) |}).
Proof.
  intros Hms Hid Hvec Hacc. cbn [add_texts_loop].
  unfold bind at 1.
  assert ((match metadatas with
           | None => ret (data_properties_of (_text_key self) text None)
           | Some ms => match ms !! i with
                        | Some md => ret (data_properties_of (_text_key self) text (Some md))
                        | None => raise (IndexError "list index out of range")
                        end
           end : M _) w
          = (Ok (data_properties_of (_text_key self) text (metadata_at metadatas i)), w))
    as ->.
  { destruct metadatas as [ms|]; [|done]. cbn.
    destruct (Hms ms eq_refl) as [md ->]. done. }
  unfold bind at 1. unfold draw_uuid at 1.
  unfold bind at 1.
  assert (forall w0, (match kwargs !! "uuids" with
           | Some us => lift (py_getitem us i)
           | None => match kwargs !! "ids" with
                     | Some us => lift (py_getitem us i)
                     | None => ret (PStr (uuid4 (uuids_drawn w)))
                     end
           end : M _) w0 = (Ok _id, w0)) as ->.
  { intros w0. unfold given_ids in Hid.
    destruct (kwargs !! "uuids"); [by unfold lift; rewrite Hid|].
    destruct (kwargs !! "ids"); [by unfold lift; rewrite Hid|]. by subst. }
  unfold bind at 1.
  assert (forall w0, (match embeddings with
           | Some (e :: es) => match (e :: es) !! i with
                               | Some v => ret v
                               | None => raise (IndexError "list index out of range")
                               end
           | _ => ret PNone
           end : M _) w0 = (Ok vec, w0)) as ->.
  { intros w0. unfold vector_at in Hvec.
    destruct embeddings as [[|e es]|]; [by simplify_eq| |by simplify_eq].
    by rewrite Hvec. }
  unfold bind at 1. unfold send at 1.
  unfold bind at 1. unfold lift at 1. by rewrite Hacc.
Qed.

(** Whatever the outcome of the loop, what it has sent are batch writes,
    one for each text it got through, each built from its text. *)
Lemma add_texts_loop_writes self metadatas tenant kwargs embeddings texts :
  forall i ids w r w',
  add_texts_loop self metadatas tenant kwargs embeddings i texts ids w = (r, w') ->
  exists objs,
    engine_calls w' = engine_calls w ++ map BatchAddObject objs
    /\ error_log w' = error_log w /\ info_log w' = info_log w
    /\ (forall ids', r = Ok ids' ->
          length objs = length texts /\ ids' = ids ++ map bo_uuid objs)
    /\ forall j o, objs !! j = Some o ->
         exists text, texts !! j = Some text
           /\ bo_collection o = _index_name self
           /\ bo_tenant o = tenant
           /\ bo_properties o
              = data_properties_of (_text_key self) text (metadata_at metadatas (i + j))
           /\ vector_at embeddings (i + j) = Some (bo_vector o).
Proof.
  induction texts as [|text texts IH]; intros i ids w r w' Hrun.
  { cbn in Hrun. unfold ret in Hrun. simplify_eq. exists []. cbn.
    rewrite !app_nil_r. do 3 (split; [done|]). split.
    - by intros ids' [= <-].
    - intros j o Hj. by rewrite lookup_nil in Hj. }
  assert (forall e,
            r = Raise e -> engine_calls w' = engine_calls w ->
            error_log w' = error_log w -> info_log w' = info_log w ->
            exists objs,
              engine_calls w' = engine_calls w ++ map BatchAddObject objs
              /\ error_log w' = error_log w /\ info_log w' = info_log w
              /\ (forall ids', r = Ok ids' ->
                    length objs = length (text :: texts)
                    /\ ids' = ids ++ map bo_uuid objs)
              /\ forall j o, objs !! j = Some o ->
                   exists text0, (text :: texts) !! j = Some text0
                     /\ bo_collection o = _index_name self
                     /\ bo_tenant o = tenant
                     /\ bo_properties o
                        = data_properties_of (_text_key self) text0
                            (metadata_at metadatas (i + j))
                     /\ vector_at embeddings (i + j) = Some (bo_vector o)) as Hstop.
  { intros e -> Hc He Hi. exists []. cbn. rewrite app_nil_r.
    do 3 (split; [done|]). split; [by intros ? [=]|].
    intros j o Hj. by destruct j. }
  cbn [add_texts_loop] in Hrun. unfold bind at 1 in Hrun.
  destruct ((match metadatas with
             | None => ret (data_properties_of (_text_key self) text None)
             | Some ms => match ms !! i with
                          | Some md =>
                              ret (data_properties_of (_text_key self) text (Some md))
                          | None => raise (IndexError "list index out of range")
                          end
             end : M _) w) as [[props|e] w0] eqn:Hprops.
  2:{ destruct metadatas as [ms|]; [|done]. destruct (ms !! i); [done|].
      unfold raise in Hprops. injection Hprops as <- <-.
      injection Hrun as <- <-. eapply Hstop; reflexivity. }
  assert (w0 = w
          /\ props = data_properties_of (_text_key self) text (metadata_at metadatas i))
    as [-> ->].
  { destruct metadatas as [ms|]; cbn in *; [|unfold ret in Hprops; by simplify_eq].
    destruct (ms !! i); unfold ret, raise in Hprops; by simplify_eq. }
  unfold bind at 1 in Hrun. unfold draw_uuid at 1 in Hrun.
  set (wd := {| engine_calls := engine_calls w; error_log := error_log w;
                info_log := info_log w; uuids_drawn := S (uuids_drawn w) |}) in *.
  unfold bind at 1 in Hrun.
  destruct ((match kwargs !! "uuids" with
             | Some us => lift (py_getitem us i)
             | None => match kwargs !! "ids" with
                       | Some us => lift (py_getitem us i)
                       | None => ret (PStr (uuid4 (uuids_drawn w)))
                       end
             end : M _) wd) as [[_id|e] w1] eqn:Hid.
  2:{ assert (w1 = wd) as ->.
      { destruct (kwargs !! "uuids"); [unfold lift in Hid; by simplify_eq|].
        destruct (kwargs !! "ids"); unfold lift, ret in Hid; by simplify_eq. }
      injection Hrun as <- <-. eapply Hstop; reflexivity. }
  assert (w1 = wd) as ->.
  { destruct (kwargs !! "uuids"); [unfold lift in Hid; by simplify_eq|].
    destruct (kwargs !! "ids"); unfold lift, ret in Hid; by simplify_eq. }
  unfold bind at 1 in Hrun.
  destruct ((match embeddings with
             | Some (e :: es) => match (e :: es) !! i with
                                 | Some v => ret v
                                 | None => raise (IndexError "list index out of range")
                                 end
             | _ => ret PNone
             end : M _) wd) as [[vec|e] w2] eqn:Hvec.
  2:{ assert (w2 = wd) as ->.
      { destruct embeddings as [[|e0 es]|]; unfold ret in Hvec; try by simplify_eq.
        destruct ((e0 :: es) !! i); unfold ret, raise in Hvec; by simplify_eq. }
      injection Hrun as <- <-. eapply Hstop; reflexivity. }
  assert (w2 = wd /\ vector_at embeddings i = Some vec) as [-> Hvat].
  { unfold vector_at.
    destruct embeddings as [[|e0 es]|]; unfold ret in Hvec; try by simplify_eq.
    destruct ((e0 :: es) !! i); unfold ret, raise in Hvec; by simplify_eq. }
  unfold bind at 1 in Hrun. unfold send at 1 in Hrun.
  set (o := {| bo_collection := _index_name self;
               bo_properties :=
                 data_properties_of (_text_key self) text (metadata_at metadatas i);
               bo_uuid := _id; bo_vector := vec; bo_tenant := tenant |}) in *.
  assert (forall j o', [o] !! j = Some o' ->
            exists text0, (text :: texts) !! j = Some text0
              /\ bo_collection o' = _index_name self
              /\ bo_tenant o' = tenant
              /\ bo_properties o'
                 = data_properties_of (_text_key self) text0
                     (metadata_at metadatas (i + j))
              /\ vector_at embeddings (i + j) = Some (bo_vector o')) as Hfirst.
  { intros [|j] o' Hj; [|by destruct j]. cbn in Hj. injection Hj as <-.
    exists text. rewrite Nat.add_0_r. done. }
  unfold bind at 1 in Hrun. unfold lift at 1 in Hrun.
  destruct (batch_add_object (_client self) o) as [[]|e] eqn:Hadd.
  2:{ simplify_eq. exists [o]. do 3 (split; [done|]).
      split; [by intros ? [=]|exact Hfirst]. }
  apply IH in Hrun as (objs & Hcalls & Herr & Hinfo & Hok & Hobjs).
  exists (o :: objs). cbn in Hcalls. rewrite <- app_assoc in Hcalls.
  do 3 (split; [done|]). split.
  - intros ids' Hr. destruct (Hok ids' Hr) as [Hlen ->].
    split; [cbn; by rewrite Hlen|]. by rewrite <- app_assoc.
  - intros [|j] o' Hj; [by apply (Hfirst 0)|]. cbn in Hj.
    destruct (Hobjs j o' Hj) as (text0 & ? & ? & ? & Hp & Hv).
    exists text0. replace (i + S j) with (S i + j) by lia. done.
Qed.

(** the properties [add_texts] stores hold no [datetime] at top level *)
Lemma data_properties_serialized tk text md :
  map_Forall (fun _ v => not_datetime v = true) (data_properties_of tk text md).
Proof.
  assert (map_Forall (fun _ v => not_datetime v = true)
            ({[ tk := PStr text ]} : gmap string pyval)) as Htext.
  { apply map_Forall_singleton. done. }
  destruct md as [md|]; [|exact Htext]. cbn.
  apply map_Forall_union_2; [|exact Htext].
  intros key v Hv. rewrite lookup_fmap in Hv.
  destruct (md !! key) as [v0|]; [|done]. cbn in Hv. simplify_eq. by destruct v0.
Qed.

(** what the tenant step sends and logs, whatever its outcome *)
Lemma create_tenant_if_absent_sent self tenant w r w1 :
  create_tenant_if_absent self tenant w = (r, w1) ->
  error_log w1 = error_log w /\ uuids_drawn w1 = uuids_drawn w
  /\ ((w1 = w /\ (py_truthy tenant = false \/ _multi_tenancy_enabled self = false))
      \/ (py_truthy tenant = true /\ _multi_tenancy_enabled self = true
          /\ engine_calls w1 = engine_calls w ++ [TenantsGet]
          /\ info_log w1 = info_log w
          /\ (forall name names, tenant = PStr name ->
                tenants_get (_client self) = Ok names -> name ∈ names))
      \/ (py_truthy tenant = true /\ _multi_tenancy_enabled self = true
          /\ engine_calls w1 = engine_calls w ++ [TenantsGet; TenantsCreate tenant]
          /\ info_log w1
             = info_log w ++ ["Tenant " +:+ py_str tenant +:+
                              " does not exist in index " +:+ _index_name self +:+
                              ". Creating tenant."]
          /\ r = tenants_create (_client self) tenant
          /\ exists names, tenants_get (_client self) = Ok names
               /\ forall name, tenant = PStr name -> name ∉ names)).
Proof.
  unfold create_tenant_if_absent. intros Hrun.
  destruct (py_truthy tenant) eqn:Ht.
  2:{ unfold ret in Hrun. simplify_eq. split; [done|]. split; [done|]. left. eauto. }
  unfold _does_tenant_exist in Hrun.
  destruct (_multi_tenancy_enabled self) eqn:Hmt; cbn in Hrun.
  2:{ unfold bind, raise in Hrun. simplify_eq. split; [done|]. split; [done|].
      left. eauto. }
  unfold bind, send, lift in Hrun.
  destruct (tenants_get (_client self)) as [names|e] eqn:Hget.
  2:{ simplify_eq. split; [done|]. split; [done|]. right. left.
      repeat (split; [done|]). intros ? ? _ [=]. }
  destruct tenant as [| | | |name| |l]; cbn in Ht; try done;
    unfold ret, raise in Hrun; cbn in Hrun.
  - (* a number: never among the names *)
    unfold logger_info in Hrun. cbn in Hrun.
    destruct (tenants_create _ _) eqn:Hc; simplify_eq;
      (split; [done|]); (split; [done|]); right; right; cbn;
      rewrite <- app_assoc; repeat (split; [done|]);
      (exists names; split; [done|]; by intros ? [=]).
  - unfold logger_info in Hrun. cbn in Hrun.
    destruct (tenants_create _ _) eqn:Hc; simplify_eq;
      (split; [done|]); (split; [done|]); right; right; cbn;
      rewrite <- app_assoc; repeat (split; [done|]);
      (exists names; split; [done|]; by intros ? [=]).
  - unfold logger_info in Hrun. cbn in Hrun.
    destruct (tenants_create _ _) eqn:Hc; simplify_eq;
      (split; [done|]); (split; [done|]); right; right; cbn;
      rewrite <- app_assoc; repeat (split; [done|]);
      (exists names; split; [done|]; by intros ? [=]).
  - destruct (bool_decide (name ∈ names)) eqn:Hin; cbn in Hrun.
    + apply bool_decide_eq_true in Hin. simplify_eq.
      split; [done|]. split; [done|]. right. left.
      repeat (split; [done|]). intros ? ? [= <-] [= <-]. done.
    + apply bool_decide_eq_false in Hin. unfold logger_info in Hrun. cbn in Hrun.
      destruct (tenants_create _ _) eqn:Hc; simplify_eq;
        (split; [done|]); (split; [done|]); right; right; cbn;
        rewrite <- app_assoc; repeat (split; [done|]);
        (exists names; split; [done|]; by intros ? [= <-]).
  - unfold logger_info in Hrun. cbn in Hrun.
    destruct (tenants_create _ _) eqn:Hc; simplify_eq;
      (split; [done|]); (split; [done|]); right; right; cbn;
      rewrite <- app_assoc; repeat (split; [done|]);
      (exists names; split; [done|]; by intros ? [=]).
  - simplify_eq. split; [done|]. split; [done|]. right. left.
    repeat (split; [done|]). intros ? ? [=].
Qed.

(** the run of [add_texts] after its tenant step *)
Lemma add_texts_after_tenant_step self texts metadatas tenant kwargs w1 r w' :
  (let* embeddings :=
     match _embedding self with
     | Some emb => let* es := lift (embed_documents emb texts) in ret (Some es)
     | None => ret None
     end in
   let* ids := add_texts_loop self metadatas tenant kwargs embeddings 0 texts [] in
   let* failed_objs :=
     (fun w => (Ok (failed_objects (_client self) (engine_calls w)), w)) in
   let* _ := log_failures failed_objs in
   ret ids) w1 = (r, w') ->
  exists embeddings objs,
    engine_calls w' = engine_calls w1 ++ map BatchAddObject objs
    /\ info_log w' = info_log w1
    /\ (_embedding self = None -> embeddings = None)
    /\ (forall ids, r = Ok ids ->
          ids = map bo_uuid objs /\ length objs = length texts
          /\ error_log w'
             = error_log w1
               ++ map failure_message (failed_objects (_client self) (engine_calls w')))
    /\ ((exists e, r = Raise e) -> error_log w' = error_log w1)
    /\ forall j o, objs !! j = Some o ->
         exists text, texts !! j = Some text
           /\ bo_collection o = _index_name self
           /\ bo_tenant o = tenant
           /\ bo_properties o
              = data_properties_of (_text_key self) text (metadata_at metadatas j)
           /\ vector_at embeddings j = Some (bo_vector o).
Proof.
  intros Hrun. unfold bind at 1 in Hrun.
  destruct ((match _embedding self with
             | Some emb => let* es := lift (embed_documents emb texts) in ret (Some es)
             | None => ret None
             end : M _) w1) as [[embeddings|e] w2] eqn:Hemb.
  2:{ assert (w2 = w1) as ->.
      { destruct (_embedding self) as [emb|]; [|unfold ret in Hemb; by simplify_eq].
        unfold bind, lift, ret in Hemb. destruct (embed_documents emb texts);
          by simplify_eq. }
      simplify_eq. exists None, []. cbn. rewrite app_nil_r.
      split; [done|]. split; [done|].
      split; [|split; [by intros ? [=]|split; [done|by intros []]]].
      intros Hnone. done. }
  assert (w2 = w1 /\ (_embedding self = None -> embeddings = None)) as [-> Hnone].
  { destruct (_embedding self) as [emb|]; [|unfold ret in Hemb; by simplify_eq].
    unfold bind, lift, ret in Hemb. destruct (embed_documents emb texts);
      by simplify_eq. }
  unfold bind at 1 in Hrun.
  destruct (add_texts_loop self metadatas tenant kwargs embeddings 0 texts [] w1)
    as [[ids|e] w3] eqn:Hloop;
    apply add_texts_loop_writes in Hloop as (objs & Hcalls & Herr & Hinfo & Hok & Hobjs);
    exists embeddings, objs.
  - unfold bind at 1 in Hrun. unfold bind at 1 in Hrun.
    rewrite log_failures_run in Hrun. unfold ret in Hrun. simplify_eq. cbn.
    destruct (Hok ids eq_refl) as [Hlen ->].
    split; [done|]. split; [done|]. split; [done|]. split.
    + intros ids [= <-]. split; [done|]. split; [done|]. by rewrite Herr.
    + split; [by intros [? [=]]|exact Hobjs].
  - simplify_eq. split; [done|]. split; [done|]. split; [done|].
    split; [by intros ? [=]|]. split; [done|exact Hobjs].
Qed.

(** X7.  Whatever its outcome, [add_texts] sends nothing but the tenant
    look-up, at most one tenant creation, and then batch writes; there is no
    tenant call for a tenant that is [None] or empty.  Every object written
    goes to the store's collection under the tenant passed, none of its
    properties is a [datetime], and with no embedding provider its vector is
    [None].  The ids returned are those of the objects written, one per
    text. *)
Theorem add_texts_sends_tenant_calls_then_writes self texts metadatas tenant kwargs
    w r w' :
  add_texts self texts metadatas tenant kwargs w = (r, w') ->
  exists pre objs,
    engine_calls w' = engine_calls w ++ pre ++ map BatchAddObject objs
    /\ (pre = [] \/ pre = [TenantsGet] \/ pre = [TenantsGet; TenantsCreate tenant])
    /\ (py_truthy tenant = false -> pre = [])
    /\ Forall (fun o =>
                 bo_collection o = _index_name self
                 /\ bo_tenant o = tenant
                 /\ map_Forall (fun _ v => not_datetime v = true) (bo_properties o)
                 /\ (_embedding self = None -> bo_vector o = PNone)) objs
    /\ (forall ids, r = Ok ids -> ids = map bo_uuid objs /\ length objs = length texts).
Proof.
  unfold add_texts. intros Hrun. unfold bind at 1 in Hrun.
  destruct (create_tenant_if_absent self tenant w) as [[[]|e] w1] eqn:Hten;
    apply create_tenant_if_absent_sent in Hten as (_ & _ & Hpre).
  2:{ simplify_eq.
      assert (exists pre, engine_calls w' = engine_calls w ++ pre
                /\ (pre = [] \/ pre = [TenantsGet]
                    \/ pre = [TenantsGet; TenantsCreate tenant])
                /\ (py_truthy tenant = false -> pre = [])) as (pre & Hc & Hs & Hf).
      { destruct Hpre as [[-> _]|[(Ht & _ & -> & _)|(Ht & _ & -> & _)]].
        - exists []. rewrite app_nil_r. eauto.
        - eexists. split; [done|]. split; [eauto|congruence].
        - eexists. split; [done|]. split; [eauto|congruence]. }
      exists pre, []. cbn. rewrite app_nil_r.
      split; [done|]. split; [done|]. split; [done|]. split; [constructor|].
      by intros ? [=]. }
  apply add_texts_after_tenant_step in Hrun
    as (embeddings & objs & Hcalls & _ & Hnone & Hok & _ & Hobjs).
  assert (exists pre, engine_calls w1 = engine_calls w ++ pre
            /\ (pre = [] \/ pre = [TenantsGet]
                \/ pre = [TenantsGet; TenantsCreate tenant])
            /\ (py_truthy tenant = false -> pre = [])) as (pre & Hc & Hs & Hf).
  { destruct Hpre as [[-> _]|[(Ht & _ & -> & _)|(Ht & _ & -> & _)]].
    - exists []. rewrite app_nil_r. eauto.
    - eexists. split; [done|]. split; [eauto|congruence].
    - eexists. split; [done|]. split; [eauto|congruence]. }
  exists pre, objs. rewrite Hcalls, Hc, <- app_assoc.
  split; [done|]. split; [done|]. split; [done|]. split.
  - apply Forall_lookup. intros j o Hj.
    destruct (Hobjs j o Hj) as (text & _ & ? & ? & Hp & Hv).
    split; [done|]. split; [done|]. split.
    + rewrite Hp. apply data_properties_serialized.
    + intros He. rewrite (Hnone He) in Hv. cbn in Hv. by simplify_eq.
  - intros ids Hr. destruct (Hok ids Hr) as (? & ? & _). done.
Qed.

(** the tenant step on a store with multi-tenancy off *)
Lemma add_texts_tenant_needs_no_write self texts metadatas tenant kwargs w :
  py_truthy tenant = true ->
  _multi_tenancy_enabled self = false ->
  add_texts self texts metadatas tenant kwargs w
  = (Raise (AssertionError
       "Cannot check for tenant existence when multi-tenancy is not enabled"), w).
Proof.
  intros Ht Hmt. unfold add_texts, create_tenant_if_absent, _does_tenant_exist.
  rewrite Ht, Hmt. reflexivity.
Qed.

(** X8.  [add_texts] with a tenant on a store whose collection has
    multi-tenancy off fails on the assertion of the tenant look-up, before
    anything is embedded, sent or logged. *)
Theorem add_texts_tenant_needs_multi_tenancy self texts metadatas tenant kwargs w :
  py_truthy tenant = true ->
  _multi_tenancy_enabled self = false ->
  add_texts self texts metadatas tenant kwargs w
  = (Raise (AssertionError
       "Cannot check for tenant existence when multi-tenancy is not enabled"), w).
Proof. apply add_texts_tenant_needs_no_write. Qed.

(** X9.  [add_texts] for a named tenant of a multi-tenant store first asks
    the engine for its tenants.  A tenant the engine has is not created and
    nothing is logged about it; one it does not have is created before any
    write, with one notice in the info log, and when the creation fails its
    error is what [add_texts] raises, with nothing written. *)
Theorem add_texts_creates_an_absent_tenant self texts metadatas name names kwargs
    w r w' :
  name <> "" ->
  _multi_tenancy_enabled self = true ->
  tenants_get (_client self) = Ok names ->
  add_texts self texts metadatas (PStr name) kwargs w = (r, w') ->
  exists objs,
    engine_calls w'
    = engine_calls w
      ++ TenantsGet
         :: (if bool_decide (name ∈ names) then [] else [TenantsCreate (PStr name)])
      ++ map BatchAddObject objs
    /\ info_log w'
       = info_log w
         ++ (if bool_decide (name ∈ names) then []
             else ["Tenant " +:+ name +:+ " does not exist in index " +:+
                   _index_name self +:+ ". Creating tenant."])
    /\ (forall e, name ∉ names ->
          tenants_create (_client self) (PStr name) = Raise e ->
          r = Raise e /\ objs = []).
Proof.
  intros Hname Hmt Hget. unfold add_texts. intros Hrun. unfold bind at 1 in Hrun.
  assert (py_truthy (PStr name) = true) as Ht.
  { cbn. by destruct (String.eqb_spec name ""). }
  destruct (create_tenant_if_absent self (PStr name) w) as [r1 w1] eqn:Hten.
  apply create_tenant_if_absent_sent in Hten as (_ & _ & Hpre).
  destruct Hpre as [[_ [Hf|Hf]]|[(_ & _ & Hc & Hi & Hin)|(_ & _ & Hc & Hi & Hr & Hout)]];
    [congruence..| |].
  - specialize (Hin name names eq_refl Hget).
    rewrite (bool_decide_eq_true_2 _ Hin). cbn [app].
    destruct r1 as [[]|e].
    + apply add_texts_after_tenant_step in Hrun
        as (embeddings & objs & Hcalls & Hinfo & _).
      exists objs. rewrite Hcalls, Hc, Hinfo, Hi, <- app_assoc, app_nil_r.
      split; [done|]. split; [done|]. intros e Hne. done.
    + simplify_eq. exists []. rewrite Hc, Hi, app_nil_r. cbn.
      split; [done|]. split; [done|]. intros e' Hne. done.
  - destruct Hout as (names' & Hget' & Hout). rewrite Hget in Hget'.
    injection Hget' as <-. specialize (Hout name eq_refl).
    rewrite (bool_decide_eq_false_2 _ Hout).
    destruct r1 as [[]|e].
    + apply add_texts_after_tenant_step in Hrun
        as (embeddings & objs & Hcalls & Hinfo & _).
      exists objs. rewrite Hcalls, Hc, Hinfo, Hi, <- app_assoc.
      split; [done|]. split; [done|]. intros e _ He. congruence.
    + simplify_eq. exists []. rewrite Hc, Hi. cbn.
      split; [done|]. split; [done|]. intros e' _ He. split; [congruence|done].
Qed.

(** the loop over more texts than metadata: it stops at the first text
    without metadata, after a write for each text before it *)
Lemma add_texts_loop_short_metadata self ms tenant kwargs embeddings texts :
  batch_accepts self ->
  forall i ids w,
  i <= length ms < i + length texts ->
  match given_ids kwargs with
  | None => True
  | Some (PList l) => i + length texts <= length l
  | Some _ => False
  end ->
  (forall es, embeddings = Some es -> es = [] \/ i + length texts <= length es) ->
  exists objs w',
    add_texts_loop self (Some ms) tenant kwargs embeddings i texts ids w
    = (Raise (IndexError "list index out of range"), w')
    /\ engine_calls w' = engine_calls w ++ map BatchAddObject objs
    /\ error_log w' = error_log w
    /\ length objs = length ms - i.
Proof.
  intros Hacc. induction texts as [|text texts IH]; intros i ids w Hi Hids Hes.
  { cbn in Hi. lia. }
  cbn [length] in Hi, Hids, Hes.
  destruct (decide (i = length ms)) as [->|Hne].
  - exists [], w. cbn [add_texts_loop]. unfold bind at 1.
    rewrite (lookup_ge_None_2 ms (length ms)) by lia. unfold raise. cbn.
    rewrite app_nil_r. split; [done|]. split; [done|]. split; [done|lia].
  - destruct (lookup_lt_is_Some_2 ms i) as [md Hmd]; [lia|].
    assert (exists _id, match given_ids kwargs with
                        | Some us => py_getitem us i = Ok _id
                        | None => _id = PStr (uuid4 (uuids_drawn w))
                        end) as [_id Hid].
    { destruct (given_ids kwargs) as [us|]; [|by eexists].
      destruct us as [| | | | | |l]; try done.
      destruct (lookup_lt_is_Some_2 l i) as [x Hx]; [lia|].
      exists x. cbn. by rewrite Hx. }
    assert (exists vec, vector_at embeddings i = Some vec) as [vec Hvec].
    { unfold vector_at. destruct embeddings as [[|e es]|]; [by eexists| |by eexists].
      destruct (Hes _ eq_refl) as [?|Hlen]; [done|].
      apply lookup_lt_is_Some_2. lia. }
    rewrite (add_texts_loop_step self (Some ms) tenant kwargs embeddings i text texts
               ids w _id vec); [|by intros ? [= <-]; eexists|done..].
    edestruct (IH (S i) (ids ++ [_id])) as (objs & w' & -> & Hcalls & Herr & Hlen);
      [lia| |intros es ->; destruct (Hes es eq_refl); [by left|right; lia]|].
    { destruct (given_ids kwargs) as [[| | | | | |l]|]; try done. lia. }
    eexists (_ :: objs), w'. split; [done|]. cbn in Hcalls, Herr.
    rewrite Hcalls, Herr, <- app_assoc. split; [done|]. split; [done|].
    cbn. rewrite Hlen. lia.
Qed.

(** X10.  With fewer metadata dictionaries than texts, [add_texts] writes
    an object for each text that has one, then raises [IndexError]; the
    failed objects of the batch are not looked at, so nothing is logged. *)
Theorem add_texts_stops_where_metadata_ends self texts ms tenant kwargs w :
  length ms < length texts ->
  ids_aligned kwargs (length texts) ->
  tenant_ready self tenant ->
  embedding_ready self texts ->
  batch_accepts self ->
  exists w',
    add_texts self texts (Some ms) tenant kwargs w
    = (Raise (IndexError "list index out of range"), w')
    /\ length (batch_writes (drop (length (engine_calls w)) (engine_calls w')))
       = length ms
    /\ error_log w' = error_log w.
Proof.
  intros Hms Hids Hten Hemb Hacc. unfold add_texts. unfold bind at 1.
  destruct (create_tenant_if_absent_ok self tenant w Hten)
    as (pre & w1 & -> & Hc1 & Hpre & He1 & _).
  unfold bind at 1.
  assert (exists embeddings,
            (match _embedding self with
             | Some emb => let* es := lift (embed_documents emb texts) in ret (Some es)
             | None => ret None
             end : M _) w1 = (Ok embeddings, w1)
            /\ forall es, embeddings = Some es ->
                 es = [] \/ 0 + length texts <= length es) as (embeddings & -> & Hes).
  { unfold embedding_ready in Hemb. destruct (_embedding self) as [emb|].
    - destruct Hemb as (es & Hes & Hlen). exists (Some es).
      unfold bind, lift, ret. rewrite Hes. split; [done|].
      intros ? [= <-]. right. lia.
    - exists None. split; [done|]. by intros ? [=]. }
  destruct (add_texts_loop_short_metadata self ms tenant kwargs embeddings texts Hacc
              0 [] w1) as (objs & w' & Hloop & Hcalls & Herr & Hlen);
    [lia| |exact Hes|].
  { unfold ids_aligned in Hids.
    destruct (given_ids kwargs) as [[| | | | | |l]|]; try done. cbn. lia. }
  exists w'. unfold bind at 1. rewrite Hloop. split; [done|].
  rewrite Hcalls, Hc1, <- app_assoc, drop_app_length, batch_writes_app, Hpre.
  cbn [app]. rewrite batch_writes_objects, Herr, He1. split; [lia|done].
Qed.

(** the loop reads the keyword arguments through [given_ids] only *)
Lemma add_texts_loop_given_ids self metadatas tenant kwargs kwargs' embeddings texts :
  given_ids kwargs = given_ids kwargs' ->
  forall i ids w,
  add_texts_loop self metadatas tenant kwargs embeddings i texts ids w
  = add_texts_loop self metadatas tenant kwargs' embeddings i texts ids w.
Proof.
  intros Hg. induction texts as [|text texts IH]; intros i ids w; [done|].
  cbn [add_texts_loop]. unfold bind at 1. symmetry. unfold bind at 1. symmetry.
  destruct ((match metadatas with
             | None => ret (data_properties_of (_text_key self) text None)
             | Some ms => match ms !! i with
                          | Some md =>
                              ret (data_properties_of (_text_key self) text (Some md))
                          | None => raise (IndexError "list index out of range")
                          end
             end : M _) w) as [[props|e] w0]; [|done].
  unfold bind at 1. symmetry. unfold bind at 1. symmetry.
  unfold draw_uuid at 1 2.
  unfold bind at 1. symmetry. unfold bind at 1. symmetry.
  assert (forall (kw : gmap string pyval) fresh w1,
            (match kw !! "uuids" with
             | Some us => lift (py_getitem us i)
             | None => match kw !! "ids" with
                       | Some us => lift (py_getitem us i)
                       | None => ret fresh
                       end
             end : M pyval) w1
            = (match given_ids kw with
               | Some us => lift (py_getitem us i)
               | None => ret fresh
               end : M pyval) w1) as Hread.
  { intros kw fresh w1. unfold given_ids.
    destruct (kw !! "uuids"); [done|]. by destruct (kw !! "ids"). }
  rewrite !Hread, Hg.
  destruct ((match given_ids kwargs' with
             | Some us => lift (py_getitem us i)
             | None => ret (PStr (uuid4 (uuids_drawn w0)))
             end : M pyval) _) as [[_id|e] w1]; [|done].
  unfold bind at 1. symmetry. unfold bind at 1. symmetry.
  destruct ((match embeddings with
             | Some (e :: es) => match (e :: es) !! i with
                                 | Some v => ret v
                                 | None => raise (IndexError "list index out of range")
                                 end
             | _ => ret PNone
             end : M _) w1) as [[vec|e] w2]; [|done].
  unfold bind at 1. symmetry. unfold bind at 1. symmetry.
  unfold send at 1 2.
  unfold bind at 1. symmetry. unfold bind at 1. symmetry.
  unfold lift at 1 2.
  destruct (batch_add_object _ _); [|done]. apply IH.
Qed.

(** X11.  Of its keyword arguments [add_texts] reads the list under
    [uuids], or else the one under [ids], and nothing more: two calls that
    agree on it behave alike, so [ids] is not read when [uuids] is passed,
    and no other keyword has an effect. *)
Theorem add_texts_reads_uuids_before_ids self texts metadatas tenant kwargs kwargs' w :
  given_ids kwargs = given_ids kwargs' ->
  add_texts self texts metadatas tenant kwargs w
  = add_texts self texts metadatas tenant kwargs' w.
Proof.
  intros Hg. unfold add_texts. unfold bind at 1. symmetry. unfold bind at 1. symmetry.
  destruct (create_tenant_if_absent self tenant w) as [[[]|e] w1]; [|done].
  unfold bind at 1. symmetry. unfold bind at 1. symmetry.
  destruct ((match _embedding self with
             | Some emb => let* es := lift (embed_documents emb texts) in ret (Some es)
             | None => ret None
             end : M _) w1) as [[embeddings|e] w2]; [|done].
  unfold bind at 1. symmetry. unfold bind at 1. symmetry.
  by rewrite (add_texts_loop_given_ids self metadatas tenant kwargs kwargs').
Qed.

(** *** The public search methods *)

(** X12.  When [similarity_search] sends a query, its mode is the one
    passed under [search_method], hybrid when none is; the query goes to the
    tenant passed under [tenant], to no tenant when none is, and carries the
    limit [k]. *)
Theorem similarity_search_mode_from_keywords self query k kq kwargs w r w' c :
  similarity_search self query k kq kwargs w = (r, w') ->
  engine_calls w' = engine_calls w ++ [c] ->
  default (PStr "hybrid") (kwargs !! "search_method") = PStr (call_method c)
  /\ call_tenant c = default PNone (kwargs !! "tenant")
  /\ call_args c !! "limit" = Some k.
Proof.
  unfold similarity_search. intros Hrun Hcalls.
  set (sm := default (PStr "hybrid") (kwargs !! "search_method")) in *.
  rewrite keywords_no_clash in Hrun
    by (repeat constructor; cbn; apply lookup_delete_eq).
  unfold bind, lift in Hrun.
  set (kw := list_to_map _ ∪ delete "search_method" kwargs) in *.
  destruct (call_perform_search_three self query k kq kw w) as [[msg Hty]|Heq].
  { rewrite Hty in Hrun. simplify_eq. by apply app_singleton_neq in Hcalls. }
  rewrite Heq in Hrun.
  assert (kw !! "search_method" = Some sm) as Hsm
    by (by apply lookup_union_Some_l).
  assert (kw !! "tenant" = kwargs !! "tenant") as Hten.
  { unfold kw. rewrite lookup_union_r by done. by rewrite lookup_delete_ne. }
  rewrite Hsm, Hten in Hrun. cbn [default] in Hrun.
  apply perform_search_world in Hrun as [[-> _]|(kwargs1 & r1 & _ & _ & _ & Hd)];
    [by apply app_singleton_neq in Hcalls|].
  apply dispatch_query_sent in Hd
    as [[-> _]|[(emb & v & Hm & _ & _ & ->)|[(Hm & _ & ->)|[(Hm & ->)|(Hm & ->)]]]];
    [by apply app_singleton_neq in Hcalls|..];
    cbn in Hcalls; apply app_inj_tail in Hcalls as [_ <-];
    (destruct sm as [| | | |s| |]; try done); cbn in Hm;
    apply String.eqb_eq in Hm as ->; cbn [call_method call_tenant call_args];
    (split; [done|]); (split; [done|]); by apply lookup_union_Some_l.
Qed.

(** X13.  When [similarity_search_by_vector] sends a query, it is a
    near-vector query that carries the vector it was given and the limit
    [k], to the tenant passed under [tenant]. *)
Theorem search_by_vector_sends_the_vector self embedding k kwargs w r w' c :
  similarity_search_by_vector self embedding k kwargs w = (r, w') ->
  engine_calls w' = engine_calls w ++ [c] ->
  exists args,
    c = QueryNearVector (default PNone (kwargs !! "tenant")) args
    /\ args !! "near_vector" = Some embedding
    /\ args !! "limit" = Some k.
Proof.
  unfold similarity_search_by_vector. intros Hrun Hcalls.
  unfold bind at 1 in Hrun. unfold lift at 1 in Hrun.
  destruct (keywords _ kwargs) as [kw|e] eqn:Hkw;
    [|simplify_eq; by apply app_singleton_neq in Hcalls].
  pose proof Hkw as Hnoclash.
  apply keywords_Ok in Hkw as ->.
  set (kw := list_to_map _ ∪ kwargs) in *.
  rewrite (call_perform_search_keywords _ _ PNone k) in Hrun
    by (by apply lookup_union_Some_l).
  assert (kw !! "search_method" = Some (PStr "near_vector")) as Hsm
    by (by apply lookup_union_Some_l).
  assert (kw !! "tenant" = kwargs !! "tenant") as Hten by (by apply lookup_union_r).
  rewrite Hsm, Hten in Hrun. cbn [default] in Hrun.
  apply perform_search_world in Hrun as [[-> _]|(kwargs1 & r1 & _ & Ha & _ & Hd)];
    [by apply app_singleton_neq in Hcalls|].
  apply dispatch_query_sent in Hd
    as [[-> _]|[(emb & v & Hm & _)|[(Hm & _)|[(_ & ->)|(Hm & _)]]]];
    [by apply app_singleton_neq in Hcalls|done|done| |done].
  cbn in Hcalls. apply app_inj_tail in Hcalls as [_ <-].
  eexists. split; [reflexivity|]. split; [|by apply lookup_union_Some_l].
  rewrite lookup_union_r by done. rewrite lookup_delete_ne by done.
  rewrite (add_text_key_lookup _ _ _ _ Ha) by done.
  rewrite unbound_keywords_lookup.
  - by apply lookup_union_Some_l.
  - cbn. rewrite !not_elem_of_cons. repeat (split; [done|]). apply not_elem_of_nil.
Qed.

(** X14.  Without an embedding provider neither maximal-marginal-relevance
    search sends anything: the search by text raises its own [ValueError],
    the search by vector raises, and when its keyword arguments name none of
    the arguments it passes on, what it raises is the [ValueError] of the
    search guard. *)
Theorem mmr_search_requires_embedding self k fetch_k lambda_mult kwargs w :
  _embedding self = None ->
  (forall query,
     max_marginal_relevance_search self query k fetch_k lambda_mult kwargs w
     = (Raise (ValueError
          "max_marginal_relevance_search requires a suitable Embeddings object"), w))
  /\ (forall embedding,
        exists e,
          max_marginal_relevance_search_by_vector self embedding k fetch_k
            lambda_mult kwargs w = (Raise e, w)
          /\ (kwargs !! "query" = None -> kwargs !! "k" = None ->
              kwargs !! "include_vector" = None -> kwargs !! "near_vector" = None ->
              kwargs !! "search_method" = None ->
              e = ValueError embedding_required_message)).
Proof.
  intros He. split.
  { intros query. unfold max_marginal_relevance_search. by rewrite He. }
  intros embedding. unfold max_marginal_relevance_search_by_vector.
  unfold bind at 1. unfold lift at 1.
  destruct (keywords _ kwargs) as [kw|e] eqn:Hkw.
  - apply keywords_Ok in Hkw as ->. unfold bind at 1.
    rewrite (call_perform_search_keywords _ _ PNone fetch_k)
      by (by apply lookup_union_Some_l).
    rewrite perform_search_needs_embedding; [by eexists|done|].
    by rewrite (lookup_union_Some_l _ _ _ (PStr "near_vector")).
  - exists e. split; [done|]. intros Hq Hk Hi Hv Hs.
    rewrite keywords_no_clash in Hkw; [done|]. by repeat constructor.
Qed.

(** *** delete *)

(** X15.  [delete] on a store and a tenant that fit: without ids it raises
    and sends nothing; with ids, an empty list included, it sends one delete
    request for them to that tenant, and its outcome is the engine's, an
    error of the engine passed on as it is. *)
Theorem delete_sends_one_request self ids tenant kwargs w :
  tenant_mismatch self tenant = false ->
  delete_ self ids tenant kwargs w
  = if is_none ids then (Raise (ValueError "No ids provided to delete."), w)
    else (data_delete_many (_client self) tenant ids,
          record_call (DataDeleteMany tenant ids) w).
Proof.
  intros Hfit. unfold delete_. destruct (is_none ids); [done|].
  rewrite tenant_context_match by done.
  unfold collection_data_delete_many, bind, send, lift. reflexivity.
Qed.

(** *** The score normalizer *)

Local Open Scope R_scope.

(** X17.  The default normalizer does not tell apart two values at or
    above 709, nor two at or below -709. *)
Theorem default_score_normalizer_saturates x y :
  (709 <= x /\ 709 <= y) \/ (x <= -709 /\ y <= -709) ->
  _default_score_normalizer x = _default_score_normalizer y.
Proof.
  intros Hxy. unfold _default_score_normalizer. cbv zeta.
  assert (np_clip x (-709) 709 = np_clip y (-709) 709) as ->; [|done].
  unfold np_clip, Rmin, Rmax. repeat destruct (Rle_dec _ _); lra.
Qed.

Local Close Scope R_scope.

(** *** The constructor and from_texts *)

(** the runs of the constructor on a client *)
Lemma init_cases client collections index_name text_key embedding attributes fn
    use_multi_tenancy w r calls w' :
  __init__ (AClient client collections) index_name text_key embedding attributes fn
    use_multi_tenancy w = (r, calls, w') ->
  let chosen := index_name_chosen index_name (uuids_drawn w) in
  let schema := set_multi_tenancy (_default_schema chosen) use_multi_tenancy in
  engine_calls w' = engine_calls w
  /\ error_log w' = error_log w
  /\ info_log w' = info_log w
  /\ uuids_drawn w'
     = uuids_drawn w + match index_name_passed index_name with Some _ => 0 | None => 1 end
  /\ ((exists e, collections_exists collections chosen = Raise e
         /\ r = Raise e /\ calls = [CollectionsExists chosen])
      \/ (exists e, collections_exists collections chosen = Ok false
            /\ collections_create_from_dict collections schema = Raise e
            /\ r = Raise e
            /\ calls = [CollectionsExists chosen; CollectionsCreateFromDict schema])
      \/ (exists found,
            collections_exists collections chosen = Ok found
            /\ (found = false -> collections_create_from_dict collections schema = Ok tt)
            /\ calls = CollectionsExists chosen
                       :: (if found then [] else [CollectionsCreateFromDict schema])
                       ++ [CollectionConfigGet chosen]
            /\ match collection_multi_tenancy collections chosen with
               | Raise e => r = Raise e
               | Ok enabled =>
                   r = Ok {| _client := client;
                             _index_name := chosen;
                             _embedding := embedding;
                             _text_key := text_key;
                             _query_attrs := text_key :: default [] attributes;
                             relevance_score_fn := fn;
                             _multi_tenancy_enabled := enabled |}
               end)).
Proof.
  unfold __init__, index_name_chosen. intros Hrun. cbv zeta.
  assert (exists w1,
            (match index_name with
             | Some (String c s) => (String c s, w)
             | _ => ("LangChain_" +:+ uuid_hex (uuid4 (uuids_drawn w)),
                     {| engine_calls := engine_calls w;
                        error_log := error_log w;
                        info_log := info_log w;
                        uuids_drawn := S (uuids_drawn w) |})
             end)
            = (default ("LangChain_" +:+ uuid_hex (uuid4 (uuids_drawn w)))
                 (index_name_passed index_name), w1)
            /\ engine_calls w1 = engine_calls w
            /\ error_log w1 = error_log w
            /\ info_log w1 = info_log w
            /\ uuids_drawn w1
               = uuids_drawn w + match index_name_passed index_name with Some _ => 0 | None => 1 end)
    as (w1 & Hname & Hc & He & Hi & Hu).
  { destruct index_name as [[|c s]|]; cbn; eexists; (split; [reflexivity|]); cbn;
      repeat split; lia. }
  rewrite Hname in Hrun. clear Hname.
  set (chosen := default _ (index_name_passed index_name)) in *.
  destruct (collections_exists collections chosen) as [found|e] eqn:Hex.
  2:{ simplify_eq. repeat (split; [done|]). left. eauto. }
  destruct found; cbn in Hrun.
  - destruct (collection_multi_tenancy collections chosen) as [enabled|e] eqn:Hmt;
      simplify_eq; repeat (split; [done|]); right; right; exists true;
      repeat (split; [done|]);
      by destruct attributes.
  - destruct (collections_create_from_dict collections _) as [[]|e] eqn:Hcr.
    + destruct (collection_multi_tenancy collections chosen) as [enabled|e] eqn:Hmt;
        simplify_eq; repeat (split; [done|]); right; right; exists false;
        repeat (split; [done|]);
        by destruct attributes.
    + simplify_eq. repeat (split; [done|]). right. left. eauto.
Qed.

(** X18.  The store the constructor builds holds what it was given, with
    the text key first among the query attributes, and its multi-tenancy
    flag is the one the engine reports for the collection, whatever
    [use_multi_tenancy] says.  The constructor ends on that look-up, and
    sends nothing to the collection's data. *)
Theorem constructor_reads_multi_tenancy_from_engine client collections index_name
    text_key embedding attributes fn use_multi_tenancy w store calls w' :
  __init__ (AClient client collections) index_name text_key embedding attributes fn
    use_multi_tenancy w = (Ok store, calls, w') ->
  collection_multi_tenancy collections (_index_name store)
  = Ok (_multi_tenancy_enabled store)
  /\ last calls = Some (CollectionConfigGet (_index_name store))
  /\ _client store = client
  /\ _embedding store = embedding
  /\ _text_key store = text_key
  /\ _query_attrs store = text_key :: default [] attributes
  /\ _select_relevance_score_fn store = default _default_score_normalizer fn
  /\ engine_calls w' = engine_calls w.
Proof.
  intros Hrun. apply init_cases in Hrun as (Hc & _ & _ & _ & Hcases).
  destruct Hcases as [(e & _ & [=] & _)|[(e & _ & _ & [=] & _)|Hok]].
  destruct Hok as (found & _ & _ & -> & Hstore).
  destruct (collection_multi_tenancy collections _) as [enabled|e] eqn:Hmt; [|done].
  injection Hstore as ->. cbn. split; [done|]. split.
  { change (?x :: ?l ++ ?l') with ((x :: l) ++ l'). apply last_snoc. }
  do 4 (split; [done|]). split; [|exact Hc].
  unfold _select_relevance_score_fn. cbn. by destruct fn.
Qed.

(** the schema of a collection the constructor creates *)
Lemma constructor_schema client collections index_name text_key embedding attributes
    fn use_multi_tenancy w r calls w' schema :
  __init__ (AClient client collections) index_name text_key embedding attributes fn
    use_multi_tenancy w = (r, calls, w') ->
  CollectionsCreateFromDict schema ∈ calls ->
  collections_exists collections (index_name_chosen index_name (uuids_drawn w))
  = Ok false
  /\ calls !! 1 = Some (CollectionsCreateFromDict schema)
  /\ schema
     = set_multi_tenancy
         (_default_schema (index_name_chosen index_name (uuids_drawn w)))
         use_multi_tenancy.
Proof.
  intros Hrun Hin. apply init_cases in Hrun as (_ & _ & _ & _ & Hcases).
  destruct Hcases
    as [(e & Hex & _ & ->)|[(e & Hex & _ & _ & ->)|(found & Hex & _ & -> & _)]].
  - apply list_elem_of_singleton in Hin. done.
  - rewrite !elem_of_cons in Hin.
    destruct Hin as [?|[[= ->]|Hin]]; [done| |by apply elem_of_nil in Hin]. done.
  - destruct found; cbn in *.
    + rewrite !elem_of_cons in Hin.
      destruct Hin as [?|[?|Hin]]; [done..|by apply elem_of_nil in Hin].
    + rewrite !elem_of_cons in Hin.
      destruct Hin as [?|[[= ->]|[?|Hin]]]; [done| |done|by apply elem_of_nil in Hin].
      done.
Qed.

(** X19.  The constructor first asks whether the collection exists, and
    creates it only when the engine says it does not.  The schema it creates
    is named after the collection, has the one property "text" of type text
    whatever the text key, and has multi-tenancy as [use_multi_tenancy]
    says. *)
Theorem constructor_creates_only_an_absent_collection client collections index_name
    text_key embedding attributes fn use_multi_tenancy w r calls w' :
  __init__ (AClient client collections) index_name text_key embedding attributes fn
    use_multi_tenancy w = (r, calls, w') ->
  let chosen := index_name_chosen index_name (uuids_drawn w) in
  head calls = Some (CollectionsExists chosen)
  /\ (forall schema,
        CollectionsCreateFromDict schema ∈ calls ->
        collections_exists collections chosen = Ok false
        /\ calls !! 1 = Some (CollectionsCreateFromDict schema)
        /\ class_name schema = chosen
        /\ schema_properties schema = [{| name := "text"; dataType := ["text"] |}]
        /\ MultiTenancyConfig schema = Some use_multi_tenancy)
  /\ (collections_exists collections chosen = Ok false ->
      exists schema, calls !! 1 = Some (CollectionsCreateFromDict schema)).
Proof.
  intros Hrun chosen. apply init_cases in Hrun as (_ & _ & _ & _ & Hcases).
  fold chosen in Hcases.
  destruct Hcases
    as [(e & Hex & _ & ->)|[(e & Hex & _ & _ & ->)|(found & Hex & _ & -> & _)]].
  - split; [done|]. split; [|congruence].
    intros schema Hin. apply list_elem_of_singleton in Hin. done.
  - split; [done|]. split; [|by eexists].
    intros schema Hin. rewrite !elem_of_cons in Hin.
    destruct Hin as [?|[[= ->]|Hin]]; [done| |by apply elem_of_nil in Hin]. done.
  - split; [done|]. destruct found; cbn.
    + split; [|congruence]. intros schema Hin. rewrite !elem_of_cons in Hin.
      destruct Hin as [?|[?|Hin]]; [done..|by apply elem_of_nil in Hin].
    + split; [|by eexists]. intros schema Hin. rewrite !elem_of_cons in Hin.
      destruct Hin as [?|[[= ->]|[?|Hin]]]; [done| |done|by apply elem_of_nil in Hin].
      done.
Qed.

(** the hexadecimal form of a UUID has no dash *)
Lemma uuid_hex_no_dash s i : String.get i (uuid_hex s) <> Some "-"%char.
Proof.
  revert i. induction s as [|c s IH]; intros i; cbn; [by destruct i|].
  destruct (Ascii.eqb_spec c "-"%char) as [->|Hc]; [apply IH|].
  destruct i as [|i]; cbn; [congruence|apply IH].
Qed.

(** X20.  A constructor called with no index name, or with an empty one,
    names the collection "LangChain_" followed by the hexadecimal form of a
    fresh UUID, which has no dash; a name that is passed is used as it is,
    and no UUID is drawn. *)
Theorem constructor_names_the_collection client collections index_name text_key
    embedding attributes fn use_multi_tenancy w store calls w' :
  __init__ (AClient client collections) index_name text_key embedding attributes fn
    use_multi_tenancy w = (Ok store, calls, w') ->
  match index_name with
  | Some (String c s) =>
      _index_name store = String c s /\ uuids_drawn w' = uuids_drawn w
  | _ =>
      exists hex,
        _index_name store = "LangChain_" +:+ hex
        /\ hex = uuid_hex (uuid4 (uuids_drawn w))
        /\ (forall i, String.get i hex <> Some "-"%char)
        /\ uuids_drawn w' = S (uuids_drawn w)
  end.
Proof.
  intros Hrun. apply init_cases in Hrun as (_ & _ & _ & Hu & Hcases).
  assert (_index_name store = index_name_chosen index_name (uuids_drawn w)) as Hname.
  { destruct Hcases as [(e & _ & [=] & _)|[(e & _ & _ & [=] & _)|Hok]].
    destruct Hok as (found & _ & _ & _ & Hstore).
    destruct (collection_multi_tenancy collections _); [|done].
    by injection Hstore as ->. }
  unfold index_name_chosen in Hname.
  destruct index_name as [[|c s]|]; cbn in Hname, Hu.
  - eexists. split; [exact Hname|]. split; [done|].
    split; [apply uuid_hex_no_dash|lia].
  - split; [done|lia].
  - eexists. split; [exact Hname|]. split; [done|].
    split; [apply uuid_hex_no_dash|lia].
Qed.

(** the runs of [from_texts]: the constructor fails, or [add_texts] runs
    on the store it built *)
Lemma from_texts_cases texts embedding client metadatas tenant index_name text_key
    fn kwargs w r calls w' :
  from_texts texts embedding client metadatas tenant index_name text_key fn kwargs w
  = (r, calls, w') ->
  exists attributes,
    (forall key, key ∈ default [] attributes
                 <-> exists md rest, metadatas = Some (md :: rest) /\ is_Some (md !! key))
    /\ ((exists e,
           __init__ client index_name text_key embedding attributes fn
             (negb (is_none tenant)) w = (Raise e, calls, w')
           /\ r = Raise e)
        \/ (exists store w1 r2,
              __init__ client index_name text_key embedding attributes fn
                (negb (is_none tenant)) w = (Ok store, calls, w1)
              /\ call_add_texts store texts metadatas tenant kwargs w1 = (r2, w')
              /\ r = match r2 with Ok _ => Ok store | Raise e => Raise e end)).
Proof.
  unfold from_texts. intros Hrun.
  set (attributes := match metadatas with
                     | Some (md :: _) => Some (map_to_list md).*1
                     | _ => None
                     end) in *.
  exists attributes. split.
  { intros key. unfold attributes. destruct metadatas as [[|md rest]|]; cbn.
    - split; [by intros ?%elem_of_nil|by intros (? & ? & [=] & _)].
    - rewrite list_elem_of_fmap. split.
      + intros [[key' v] [-> Hin]]. apply elem_of_map_to_list in Hin.
        exists md, rest. split; [done|]. by eexists.
      + intros (md' & rest' & [= <- <-] & [v Hv]). exists (key, v).
        split; [done|]. by apply elem_of_map_to_list.
    - split; [by intros ?%elem_of_nil|by intros (? & ? & [=] & _)]. }
  destruct (__init__ _ _ _ _ _ _ _ w) as [[[store|e] calls0] w1] eqn:Hinit.
  - destruct (call_add_texts store texts metadatas tenant kwargs w1)
      as [r2 w2] eqn:Hadd.
    right. exists store, w1, r2. destruct r2; by simplify_eq.
  - simplify_eq. left. eauto.
Qed.

(** X21.  The store [from_texts] returns is the one its constructor built,
    for the embedding provider and text key passed; its query attributes
    are the text key and the keys of the first metadata dictionary; and it
    is returned only after [add_texts] went through on it, for the texts,
    metadata, tenant and keyword arguments passed. *)
Theorem from_texts_builds_then_adds texts embedding client collections metadatas
    tenant index_name text_key fn kwargs w store calls w' :
  from_texts texts embedding (AClient client collections) metadatas tenant
    index_name text_key fn kwargs w = (Ok store, calls, w') ->
  _embedding store = embedding
  /\ _text_key store = text_key
  /\ _index_name store = index_name_chosen index_name (uuids_drawn w)
  /\ (forall key,
        key ∈ _query_attrs store
        <-> key = text_key
            \/ exists md rest, metadatas = Some (md :: rest) /\ is_Some (md !! key))
  /\ exists w1 ids,
       engine_calls w1 = engine_calls w
       /\ add_texts store texts metadatas tenant kwargs w1 = (Ok ids, w').
Proof.
  intros Hrun. apply from_texts_cases in Hrun as (attributes & Hattrs & Hcases).
  destruct Hcases as [(e & _ & [=])|(store' & w1 & r2 & Hinit & Hadd & Hr)].
  destruct r2 as [ids|e]; [|done]. injection Hr as <-.
  apply init_cases in Hinit as (Hc & _ & _ & _ & Hcases).
  destruct Hcases as [(e & _ & [=] & _)|[(e & _ & _ & [=] & _)|Hok]].
  destruct Hok as (found & _ & _ & _ & Hstore).
  destruct (collection_multi_tenancy collections _) as [enabled|e]; [|done].
  injection Hstore as Hstore. rewrite Hstore in Hadd |- *. cbn.
  do 3 (split; [done|]). split.
  - intros key. rewrite elem_of_cons, Hattrs. done.
  - exists w1, ids. split; [done|]. unfold call_add_texts in Hadd.
    by repeat case_match.
Qed.

(** X22.  [from_texts] called with something that is no client, the
    default [None] included, raises before any request.  On a client, a
    collection it creates has multi-tenancy on exactly when a tenant is
    passed, be it the empty string; and nothing is written unless the
    constructor got to the end, the look-up of the collection's
    configuration. *)
Theorem from_texts_asks_multi_tenancy_for_a_tenant texts embedding client metadatas
    tenant index_name text_key fn kwargs w r calls w' :
  from_texts texts embedding client metadatas tenant index_name text_key fn kwargs w
  = (r, calls, w') ->
  (forall type_repr, client = NotAClient type_repr ->
     r = Raise (ValueError
                  ("client should be an instance of weaviate.WeaviateClient, got "
                   +:+ type_repr))
     /\ calls = [] /\ w' = w)
  /\ (forall schema, CollectionsCreateFromDict schema ∈ calls ->
        MultiTenancyConfig schema = Some (negb (is_none tenant)))
  /\ (engine_calls w' <> engine_calls w ->
      exists chosen, last calls = Some (CollectionConfigGet chosen)).
Proof.
  intros Hrun. destruct client as [type_repr|client collections].
  { cbn in Hrun. injection Hrun as <- <- <-. split; [by intros ? [= <-]|].
    split; [by intros ? ?%elem_of_nil|done]. }
  split; [by intros ? [=]|].
  apply from_texts_cases in Hrun as (attributes & _ & Hcases).
  pose proof (constructor_schema client collections index_name text_key embedding
                attributes fn (negb (is_none tenant)) w) as Hschema.
  destruct Hcases as [(e & Hinit & ->)|(store & w1 & r2 & Hinit & Hadd & Hr)].
  - split; [intros schema Hin;
             by destruct (Hschema _ _ _ schema Hinit Hin) as (_ & _ & ->)|].
    apply init_cases in Hinit as (Hc & _). done.
  - split; [intros schema Hin;
             by destruct (Hschema _ _ _ schema Hinit Hin) as (_ & _ & ->)|]. intros _.
    apply init_cases in Hinit as (_ & _ & _ & _ & Hcases).
    destruct Hcases as [(e & _ & [=] & _)|[(e & _ & _ & [=] & _)|Hok]].
    destruct Hok as (found & _ & _ & -> & _). eexists.
    change (?x :: ?l ++ ?l') with ((x :: l) ++ l'). apply last_snoc.
Qed.

(** X23.  [from_texts] with a tenant, on a collection that exists with
    multi-tenancy off, builds the store without creating anything and then
    fails in [add_texts], on the assertion of the tenant look-up: nothing
    is written. *)
Theorem from_texts_tenant_on_single_tenant_collection texts embedding client
    collections metadatas tenant index_name text_key fn kwargs w :
  py_truthy tenant = true ->
  add_texts_keywords_fit kwargs = true ->
  collections_exists collections (index_name_chosen index_name (uuids_drawn w))
  = Ok true ->
  collection_multi_tenancy collections (index_name_chosen index_name (uuids_drawn w))
  = Ok false ->
  exists w',
    from_texts texts embedding (AClient client collections) metadatas tenant
      index_name text_key fn kwargs w
    = (Raise (AssertionError
         "Cannot check for tenant existence when multi-tenancy is not enabled"),
       [CollectionsExists (index_name_chosen index_name (uuids_drawn w));
        CollectionConfigGet (index_name_chosen index_name (uuids_drawn w))],
       w')
    /\ engine_calls w' = engine_calls w.
Proof.
  intros Ht Hfit Hex Hmt.
  destruct (from_texts texts embedding (AClient client collections) metadatas tenant
              index_name text_key fn kwargs w) as [[r calls] w'] eqn:Hrun.
  exists w'. apply from_texts_cases in Hrun as (attributes & _ & Hcases).
  assert (forall r0 calls0 w0,
            __init__ (AClient client collections) index_name text_key embedding
              attributes fn (negb (is_none tenant)) w = (r0, calls0, w0) ->
            engine_calls w0 = engine_calls w
            /\ calls0 = [CollectionsExists (index_name_chosen index_name (uuids_drawn w));
                         CollectionConfigGet
                           (index_name_chosen index_name (uuids_drawn w))]
            /\ exists store, r0 = Ok store /\ _multi_tenancy_enabled store = false)
    as Hinit'.
  { intros r0 calls0 w0 Hinit.
    apply init_cases in Hinit as (Hc & _ & _ & _ & Hcases').
    destruct Hcases'
      as [(e & Hex' & _)|[(e & Hex' & _)|(found & Hex' & _ & -> & Hstore)]];
      [congruence..|].
    rewrite Hex in Hex'. injection Hex' as <-. rewrite Hmt in Hstore.
    split; [done|]. split; [done|]. by eexists. }
  destruct Hcases as [(e & Hinit & ->)|(store & w1 & r2 & Hinit & Hadd & ->)];
    apply Hinit' in Hinit as (Hc & -> & store' & Hr & Hoff); [done|].
  injection Hr as <-.
  unfold add_texts_keywords_fit in Hfit.
  repeat (apply andb_prop in Hfit as [Hfit ?]).
  repeat match goal with
         | H : bool_decide _ = true |- _ => apply bool_decide_eq_true in H
         end.
  unfold call_add_texts in Hadd.
  rewrite !bool_decide_eq_false_2 in Hadd by (intros [? ?]; congruence).
  cbn in Hadd.
  rewrite (add_texts_tenant_needs_no_write store texts metadatas tenant kwargs w1)
    in Hadd by done.
  by injection Hadd as <- <-.
Qed.

End Store.

(** ** The theorems at the sample inputs *)

(** C1, counterexample to the claim as stated: over an engine that answers
    hybrid queries, a hybrid search on a store with no embedding provider
    raises and sends nothing. *)
Lemma hybrid_without_embedding_counterexample :
  query_hybrid (_client store_without_embedding) PNone
    {[ "query" := PStr "hello"; "limit" := PInt 4 ]}
  = Ok {| objects := [hello_object] |}
  /\ _perform_search sample_str_nonstring store_without_embedding
       (PStr "hello") (PInt 4) PNone (PBool false) (PStr "hybrid") PNone ∅ empty_world
     = (Raise (ValueError embedding_required_message), empty_world)
  /\ similarity_search sample_str_nonstring store_without_embedding
       (PStr "hello") (PInt 4) PNone ∅ empty_world
     = (Raise (ValueError embedding_required_message), empty_world).
Proof. split; [|split]; vm_compute; reflexivity. Qed.

(** C1 as amended, at a store with no embedding provider. *)
Lemma hybrid_without_embedding_witness :
  _embedding store_without_embedding = None
  /\ _perform_search sample_str_nonstring store_without_embedding
       (PStr "hello") (PInt 4) PNone (PBool true) (PStr "hybrid") PNone
       {[ "alpha" := PFloat 0.5%float ]} empty_world
     = (Raise (ValueError embedding_required_message), empty_world)
  /\ default (PStr "hybrid") ((∅ : gmap string pyval) !! "search_method")
     = PStr "hybrid"
  /\ similarity_search sample_str_nonstring store_without_embedding
       (PStr "hello") (PInt 4) PNone ∅ empty_world
     = (Raise (ValueError embedding_required_message), empty_world).
Proof.
  split; [reflexivity|].
  destruct (hybrid_without_embedding_raises sample_str_nonstring
              store_without_embedding eq_refl) as [Hsearch Hpublic].
  split; [apply Hsearch|]. split; [reflexivity|].
  destruct (Hpublic (PStr "hello") (PInt 4) PNone ∅ empty_world)
    as (e & -> & He); [reflexivity|].
  by rewrite He.
Defined.

(** C2, for two texts on an engine that reports the second write as failed:
    both ids come back, and the failure is in the log. *)
Lemma add_texts_witness :
  exists ids w',
    add_texts sample_str_nonstring sample_uuid4 store_with_failing_writes
      ["hello"; "world"]
      (Some [{[ "source" := PStr "x" ]}; {[ "source" := PStr "y" ]}]) PNone ∅
      empty_world = (Ok ids, w')
    /\ length ids = 2
    /\ ids !! 1 = Some (PStr "22222222-2222-4222-8222-222222222222")
    /\ error_log w'
       = ["Failed to add object: 22222222-2222-4222-8222-222222222222"
          +:+ String (Ascii.ascii_of_nat 10) "Reason: write failed"].
Proof.
  destruct (add_texts_returns_every_id sample_str_nonstring sample_uuid4
              store_with_failing_writes ["hello"; "world"]
              (Some [{[ "source" := PStr "x" ]}; {[ "source" := PStr "y" ]}])
              PNone ∅ empty_world)
    as (ids & w' & Hrun & Hlen & Hids & Hlog).
  - intros ms [= <-]. reflexivity.
  - exact I.
  - left. reflexivity.
  - eexists. split; reflexivity.
  - intros obj. reflexivity.
  - exists ids, w'. split; [exact Hrun|]. split; [exact Hlen|]. split; [|exact Hlog].
    destruct (Hids 1 "world" eq_refl) as (o & _ & -> & _ & Hid).
    f_equal. exact Hid.
Defined.

(** C3, at a store with no embedding provider over an engine that answers. *)
Lemma text_mode_witness :
  _embedding store_without_embedding = None
  /\ (exists hits args,
        _perform_search sample_str_nonstring store_without_embedding
          (PStr "hello") (PInt 4) PNone (PBool false) (PStr "near_text") PNone ∅
          empty_world
        = (Ok hits, record_call (QueryNearText PNone args) empty_world)
        /\ length hits = 1
        /\ args !! "query" = Some (PStr "hello") /\ args !! "limit" = Some (PInt 4))
  /\ _perform_search sample_str_nonstring store_without_embedding
       (PStr "hello") (PInt 4) PNone (PBool false) (PStr "near_vector") PNone ∅
       empty_world
     = (Raise (ValueError embedding_required_message), empty_world).
Proof.
  split; [reflexivity|].
  destruct (text_mode_needs_no_embedding sample_str_nonstring store_without_embedding
              (PStr "hello") (PInt 4) PNone (PBool false) PNone ∅ empty_world eq_refl)
    as [Htext Hvector].
  split; [|exact Hvector].
  apply (Htext eq_refl eq_refl eq_refl eq_refl {| objects := [hello_object] |}).
  - intros args. reflexivity.
  - repeat constructor; by eexists.
Defined.

(** C4, for a tenant passed to a store without multi-tenancy. *)
Lemma tenant_scope_witness :
  tenant_mismatch store_without_embedding (PStr "tenant-a") = true
  /\ (exists msg,
        delete_ store_without_embedding (PList [PStr "id-1"]) (PStr "tenant-a") ∅
          empty_world
        = (Raise (ValueError msg), empty_world))
  /\ (exists e,
        _perform_search sample_str_nonstring store_without_embedding
          (PStr "hello") (PInt 4) PNone (PBool false) (PStr "near_text")
          (PStr "tenant-a") ∅ empty_world
        = (Raise e, empty_world)
        /\ (return_properties_is_list ∅ = true -> exists msg, e = ValueError msg)).
Proof.
  split; [reflexivity|].
  destruct (tenant_scope_mismatch_is_rejected sample_str_nonstring
              store_without_embedding (PStr "tenant-a") eq_refl)
    as (_ & Hsearch & Hdelete).
  split; [apply Hdelete|apply Hsearch].
Defined.

(** C5, over an engine whose near-text query raises. *)
Lemma query_error_witness :
  query_reply (_client store_on_failing_engine)
    (QueryNearText PNone {[ "query" := PStr "hello"; "limit" := PInt 4 ]})
  = Some (Raise (WeaviateQueryException "boom"))
  /\ (_perform_search sample_str_nonstring store_on_failing_engine
        (PStr "hello") (PInt 4) PNone (PBool false) (PStr "near_text") PNone ∅
        empty_world).1
     = Raise (ValueError "Error during query: boom").
Proof.
  split; [reflexivity|].
  eapply (proj2 (query_errors_are_rewrapped sample_str_nonstring
                   store_on_failing_engine (PStr "hello") (PInt 4) PNone
                   (PBool false) (PStr "near_text") PNone ∅ empty_world)).
  - apply surjective_pairing.
  - vm_compute. reflexivity.
  - reflexivity.
Defined.

(** In a collection whose text key is "score", an object returned with its
    relevance score: the text is the content, and the entry under "score"
    in the metadata is the engine's score, not the text. *)
Example text_key_named_as_engine_field :
  document_of_object sample_str_nonstring "score" (PBool false) (PBool false)
    score_keyed_object
  = Ok (Plain {| page_content := PStr "hello";
                 metadata := {[ "score" := PFloat 0.5%float;
                                "source" := PStr "x" ]} |}).
Proof. vm_compute. reflexivity. Qed.

(** C6, at the object stored for "hello" with its source. *)
Lemma normalization_witness :
  document_of_object sample_str_nonstring "text" (PBool false) (PBool false)
    hello_object
  = Ok (Plain {| page_content := PStr "hello";
                 metadata := {[ "source" := PStr "x" ]} |})
  /\ properties hello_object !! "text" = Some (PStr "hello")
  /\ (exists hit',
        document_of_object sample_str_nonstring "text" (PBool false) (PBool false)
          (with_text hello_object "text" (PStr "bye")) = Ok hit'
        /\ page_content (hit_document hit') = PStr "bye"
        /\ metadata (hit_document hit') = {[ "source" := PStr "x" ]})
  /\ ({[ "source" := PStr "x" ]} : gmap string pyval) !! "source" = Some (PStr "x")
  /\ ({[ "source" := PStr "x" ]} : gmap string pyval) !! "text" = None.
Proof.
  assert (document_of_object sample_str_nonstring "text" (PBool false) (PBool false)
            hello_object
          = Ok (Plain {| page_content := PStr "hello";
                         metadata := {[ "source" := PStr "x" ]} |})) as Hdoc.
  { etransitivity.
    - apply (proj2 (normalization_moves_text_into_content sample_str_nonstring
                      "text" (PBool false) (PBool false) hello_object)
               "hello" {[ "source" := PStr "x" ]}); try reflexivity.
      apply (bool_decide_unpack _). vm_compute. reflexivity.
    - reflexivity. }
  split; [exact Hdoc|].
  destruct (proj1 (normalization_moves_text_into_content sample_str_nonstring
                     "text" (PBool false) (PBool false) hello_object) _ Hdoc)
    as (Hcontent & Hmoved & _ & Hprops & Hnone).
  split; [exact Hcontent|]. split; [exact (Hmoved (PStr "bye"))|]. split.
  - apply (Hprops "source"); [discriminate|reflexivity..].
  - apply Hnone; reflexivity.
Defined.

(** C7, over an engine that returns a relevance score and its explanation. *)
Lemma score_witness :
  exists hits w',
    similarity_search_with_score sample_str_nonstring store_with_scores
      (PStr "hello") (PInt 4) ∅ empty_world = (Ok hits, w')
    /\ map (fun hit => match hit with
                        | Scored _ score => score
                        | Plain _ => PNone
                        end) hits = [PStr "0.5: hybrid"]
    /\ exists c, w' = record_call c empty_world.
Proof.
  eexists _, _. split; [vm_compute; reflexivity|]. split; [reflexivity|].
  edestruct (score_concatenates_relevance_and_explanation sample_str_nonstring
               store_with_scores (PStr "hello") (PInt 4) ∅ empty_world)
    as (c & reply & Hw & _); [vm_compute; reflexivity|].
  exists c. exact Hw.
Defined.

(** C8, monotonicity between 0 and 1. *)
Lemma score_normalizer_witness :
  (0 <= 1)%R
  /\ (_default_score_normalizer 0 <= _default_score_normalizer 1)%R.
Proof.
  split; [lra|].
  apply (proj1 (proj2 (proj2 default_score_normalizer_logistic))). lra.
Defined.


(** C10, at a store with no embedding provider. *)
Lemma search_by_vector_witness :
  _embedding store_without_embedding = None
  /\ similarity_search_by_vector sample_str_nonstring store_without_embedding
       (sample_vector 1 0) (PInt 4) ∅ empty_world
     = (Raise (ValueError embedding_required_message), empty_world).
Proof.
  split; [reflexivity|].
  destruct (search_by_vector_requires_embedding sample_str_nonstring
              store_without_embedding (sample_vector 1 0) (PInt 4) ∅ empty_world
              eq_refl) as (e & -> & He).
  by rewrite He.
Defined.

(** ** The further properties at the sample inputs *)

(** X1, for a near-text search on a store with no embedding provider. *)
Lemma without_embedding_sent_witness :
  exists r w',
    _perform_search sample_str_nonstring store_without_embedding
      (PStr "hello") (PInt 4) PNone (PBool false) (PStr "near_text") PNone ∅
      empty_world = (r, w')
    /\ (w' = empty_world
        \/ (py_eq_str (PStr "near_text") "near_text" = true
            /\ exists args, w' = record_call (QueryNearText PNone args) empty_world)).
Proof.
  pose (run := _perform_search sample_str_nonstring store_without_embedding
                 (PStr "hello") (PInt 4) PNone (PBool false) (PStr "near_text") PNone
                 ∅ empty_world).
  assert (run = (run.1, run.2)) as Hrun by apply surjective_pairing.
  exists run.1, run.2. split; [exact Hrun|].
  exact (without_embedding_only_near_text_is_sent sample_str_nonstring
           store_without_embedding (PStr "hello") (PInt 4) PNone (PBool false)
           (PStr "near_text") PNone ∅ empty_world run.1 run.2 eq_refl Hrun).
Defined.

(** X2, for a hybrid search that restricts the returned properties and asks
    for identifiers. *)
Lemma search_forwards_witness :
  exists r w' c,
    _perform_search sample_str_nonstring store_with_scores
      (PStr "hello") (PInt 4) PNone (PBool false) (PStr "hybrid") PNone
      {[ "return_properties" := PList [PStr "source"];
         "return_uuids" := PBool true ]} empty_world = (r, w')
    /\ engine_calls w' = engine_calls empty_world ++ [c]
    /\ call_tenant c = PNone
    /\ call_args c !! "limit" = Some (PInt 4)
    /\ call_args c !! "return_uuids" = None
    /\ exists l', call_args c !! "return_properties" = Some (PList l')
         /\ PStr "text" ∈ l'.
Proof.
  pose (run := _perform_search sample_str_nonstring store_with_scores
                 (PStr "hello") (PInt 4) PNone (PBool false) (PStr "hybrid") PNone
                 {[ "return_properties" := PList [PStr "source"];
                    "return_uuids" := PBool true ]} empty_world).
  assert (run = (run.1, run.2)) as Hrun by apply surjective_pairing.
  assert (engine_calls run.2 = engine_calls empty_world ++ [last_call run.2])
    as Hsent by (vm_compute; reflexivity).
  destruct (search_forwards_keyword_arguments sample_str_nonstring store_with_scores
              (PStr "hello") (PInt 4) PNone (PBool false) (PStr "hybrid") PNone
              {[ "return_properties" := PList [PStr "source"];
                 "return_uuids" := PBool true ]} empty_world
              run.1 run.2 (last_call run.2) Hrun Hsent)
    as (Ht & Hl & Hu & Hp & _).
  destruct (Hp [PStr "source"] eq_refl) as (l' & Hl' & Hin & _).
  exists run.1, run.2, (last_call run.2).
  split; [exact Hrun|]. split; [exact Hsent|]. split; [exact Ht|].
  split; [exact Hl|]. split; [exact Hu|]. exists l'. split; [exact Hl'|exact Hin].
Defined.

(** X3, for a hybrid search with a keyword query. *)
Lemma hybrid_sends_witness :
  exists r w' c emb v args,
    _perform_search sample_str_nonstring store_with_scores
      (PStr "hello") (PInt 4) (PStr "greeting") (PBool false) (PStr "hybrid") PNone ∅
      empty_world = (r, w')
    /\ engine_calls w' = engine_calls empty_world ++ [c]
    /\ _embedding store_with_scores = Some emb
    /\ embed_query emb (PStr "hello") = Ok v
    /\ c = QueryHybrid PNone args
    /\ args !! "vector" = Some v
    /\ args !! "query" = Some (PStr "greeting").
Proof.
  pose (run := _perform_search sample_str_nonstring store_with_scores
                 (PStr "hello") (PInt 4) (PStr "greeting") (PBool false)
                 (PStr "hybrid") PNone ∅ empty_world).
  assert (run = (run.1, run.2)) as Hrun by apply surjective_pairing.
  assert (engine_calls run.2 = engine_calls empty_world ++ [last_call run.2])
    as Hsent by (vm_compute; reflexivity).
  destruct (hybrid_sends_keyword_query_and_embedding sample_str_nonstring
              store_with_scores (PStr "hello") (PInt 4) (PStr "greeting")
              (PBool false) PNone ∅ empty_world run.1 run.2 (last_call run.2)
              Hrun Hsent)
    as (emb & v & args & He & Hv & Hc & Hvec & Hq).
  exists run.1, run.2, (last_call run.2), emb, v, args.
  split; [exact Hrun|]. split; [exact Hsent|]. split; [exact He|].
  split; [exact Hv|]. split; [exact Hc|]. split; [exact Hvec|exact Hq].
Defined.

(** X4, for the mode "bm25". *)
Lemma unknown_search_method_witness :
  _perform_search sample_str_nonstring store_with_scores
    (PStr "hello") (PInt 4) PNone (PBool false) (PStr "bm25") PNone ∅ empty_world
  = (Raise (ValueError "Invalid search method: bm25"), empty_world).
Proof.
  destruct (unknown_search_method_is_rejected sample_str_nonstring store_with_scores
              (PStr "hello") (PInt 4) PNone (PBool false) (PStr "bm25") PNone ∅
              empty_world eq_refl eq_refl eq_refl) as (e & -> & He).
  rewrite He; [reflexivity|discriminate|reflexivity|reflexivity].
Defined.

(** X5, for a search with scores over an engine that returns one object. *)
Lemma search_returns_witness :
  exists hits w' c reply,
    _perform_search sample_str_nonstring store_with_scores
      (PStr "hello") (PInt 4) PNone (PBool true) (PStr "hybrid") PNone ∅ empty_world
    = (Ok hits, w')
    /\ w' = record_call c empty_world
    /\ query_reply (_client store_with_scores) c = Some (Ok reply)
    /\ length hits = length (objects reply).
Proof.
  destruct (_perform_search sample_str_nonstring store_with_scores
              (PStr "hello") (PInt 4) PNone (PBool true) (PStr "hybrid") PNone ∅
              empty_world) as [[hits|e] w'] eqn:Hrun; [|by vm_compute in Hrun].
  destruct (search_returns_one_hit_per_object sample_str_nonstring store_with_scores
              (PStr "hello") (PInt 4) PNone (PBool true) (PStr "hybrid") PNone ∅
              empty_world hits w' Hrun) as (c & reply & Hw & Hq & Hlen & _).
  exists hits, w', c, reply.
  split; [reflexivity|]. split; [exact Hw|]. split; [exact Hq|exact Hlen].
Defined.

(** X6, for a search that asks for identifiers. *)
Lemma reserved_keys_witness :
  exists hits w' c reply,
    _perform_search sample_str_nonstring store_with_scores
      (PStr "hello") (PInt 4) PNone (PBool false) (PStr "hybrid") PNone
      {[ "return_uuids" := PBool true ]} empty_world = (Ok hits, w')
    /\ query_reply (_client store_with_scores) c = Some (Ok reply)
    /\ Forall2 (fun obj hit =>
                  metadata (hit_document hit) !! "uuid" = Some (PStr (uuid obj)))
               (objects reply) hits.
Proof.
  destruct (_perform_search sample_str_nonstring store_with_scores
              (PStr "hello") (PInt 4) PNone (PBool false) (PStr "hybrid") PNone
              {[ "return_uuids" := PBool true ]} empty_world)
    as [[hits|e] w'] eqn:Hrun; [|by vm_compute in Hrun].
  destruct (reserved_keys_of_returned_documents sample_str_nonstring
              store_with_scores (PStr "hello") (PInt 4) PNone (PBool false)
              (PStr "hybrid") PNone {[ "return_uuids" := PBool true ]}
              empty_world hits w' Hrun) as (c & reply & Hq & Hall).
  exists hits, w', c, reply. split; [reflexivity|]. split; [exact Hq|].
  eapply Forall2_impl; [exact Hall|]. intros obj hit (Hu & _). apply Hu. reflexivity.
Defined.

(** X7, for a text with a date, written for a tenant the engine does not
    have yet. *)
Lemma add_texts_sends_witness :
  exists r w' pre objs,
    add_texts sample_str_nonstring sample_uuid4 store_with_tenants ["hello"]
      (Some [{[ "created" := PDatetime "2024-01-01T00:00:00" ]}])
      (PStr "tenant-b") ∅ empty_world = (r, w')
    /\ engine_calls w' = engine_calls empty_world ++ pre ++ map BatchAddObject objs
    /\ (pre = [] \/ pre = [TenantsGet]
        \/ pre = [TenantsGet; TenantsCreate (PStr "tenant-b")])
    /\ Forall (fun o =>
                 bo_collection o = "Docs"
                 /\ bo_tenant o = PStr "tenant-b"
                 /\ map_Forall (fun _ v => not_datetime v = true) (bo_properties o))
              objs.
Proof.
  pose (run := add_texts sample_str_nonstring sample_uuid4 store_with_tenants
                 ["hello"]
                 (Some [{[ "created" := PDatetime "2024-01-01T00:00:00" ]}])
                 (PStr "tenant-b") ∅ empty_world).
  assert (run = (run.1, run.2)) as Hrun by apply surjective_pairing.
  destruct (add_texts_sends_tenant_calls_then_writes sample_str_nonstring
              sample_uuid4 store_with_tenants ["hello"]
              (Some [{[ "created" := PDatetime "2024-01-01T00:00:00" ]}])
              (PStr "tenant-b") ∅ empty_world run.1 run.2 Hrun)
    as (pre & objs & Hcalls & Hpre & _ & Hobjs & _).
  exists run.1, run.2, pre, objs.
  split; [exact Hrun|]. split; [exact Hcalls|]. split; [exact Hpre|].
  eapply Forall_impl; [exact Hobjs|]. intros o (Hc & Ht & Hp & _).
  split; [exact Hc|]. split; [exact Ht|exact Hp].
Defined.

(** X8, for a tenant passed to a store without multi-tenancy. *)
Lemma add_texts_tenant_witness :
  add_texts sample_str_nonstring sample_uuid4 store_without_embedding ["hello"] None
    (PStr "tenant-a") ∅ empty_world
  = (Raise (AssertionError
       "Cannot check for tenant existence when multi-tenancy is not enabled"),
     empty_world).
Proof.
  apply (add_texts_tenant_needs_multi_tenancy sample_str_nonstring sample_uuid4
           store_without_embedding ["hello"] None (PStr "tenant-a") ∅ empty_world);
    reflexivity.
Defined.

(** X9, for the tenant "tenant-b" on an engine that has "tenant-a" only. *)
Lemma add_texts_creates_tenant_witness :
  exists r w' objs,
    add_texts sample_str_nonstring sample_uuid4 store_with_tenants ["hello"] None
      (PStr "tenant-b") ∅ empty_world = (r, w')
    /\ engine_calls w'
       = [TenantsGet; TenantsCreate (PStr "tenant-b")] ++ map BatchAddObject objs
    /\ info_log w'
       = ["Tenant tenant-b does not exist in index Docs. Creating tenant."].
Proof.
  pose (run := add_texts sample_str_nonstring sample_uuid4 store_with_tenants
                 ["hello"] None (PStr "tenant-b") ∅ empty_world).
  assert (run = (run.1, run.2)) as Hrun by apply surjective_pairing.
  assert ("tenant-b" <> "") as Hname by discriminate.
  destruct (add_texts_creates_an_absent_tenant sample_str_nonstring sample_uuid4
              store_with_tenants ["hello"] None "tenant-b" ["tenant-a"] ∅
              empty_world run.1 run.2 Hname eq_refl eq_refl Hrun)
    as (objs & Hcalls & Hinfo & _).
  exists run.1, run.2, objs.
  split; [exact Hrun|]. split; [exact Hcalls|exact Hinfo].
Defined.

(** X10, for two texts and one metadata dictionary. *)
Lemma add_texts_short_metadata_witness :
  exists w',
    add_texts sample_str_nonstring sample_uuid4 store_with_scores ["hello"; "world"]
      (Some [{[ "source" := PStr "x" ]}]) PNone ∅ empty_world
    = (Raise (IndexError "list index out of range"), w')
    /\ length (batch_writes (drop (length (engine_calls empty_world))
                               (engine_calls w'))) = 1
    /\ error_log w' = error_log empty_world.
Proof.
  apply (add_texts_stops_where_metadata_ends sample_str_nonstring sample_uuid4
           store_with_scores ["hello"; "world"] [{[ "source" := PStr "x" ]}] PNone ∅
           empty_world).
  - cbn. lia.
  - exact I.
  - left. reflexivity.
  - eexists. split; reflexivity.
  - intros obj. reflexivity.
Defined.

(** X11, for a call that passes both [uuids] and [ids]. *)
Lemma add_texts_uuids_witness :
  add_texts sample_str_nonstring sample_uuid4 store_with_scores ["hello"] None PNone
    {[ "uuids" := PList [PStr "11111111-1111-4111-8111-111111111111"];
       "ids" := PList [PStr "22222222-2222-4222-8222-222222222222"] ]} empty_world
  = add_texts sample_str_nonstring sample_uuid4 store_with_scores ["hello"] None PNone
      {[ "uuids" := PList [PStr "11111111-1111-4111-8111-111111111111"] ]}
      empty_world.
Proof.
  apply (add_texts_reads_uuids_before_ids sample_str_nonstring sample_uuid4
           store_with_scores ["hello"] None PNone
           {[ "uuids" := PList [PStr "11111111-1111-4111-8111-111111111111"];
              "ids" := PList [PStr "22222222-2222-4222-8222-222222222222"] ]}
           {[ "uuids" := PList [PStr "11111111-1111-4111-8111-111111111111"] ]}
           empty_world).
  reflexivity.
Defined.

(** X12, for a search in near-text mode. *)
Lemma similarity_search_mode_witness :
  exists r w' c,
    similarity_search sample_str_nonstring store_with_scores
      (PStr "hello") (PInt 4) PNone {[ "search_method" := PStr "near_text" ]}
      empty_world = (r, w')
    /\ engine_calls w' = engine_calls empty_world ++ [c]
    /\ PStr "near_text" = PStr (call_method c)
    /\ call_tenant c = PNone
    /\ call_args c !! "limit" = Some (PInt 4).
Proof.
  pose (run := similarity_search sample_str_nonstring store_with_scores
                 (PStr "hello") (PInt 4) PNone
                 {[ "search_method" := PStr "near_text" ]} empty_world).
  assert (run = (run.1, run.2)) as Hrun by apply surjective_pairing.
  assert (engine_calls run.2 = engine_calls empty_world ++ [last_call run.2])
    as Hsent by (vm_compute; reflexivity).
  destruct (similarity_search_mode_from_keywords sample_str_nonstring
              store_with_scores (PStr "hello") (PInt 4) PNone
              {[ "search_method" := PStr "near_text" ]} empty_world
              run.1 run.2 (last_call run.2) Hrun Hsent) as (Hm & Ht & Hl).
  exists run.1, run.2, (last_call run.2).
  split; [exact Hrun|]. split; [exact Hsent|]. split; [exact Hm|].
  split; [exact Ht|exact Hl].
Defined.

(** X13, for a search by a vector. *)
Lemma search_by_vector_sends_witness :
  exists r w' c args,
    similarity_search_by_vector sample_str_nonstring store_with_scores
      (sample_vector 1 0) (PInt 4) ∅ empty_world = (r, w')
    /\ engine_calls w' = engine_calls empty_world ++ [c]
    /\ c = QueryNearVector PNone args
    /\ args !! "near_vector" = Some (sample_vector 1 0)
    /\ args !! "limit" = Some (PInt 4).
Proof.
  pose (run := similarity_search_by_vector sample_str_nonstring store_with_scores
                 (sample_vector 1 0) (PInt 4) ∅ empty_world).
  assert (run = (run.1, run.2)) as Hrun by apply surjective_pairing.
  assert (engine_calls run.2 = engine_calls empty_world ++ [last_call run.2])
    as Hsent by (vm_compute; reflexivity).
  destruct (search_by_vector_sends_the_vector sample_str_nonstring store_with_scores
              (sample_vector 1 0) (PInt 4) ∅ empty_world
              run.1 run.2 (last_call run.2) Hrun Hsent) as (args & Hc & Hv & Hl).
  exists run.1, run.2, (last_call run.2), args.
  split; [exact Hrun|]. split; [exact Hsent|]. split; [exact Hc|].
  split; [exact Hv|exact Hl].
Defined.

(** X14, at a store with no embedding provider. *)
Lemma mmr_requires_embedding_witness :
  max_marginal_relevance_search sample_str_nonstring sample_mmr
    store_without_embedding (PStr "hello") (PInt 2) (PInt 3) (PFloat 0.5%float) ∅
    empty_world
  = (Raise (ValueError
       "max_marginal_relevance_search requires a suitable Embeddings object"),
     empty_world)
  /\ max_marginal_relevance_search_by_vector sample_str_nonstring sample_mmr
       store_without_embedding (sample_vector 1 0) (PInt 2) (PInt 3)
       (PFloat 0.5%float) ∅ empty_world
     = (Raise (ValueError embedding_required_message), empty_world).
Proof.
  destruct (mmr_search_requires_embedding sample_str_nonstring sample_mmr
              store_without_embedding (PInt 2) (PInt 3) (PFloat 0.5%float) ∅
              empty_world eq_refl) as [Htext Hvector].
  split; [apply Htext|].
  destruct (Hvector (sample_vector 1 0)) as (e & -> & He).
  rewrite He; reflexivity.
Defined.

(** X15, for one id on a store without multi-tenancy. *)
Lemma delete_witness :
  delete_ store_without_embedding (PList [PStr "id-1"]) PNone ∅ empty_world
  = (Ok tt, record_call (DataDeleteMany PNone (PList [PStr "id-1"])) empty_world).
Proof.
  exact (delete_sends_one_request store_without_embedding (PList [PStr "id-1"]) PNone
           ∅ empty_world eq_refl).
Defined.

(** X17, for 1000 and 709. *)
Lemma score_normalizer_saturates_witness :
  (709 <= 1000)%R
  /\ _default_score_normalizer 1000 = _default_score_normalizer 709.
Proof.
  split; [lra|]. apply default_score_normalizer_saturates. left. lra.
Defined.

(** X18, for a collection that exists with multi-tenancy on, opened with
    [use_multi_tenancy] off. *)
Lemma constructor_flag_witness :
  exists store calls w',
    __init__ sample_uuid4
      (AClient (sample_client (Ok {| objects := [] |}) [])
         (sample_collections true true))
      (Some "Docs") "text" None (Some ["source"]) None false empty_world
    = (Ok store, calls, w')
    /\ Ok true = Ok (_multi_tenancy_enabled store)
    /\ _query_attrs store = ["text"; "source"].
Proof.
  destruct (__init__ sample_uuid4
              (AClient (sample_client (Ok {| objects := [] |}) [])
                 (sample_collections true true))
              (Some "Docs") "text" None (Some ["source"]) None false empty_world)
    as [[[store|e] calls] w'] eqn:Hrun; [|by vm_compute in Hrun].
  destruct (constructor_reads_multi_tenancy_from_engine sample_uuid4 _ _ _ _ _ _ _ _
              _ _ _ _ Hrun) as (Hmt & _ & _ & _ & _ & Hattrs & _).
  exists store, calls, w'. split; [reflexivity|]. split; [exact Hmt|exact Hattrs].
Defined.

(** X19, for a collection the engine does not have. *)
Lemma constructor_creates_witness :
  exists r calls w' schema,
    __init__ sample_uuid4
      (AClient (sample_client (Ok {| objects := [] |}) [])
         (sample_collections false true))
      (Some "Docs") "body" None None None true empty_world = (r, calls, w')
    /\ head calls = Some (CollectionsExists "Docs")
    /\ calls !! 1 = Some (CollectionsCreateFromDict schema)
    /\ class_name schema = "Docs"
    /\ schema_properties schema = [{| name := "text"; dataType := ["text"] |}]
    /\ MultiTenancyConfig schema = Some true.
Proof.
  pose (run := __init__ sample_uuid4
                 (AClient (sample_client (Ok {| objects := [] |}) [])
                    (sample_collections false true))
                 (Some "Docs") "body" None None None true empty_world).
  assert (run = (run.1.1, run.1.2, run.2)) as Hrun.
  { rewrite <- !surjective_pairing. reflexivity. }
  destruct (constructor_creates_only_an_absent_collection sample_uuid4 _ _ _ _ _ _ _
              _ _ _ _ _ Hrun) as (Hhead & Hschema & Hcreated).
  destruct (Hcreated eq_refl) as (schema & Hat).
  destruct (Hschema schema) as (_ & _ & Hn & Hp & Hmt).
  { apply list_elem_of_lookup. exists 1. exact Hat. }
  exists run.1.1, run.1.2, run.2, schema.
  split; [exact Hrun|]. split; [exact Hhead|]. split; [exact Hat|].
  split; [exact Hn|]. split; [exact Hp|exact Hmt].
Defined.

(** X20, for a constructor called with no index name. *)
Lemma constructor_names_witness :
  exists store calls w' hex,
    __init__ sample_uuid4
      (AClient (sample_client (Ok {| objects := [] |}) [])
         (sample_collections false false))
      None "text" None None None false empty_world = (Ok store, calls, w')
    /\ _index_name store = "LangChain_" +:+ hex
    /\ hex = uuid_hex (sample_uuid4 0)
    /\ (forall i, String.get i hex <> Some "-"%char)
    /\ uuids_drawn w' = 1.
Proof.
  destruct (__init__ sample_uuid4
              (AClient (sample_client (Ok {| objects := [] |}) [])
                 (sample_collections false false))
              None "text" None None None false empty_world)
    as [[[store|e] calls] w'] eqn:Hrun; [|by vm_compute in Hrun].
  destruct (constructor_names_the_collection sample_uuid4 _ _ _ _ _ _ _ _ _ _ _ _
              Hrun) as (hex & Hname & Hhex & Hdash & Hdrawn).
  exists store, calls, w', hex. split; [reflexivity|]. split; [exact Hname|].
  split; [exact Hhex|]. split; [exact Hdash|exact Hdrawn].
Defined.

(** X21, for one text with its source, on a collection that exists. *)
Lemma from_texts_builds_witness :
  exists store calls w' w1 ids,
    from_texts sample_str_nonstring sample_uuid4 ["hello"] (Some sample_embeddings)
      (AClient (sample_client (Ok {| objects := [] |}) [])
         (sample_collections true false))
      (Some [{[ "source" := PStr "x" ]}]) PNone (Some "Docs") "text" None ∅
      empty_world = (Ok store, calls, w')
    /\ _index_name store = "Docs"
    /\ ("source" ∈ _query_attrs store)
    /\ engine_calls w1 = engine_calls empty_world
    /\ add_texts sample_str_nonstring sample_uuid4 store ["hello"]
         (Some [{[ "source" := PStr "x" ]}]) PNone ∅ w1 = (Ok ids, w').
Proof.
  destruct (from_texts sample_str_nonstring sample_uuid4 ["hello"]
              (Some sample_embeddings)
              (AClient (sample_client (Ok {| objects := [] |}) [])
                 (sample_collections true false))
              (Some [{[ "source" := PStr "x" ]}]) PNone (Some "Docs") "text" None ∅
              empty_world) as [[[store|e] calls] w'] eqn:Hrun;
    [|by vm_compute in Hrun].
  destruct (from_texts_builds_then_adds sample_str_nonstring sample_uuid4 _ _ _ _ _ _
              _ _ _ _ _ _ _ _ Hrun)
    as (_ & _ & Hname & Hattrs & w1 & ids & Hc & Hadd).
  exists store, calls, w', w1, ids. split; [reflexivity|]. split; [exact Hname|].
  split; [|split; [exact Hc|exact Hadd]].
  apply Hattrs. right. eexists _, _. split; [reflexivity|]. by eexists.
Defined.

(** X22, for [from_texts] called without a client. *)
Lemma from_texts_without_client_witness :
  from_texts sample_str_nonstring sample_uuid4 ["hello"] (Some sample_embeddings)
    (NotAClient "<class 'NoneType'>") None PNone None "text" None ∅ empty_world
  = (Raise (ValueError
       "client should be an instance of weaviate.WeaviateClient, got <class 'NoneType'>"),
     [], empty_world).
Proof.
  pose (run := from_texts sample_str_nonstring sample_uuid4 ["hello"]
                 (Some sample_embeddings) (NotAClient "<class 'NoneType'>") None
                 PNone None "text" None ∅ empty_world).
  assert (run = (run.1.1, run.1.2, run.2)) as Hrun.
  { rewrite <- !surjective_pairing. reflexivity. }
  destruct (from_texts_asks_multi_tenancy_for_a_tenant sample_str_nonstring
              sample_uuid4 _ _ _ _ _ _ _ _ _ _ _ _ _ Hrun) as (Hnone & _ & _).
  destruct (Hnone _ eq_refl) as (Hr & Hcalls & Hw).
  change (run = (Raise (ValueError
            "client should be an instance of weaviate.WeaviateClient, got <class 'NoneType'>"),
          [], empty_world)).
  rewrite Hrun, Hr, Hcalls, Hw. reflexivity.
Defined.

(** X23, for a tenant on a collection that exists with multi-tenancy off. *)
Lemma from_texts_tenant_witness :
  exists w',
    from_texts sample_str_nonstring sample_uuid4 ["hello"] (Some sample_embeddings)
      (AClient (sample_client (Ok {| objects := [] |}) [])
         (sample_collections true false))
      None (PStr "tenant-a") (Some "Docs") "text" None ∅ empty_world
    = (Raise (AssertionError
         "Cannot check for tenant existence when multi-tenancy is not enabled"),
       [CollectionsExists "Docs"; CollectionConfigGet "Docs"], w')
    /\ engine_calls w' = engine_calls empty_world.
Proof.
  apply (from_texts_tenant_on_single_tenant_collection sample_str_nonstring
           sample_uuid4 ["hello"] (Some sample_embeddings)
           (sample_client (Ok {| objects := [] |}) []) (sample_collections true false)
           None (PStr "tenant-a") (Some "Docs") "text" None ∅ empty_world);
    reflexivity.
Defined.
